(** * CKEditorComponent: the readiness / data-binding handshake

    A shallow embedding of [ckeditor.component] (the Angular wrapper around a
    CKEditor 4 instance).  The component is a thin adapter: every method is a
    short sequence of reads and writes on the component fields, calls on the
    editor handle, emissions on the component outputs and calls of registered
    callbacks.  The embedding therefore is a state-and-exception monad with an
    observation log; the asynchronous parts (promise resolution, the
    [instanceReady] event, the completion callback of [setData], native editor
    events) are inputs of an event loop. *)

From Stdlib Require Import String List Bool Arith Lia.
From stdpp Require Import base option list strings.
Import ListNotations.

Local Open Scope string_scope.
Local Open Scope list_scope.

(** ** Values *)

(** What an input of the component can hold besides [null]: [undefined] (an
    input that is bound to nothing yet), or a value of the declared type.  The
    code tests its buffers with [!== null], which [undefined] passes. *)
Inductive NotNull (A : Type) : Type :=
| undefined
| value (a : A).
Arguments undefined {A}.
Arguments value {A} a.

#[global] Instance NotNull_eq_dec {A} `{EqDecision A} : EqDecision (NotNull A).
Proof. solve_decision. Defined.

(** [data: string] in a code base without strict null checks: [null]
    ([None]), [undefined] or a string.  [===] on such values is equality. *)
Definition Data : Type := option (NotNull string).

Definition data_eqb (a b : Data) : bool := bool_decide (a = b).

(** What a call gives back: a value, or an exception. *)
Inductive result (A : Type) : Type :=
| Ret (a : A)
| Throw (reason : string).
Arguments Ret {A} a.
Arguments Throw {A} reason.

(** An object reference or [null]/[undefined], read as a condition. *)
Definition truthy {A} (o : option A) : bool :=
  match o with Some _ => true | None => false end.

(** [CKEditor4.EditorType] *)
Inductive EditorType : Type := CLASSIC | INLINE.

(** The component outputs (one [EventEmitter] each). *)
Inductive Output : Type :=
| namespaceLoaded | ready | dataReady | change | dataChange
| dragStart | dragEnd | drop | fileUploadResponse | fileUploadRequest
| focus | paste | afterPaste | blur.

(** What an emission carries: the native event (known here by its name), a
    data value, or the editor namespace. *)
Inductive Payload : Type :=
| PEvent (name : string)
| PData (d : Data)
| PNamespace.

(** The handlers [subscribe] registers with [editor.on]. *)
Inductive Listener : Type :=
| LRelay (o : Output)      (* evt => ngZone.run(() => this.<o>.emit(evt)) *)
| LBlur                    (* the blur handler, which also calls onTouched *)
| LPropagateChange.        (* this.propagateChange, bound to this *)

(** What [config.on.instanceReady] can hold, as far as the code tells values
    apart: something that is not a function, a function of the user, or the
    handler that an earlier [createEditor] of this component stored there.
    That handler is a closure over the [userInstanceReadyCallback] it found
    when it was built. *)
Inductive Handler : Type :=
| NotFunction
| UserFunction
| ComponentHandler (userInstanceReadyCallback : Handler).

(** [this.config?.on], as [createEditor] tells the cases apart: absent (there
    is no [config], or it has no [on]), something that cannot take a property
    ([null] or a primitive), or an object, known here by what its
    [instanceReady] holds. *)
Inductive ConfigOn : Type :=
| OnAbsent
| OnNotObject
| OnObject (instanceReady : Handler).

(** The closure passed as [{ callback }] to [editor.setData] by the
    [instanceReady] handler.  It captures the editor, whether [undo] was
    present, and the handler's [userInstanceReadyCallback]. *)
Inductive Callback : Type :=
| CbInitialData (editor : nat) (undo : bool) (userInstanceReadyCallback : Handler).

Inductive Status : Type := Loading | Ready | Destroyed.

(** ** The editor, an external collaborator

    Only what the component touches: [getData], [setData], [readOnly],
    [setReadOnly], [undoManager] with [lock]/[unlock], [on], [fire],
    [destroy].  What the editor makes of a pushed value (content filtering)
    and of the argument of [setReadOnly] is the editor's business: each editor
    object carries these two behaviours as functions, left arbitrary. *)
Record Editor : Type := mkEditor {
  ed_data : Data;                          (* what getData() returns *)
  ed_readOnly : bool;                      (* editor.readOnly *)
  undoManager : option nat;                (* lock depth, when the plugin is loaded *)
  ed_listeners : list (string * Listener); (* registered with on(), in order *)
  ed_callbacks : list Callback;            (* setData callbacks not yet called *)
  ed_status : Status;
  ed_userCallback : Handler;               (* what its config.on.instanceReady captured *)
  ed_filter : Data -> Data -> Data;        (* pushed value, old content |-> content *)
  ed_coerce : option (NotNull bool) -> bool          (* argument of setReadOnly |-> readOnly *)
}.

Definition ed_with_data (d : Data) (e : Editor) : Editor :=
  mkEditor d (ed_readOnly e) (undoManager e) (ed_listeners e) (ed_callbacks e)
           (ed_status e) (ed_userCallback e) (ed_filter e) (ed_coerce e).
Definition ed_with_readOnly (b : bool) (e : Editor) : Editor :=
  mkEditor (ed_data e) b (undoManager e) (ed_listeners e) (ed_callbacks e)
           (ed_status e) (ed_userCallback e) (ed_filter e) (ed_coerce e).
Definition ed_with_undo (u : option nat) (e : Editor) : Editor :=
  mkEditor (ed_data e) (ed_readOnly e) u (ed_listeners e) (ed_callbacks e)
           (ed_status e) (ed_userCallback e) (ed_filter e) (ed_coerce e).
Definition ed_with_listeners (l : list (string * Listener)) (e : Editor) : Editor :=
  mkEditor (ed_data e) (ed_readOnly e) (undoManager e) l (ed_callbacks e)
           (ed_status e) (ed_userCallback e) (ed_filter e) (ed_coerce e).
Definition ed_with_callbacks (l : list Callback) (e : Editor) : Editor :=
  mkEditor (ed_data e) (ed_readOnly e) (undoManager e) (ed_listeners e) l
           (ed_status e) (ed_userCallback e) (ed_filter e) (ed_coerce e).
Definition ed_with_userCallback (b : Handler) (e : Editor) : Editor :=
  mkEditor (ed_data e) (ed_readOnly e) (undoManager e) (ed_listeners e)
           (ed_callbacks e) (ed_status e) b (ed_filter e) (ed_coerce e).
Definition ed_with_status (s : Status) (e : Editor) : Editor :=
  mkEditor (ed_data e) (ed_readOnly e) (undoManager e) (ed_listeners e)
           (ed_callbacks e) s (ed_userCallback e) (ed_filter e) (ed_coerce e).

(** ** Observations *)

Inductive Obs : Type :=
(* component outputs and registered callbacks *)
| Emit (o : Output) (p : Payload)
| CallOnChange (cb : nat) (d : Data)
| CallOnTouched (cb : nat)
| CallUserInstanceReady
(* calls on an editor handle *)
| EdSetData (h : nat) (d : Data)
| EdSetReadOnly (h : nat) (b : option (NotNull bool))
| EdOn (h : nat) (name : string) (l : Listener)
| EdFire (h : nat) (name : string)
| UndoLock (h : nat)
| UndoUnlock (h : nat)
| EdDestroy (h : nat)
(* calls on the document, the CKEDITOR namespace and its loader *)
| CreateElement (tagName : string)
| AppendChild
| GetEditorNamespace
| CKReplace (h : nat)
| CKInline (h : nat)
(* NgZone *)
| ZoneEnter | ZoneLeave
| OutsideEnter | OutsideLeave
(* window.console.error, and an exception that reached the event loop *)
| ConsoleError (reason : string)
| Uncaught (reason : string).

(** ** The component and its surroundings *)

Record World : Type := mkWorld {
  (* fields of CKEditorComponent *)
  config_on : ConfigOn;             (* this.config?.on *)
  tagName : string;
  type : EditorType;
  _readOnly : option (NotNull bool);
  _data : Data;
  _destroyed : bool;
  instance : option nat;
  onChange : option nat;
  onTouched : option nat;
  (* the surroundings *)
  editors : list Editor;            (* the editor objects, by handle *)
  document_createElement : string -> result unit;
                                    (* by tag name: an element, or an exception *)
  appendChild : nat -> result unit; (* nativeElement.appendChild, by the number
                                       of editors there are *)
  CKEDITOR : EditorType -> nat -> result Editor;
                                    (* what replace()/inline() build, or throw,
                                       by the number of editors there are *)
  pending_namespace : nat           (* then-callbacks awaiting getEditorNamespace *)
}.

Definition with_config_on (c : ConfigOn) (w : World) : World :=
  mkWorld c (tagName w) (type w) (_readOnly w) (_data w) (_destroyed w)
          (instance w) (onChange w) (onTouched w) (editors w)
          (document_createElement w) (appendChild w) (CKEDITOR w)
          (pending_namespace w).
Definition with_readOnly (b : option (NotNull bool)) (w : World) : World :=
  mkWorld (config_on w) (tagName w) (type w) b (_data w) (_destroyed w)
          (instance w) (onChange w) (onTouched w) (editors w)
          (document_createElement w) (appendChild w) (CKEDITOR w)
          (pending_namespace w).
Definition with_data (d : Data) (w : World) : World :=
  mkWorld (config_on w) (tagName w) (type w) (_readOnly w) d (_destroyed w)
          (instance w) (onChange w) (onTouched w) (editors w)
          (document_createElement w) (appendChild w) (CKEDITOR w)
          (pending_namespace w).
Definition with_destroyed (b : bool) (w : World) : World :=
  mkWorld (config_on w) (tagName w) (type w) (_readOnly w) (_data w) b
          (instance w) (onChange w) (onTouched w) (editors w)
          (document_createElement w) (appendChild w) (CKEDITOR w)
          (pending_namespace w).
Definition with_instance (i : option nat) (w : World) : World :=
  mkWorld (config_on w) (tagName w) (type w) (_readOnly w) (_data w)
          (_destroyed w) i (onChange w) (onTouched w) (editors w)
          (document_createElement w) (appendChild w) (CKEDITOR w)
          (pending_namespace w).
Definition with_onChange (c : option nat) (w : World) : World :=
  mkWorld (config_on w) (tagName w) (type w) (_readOnly w) (_data w)
          (_destroyed w) (instance w) c (onTouched w) (editors w)
          (document_createElement w) (appendChild w) (CKEDITOR w)
          (pending_namespace w).
Definition with_onTouched (c : option nat) (w : World) : World :=
  mkWorld (config_on w) (tagName w) (type w) (_readOnly w) (_data w)
          (_destroyed w) (instance w) (onChange w) c (editors w)
          (document_createElement w) (appendChild w) (CKEDITOR w)
          (pending_namespace w).
Definition with_editors (l : list Editor) (w : World) : World :=
  mkWorld (config_on w) (tagName w) (type w) (_readOnly w) (_data w)
          (_destroyed w) (instance w) (onChange w) (onTouched w) l
          (document_createElement w) (appendChild w) (CKEDITOR w)
          (pending_namespace w).
Definition with_pending (n : nat) (w : World) : World :=
  mkWorld (config_on w) (tagName w) (type w) (_readOnly w) (_data w)
          (_destroyed w) (instance w) (onChange w) (onTouched w) (editors w)
          (document_createElement w) (appendChild w) (CKEDITOR w) n.

(** ** A state-and-exception monad with a log *)

Definition M (A : Type) : Type := World -> result A * World * list Obs.

Definition ret {A} (a : A) : M A := fun w => (Ret a, w, []).
Definition throw {A} (reason : string) : M A := fun w => (Throw reason, w, []).
Definition bind {A B} (m : M A) (k : A -> M B) : M B :=
  fun w =>
    match m w with
    | (Ret a, w1, t1) =>
        match k a w1 with
        | (r, w2, t2) => (r, w2, t1 ++ t2)
        end
    | (Throw e, w1, t1) => (Throw e, w1, t1)
    end.

Declare Scope js_scope.
Delimit Scope js_scope with js.
Notation "x <- m ;; k" := (bind m (fun x => k))
  (at level 100, m at next level, right associativity) : js_scope.
Notation "m ;; k" := (bind m (fun _ => k))
  (at level 100, right associativity) : js_scope.
Local Open Scope js_scope.

Definition gets {A} (f : World -> A) : M A := fun w => (Ret (f w), w, []).
Definition modify (f : World -> World) : M unit := fun w => (Ret tt, f w, []).
Definition tell (o : Obs) : M unit := fun w => (Ret tt, w, [o]).
Definition when (b : bool) (m : M unit) : M unit := if b then m else ret tt.

(** The outcome of a call on the surroundings, as the outcome of the caller's
    statement. *)
Definition lift {A} (r : result A) : M A :=
  match r with
  | Ret a => ret a
  | Throw reason => throw reason
  end.

(** [try { m } finally { log }] around a zone: the zone is left on an
    exception too. *)
Definition bracket (enter leave : Obs) {A} (m : M A) : M A :=
  fun w =>
    match m w with
    | (r, w1, t) => (r, w1, enter :: t ++ [leave])
    end.
Definition ngZone_run {A} (m : M A) : M A := bracket ZoneEnter ZoneLeave m.
Definition ngZone_runOutsideAngular {A} (m : M A) : M A :=
  bracket OutsideEnter OutsideLeave m.

(** [promise.catch(handler)] *)
Definition catch (m : M unit) (handler : string -> M unit) : M unit :=
  fun w =>
    match m w with
    | (Ret a, w1, t1) => (Ret a, w1, t1)
    | (Throw e, w1, t1) =>
        match handler e w1 with
        | (r, w2, t2) => (r, w2, t1 ++ t2)
        end
    end.

Fixpoint forM_ {A} (l : list A) (f : A -> M unit) : M unit :=
  match l with
  | [] => ret tt
  | a :: l' => f a ;; forM_ l' f
  end.

(** ** Calls on an editor handle *)

Definition the_editor (h : nat) : M Editor :=
  fun w =>
    match editors w !! h with
    | Some e => (Ret e, w, [])
    | None => (Throw "TypeError: no such editor", w, [])
    end.

Definition update_editor (h : nat) (f : Editor -> Editor) : M unit :=
  e <- the_editor h ;;
  modify (fun w => with_editors (<[h := f e]> (editors w)) w).

(** [this.instance.<method>]: a [TypeError] when [this.instance] is not set. *)
Definition this_instance : M nat :=
  i <- gets instance ;;
  match i with
  | Some h => ret h
  | None => throw "TypeError: this.instance is null"
  end.

Definition editor_getData (h : nat) : M Data :=
  e <- the_editor h ;; ret (ed_data e).

(** [editor.setData( data, { callback } )]: the content becomes what the
    editor makes of [data]; the callback, if any, is called later. *)
Definition editor_setData (h : nat) (data : Data) (callback : option Callback)
  : M unit :=
  tell (EdSetData h data) ;;
  update_editor h (fun e =>
    ed_with_callbacks
      (ed_callbacks e ++ match callback with Some c => [c] | None => [] end)
      (ed_with_data (ed_filter e data (ed_data e)) e)).

Definition editor_readOnly (h : nat) : M bool :=
  e <- the_editor h ;; ret (ed_readOnly e).

Definition editor_setReadOnly (h : nat) (isReadOnly : option (NotNull bool)) : M unit :=
  tell (EdSetReadOnly h isReadOnly) ;;
  update_editor h (fun e => ed_with_readOnly (ed_coerce e isReadOnly) e).

(** [editor.undoManager], as a truth value *)
Definition editor_undoManager (h : nat) : M bool :=
  e <- the_editor h ;; ret (truthy (undoManager e)).

Definition undo_lock (h : nat) : M unit :=
  tell (UndoLock h) ;;
  update_editor h (fun e => ed_with_undo (option_map S (undoManager e)) e).

Definition undo_unlock (h : nat) : M unit :=
  tell (UndoUnlock h) ;;
  update_editor h (fun e => ed_with_undo (option_map Nat.pred (undoManager e)) e).

Definition editor_on (h : nat) (name : string) (l : Listener) : M unit :=
  tell (EdOn h name l) ;;
  update_editor h (fun e => ed_with_listeners (ed_listeners e ++ [(name, l)]) e).

(** [editor.destroy()]: the editor is gone, with its listeners and pending
    callbacks. *)
Definition editor_destroy (h : nat) : M unit :=
  tell (EdDestroy h) ;;
  update_editor h (fun e =>
    ed_with_status Destroyed (ed_with_callbacks [] (ed_with_listeners [] e))).

(** ** The component *)

(** [set data( data )] *)
Definition set_data (data : Data) : M unit :=
  cur <- gets _data ;;
  if data_eqb data cur then ret tt
  else
    i <- gets instance ;;
    match i with
    | Some h =>
        editor_setData h data None ;;
        (* Data may be changed by ACF. *)
        d <- editor_getData h ;;
        modify (with_data d)
    | None => modify (with_data data)
    end.

(** [get data()] *)
Definition get_data : M Data := gets _data.

(** [set readOnly( isReadOnly )] *)
Definition set_readOnly (isReadOnly : option (NotNull bool)) : M unit :=
  i <- gets instance ;;
  match i with
  | Some h => editor_setReadOnly h isReadOnly
  | None =>
      (* Delay setting read-only state until editor initialization. *)
      modify (with_readOnly isReadOnly)
  end.

(** [get readOnly()] *)
Definition get_readOnly : M (option (NotNull bool)) :=
  i <- gets instance ;;
  match i with
  | Some h => b <- editor_readOnly h ;; ret (Some (value b))
  | None => gets _readOnly
  end.

Definition writeValue (value : Data) : M unit := set_data value.
Definition registerOnChange (callback : option nat) : M unit :=
  modify (with_onChange callback).
Definition registerOnTouched (callback : option nat) : M unit :=
  modify (with_onTouched callback).

(** [propagateChange( event )], with [event.name = name] *)
Definition propagateChange (name : string) : M unit :=
  ngZone_run (
    h <- this_instance ;;
    newData <- editor_getData h ;;
    (if String.eqb name "change" then tell (Emit change (PEvent name))
     else if String.eqb name "dataReady" then tell (Emit dataReady (PEvent name))
     else ret tt) ;;
    cur <- get_data ;;
    if data_eqb newData cur then ret tt
    else
      modify (with_data newData) ;;
      tell (Emit dataChange (PData newData)) ;;
      cb <- gets onChange ;;
      match cb with
      | Some c => tell (CallOnChange c newData)
      | None => ret tt
      end).

(** What a registered handler does when the event [name] reaches it. *)
Definition run_listener (name : string) (l : Listener) : M unit :=
  match l with
  | LRelay o => ngZone_run (tell (Emit o (PEvent name)))
  | LBlur =>
      ngZone_run (
        t <- gets onTouched ;;
        match t with
        | Some c => tell (CallOnTouched c)
        | None => ret tt
        end ;;
        tell (Emit blur (PEvent name)))
  | LPropagateChange => propagateChange name
  end.

(** The editor's event dispatch: the listeners of [name], in registration
    order. *)
Definition listeners_of (name : string) (e : Editor) : list Listener :=
  map snd (filter (fun p => fst p = name) (ed_listeners e)).

Definition dispatch (h : nat) (name : string) : M unit :=
  e <- the_editor h ;;
  forM_ (listeners_of name e) (run_listener name).

(** [editor.fire( name )] *)
Definition editor_fire (h : nat) (name : string) : M unit :=
  tell (EdFire h name) ;; dispatch h name.

(** [subscribe( editor )] *)
Definition subscribe (editor : nat) : M unit :=
  editor_on editor "focus" (LRelay focus) ;;
  editor_on editor "paste" (LRelay paste) ;;
  editor_on editor "afterPaste" (LRelay afterPaste) ;;
  editor_on editor "dragend" (LRelay dragEnd) ;;
  editor_on editor "dragstart" (LRelay dragStart) ;;
  editor_on editor "drop" (LRelay drop) ;;
  editor_on editor "fileUploadRequest" (LRelay fileUploadRequest) ;;
  editor_on editor "fileUploadResponse" (LRelay fileUploadResponse) ;;
  editor_on editor "blur" LBlur ;;
  editor_on editor "dataReady" LPropagateChange ;;
  h <- this_instance ;;
  undo <- editor_undoManager h ;;
  if undo then editor_on editor "change" LPropagateChange
  (* If 'undo' plugin is not loaded, listen to 'selectionCheck' event instead. (#54). *)
  else editor_on editor "selectionCheck" LPropagateChange.

(** The body of the handler [createEditor] stores as
    [config.on.instanceReady], with [evt.editor = editor], given [announce],
    the [ngZone.run] block of its two branches. *)
Definition instanceReady_with (announce : M unit) (editor : nat)
    (userInstanceReadyCallback : Handler) : M unit :=
  modify (with_instance (Some editor)) ;;
  (* Read only state may change during instance initialization. *)
  buffered <- gets _readOnly ;;
  isReadOnly <- match buffered with
                | Some b => ret b
                | None => h <- this_instance ;; b <- editor_readOnly h ;; ret (value b)
                end ;;
  set_readOnly (Some isReadOnly) ;;
  h <- this_instance ;;
  subscribe h ;;
  undo <- editor_undoManager editor ;;
  data <- get_data ;;
  match data with
  | Some _ =>
      when undo (undo_lock editor) ;;
      editor_setData editor data
        (Some (CbInitialData editor undo userInstanceReadyCallback))
  | None => announce
  end.

(** The end of both branches of the [instanceReady] handler:
    [userInstanceReadyCallback( evt )] when that is a function, then the ready
    notification, inside the zone.  When [userInstanceReadyCallback] is a
    handler of this component, calling it runs that handler, on the same
    event. *)
Fixpoint announce_ready (editor : nat) (userInstanceReadyCallback : Handler)
  : M unit :=
  ngZone_run (
    match userInstanceReadyCallback with
    | NotFunction => ret tt
    | UserFunction => tell CallUserInstanceReady
    | ComponentHandler captured =>
        instanceReady_with (announce_ready editor captured) editor captured
    end ;;
    tell (Emit ready (PEvent "instanceReady"))).

(** The completion callback of the initial [setData]. *)
Definition run_callback (c : Callback) : M unit :=
  match c with
  | CbInitialData editor undo userInstanceReadyCallback =>
      (* Locking undoManager prevents 'change' event.
         Trigger it manually to updated bound data. *)
      cur <- get_data ;;
      d <- editor_getData editor ;;
      when (negb (data_eqb cur d))
        (if undo then editor_fire editor "change"
         else editor_fire editor "dataReady") ;;
      when undo (undo_unlock editor) ;;
      announce_ready editor userInstanceReadyCallback
  end.

(** [config.on.instanceReady], with [evt.editor = editor] *)
Definition instanceReady (editor : nat) (userInstanceReadyCallback : Handler)
  : M unit :=
  instanceReady_with (announce_ready editor userInstanceReadyCallback)
    editor userInstanceReadyCallback.

(** What [CKEDITOR.replace]/[CKEDITOR.inline] hand back: an editor that is
    still loading, with no listener of the component yet, and whose
    [config.on.instanceReady] is the closure built by [createEditor]. *)
Definition fresh_editor (userInstanceReadyCallback : Handler) (e : Editor) : Editor :=
  ed_with_userCallback userInstanceReadyCallback
    (ed_with_status Loading (ed_with_callbacks [] (ed_with_listeners [] e))).

(** [CKEDITOR.inline] for the inline type, [CKEDITOR.replace] otherwise. *)
Definition create_call (ty : EditorType) (h : nat) : Obs :=
  match ty with
  | INLINE => CKInline h
  | CLASSIC => CKReplace h
  end.

(** [createEditor()].  The element is created and appended; either call can
    throw.  [config] is a shallow copy of [this.config], so its [on] is the
    object [this.config.on] when there is one, and storing the handler in it
    is seen by the next [createEditor], which then finds that handler as
    [userInstanceReadyCallback]; when [this.config] has no [on] the handler
    goes into an object of [createEditor]'s own; when [on] cannot take a
    property the assignment throws.  [CKEDITOR.inline]/[CKEDITOR.replace]
    builds the editor or throws; the editor keeps the handler it was given.
    [elementRef.nativeElement] is the host element of a rendered component,
    so reading its [id] returns; the copy of that [id] to the new element
    and the [delayIfDetached] default play no part in what follows and are
    left out. *)
Definition createEditor : M unit :=
  tag <- gets tagName ;;
  createElement <- gets document_createElement ;;
  tell (CreateElement tag) ;;
  lift (createElement tag) ;;
  h <- gets (fun w => length (editors w)) ;;
  append <- gets appendChild ;;
  tell AppendChild ;;
  lift (append h) ;;
  on <- gets config_on ;;
  let userInstanceReadyCallback :=
    match on with
    | OnObject f => f
    | _ => NotFunction
    end in
  match on with
  | OnAbsent => ret tt
  | OnNotObject => throw "TypeError: cannot set a property of config.on"
  | OnObject _ =>
      modify (with_config_on (OnObject (ComponentHandler userInstanceReadyCallback)))
  end ;;
  ty <- gets type ;;
  mk <- gets CKEDITOR ;;
  tell (create_call ty h) ;;
  e <- lift (mk ty h) ;;
  modify (fun w =>
    with_editors (editors w ++ [fresh_editor userInstanceReadyCallback e]) w).

(** [ngAfterViewInit()]: asks for the namespace; the rest happens when the
    promise settles. *)
Definition ngAfterViewInit : M unit :=
  tell GetEditorNamespace ;;
  modify (fun w => with_pending (S (pending_namespace w)) w).

(** The [then] callback of [ngAfterViewInit]. *)
Definition namespace_then : M unit :=
  (* Check if component instance was destroyed before `ngAfterViewInit` call (#110). *)
  destroyed <- gets _destroyed ;;
  if destroyed then ret tt
  else ngZone_runOutsideAngular createEditor.

(** [.catch( window.console.error )] *)
Definition console_error (reason : string) : M unit := tell (ConsoleError reason).

(** The arrow function [ngOnDestroy] runs outside the zone. *)
Definition release_instance : M unit :=
  i <- gets instance ;;
  match i with
  | Some h => editor_destroy h ;; modify (with_instance None)
  | None => ret tt
  end.

(** [ngOnDestroy()] *)
Definition ngOnDestroy : M unit :=
  modify (with_destroyed true) ;;
  ngZone_runOutsideAngular release_instance.

(** ** The event loop

    What the host (Angular, the forms module, the template) and the
    surroundings (the namespace promise, the editor) can do to the component,
    one task at a time. *)
Inductive Input : Type :=
(* the host *)
| InData (v : Data)                       (* [data]="..." *)
| InReadOnly (b : option (NotNull bool))            (* [readOnly]="..." *)
| InWriteValue (v : Data)
| InRegisterOnChange (cb : option nat)
| InRegisterOnTouched (cb : option nat)
| InAfterViewInit
| InDestroy
(* the namespace loader *)
| NamespaceLoaded                         (* the onNamespaceLoaded callback *)
| NamespaceResolved
| NamespaceRejected (reason : string)
(* the editor *)
| InstanceReady (h : nat)                 (* a loading editor becomes ready *)
| SetDataDone (h : nat)                   (* the editor calls its oldest pending callback *)
| Native (h : nat) (name : string)        (* the editor fires one of its events *)
| UserEdit (h : nat) (d : Data).          (* the user types: the content changes *)

Definition is_loading (e : Editor) : bool :=
  match ed_status e with Loading => true | _ => false end.
Definition is_ready (e : Editor) : bool :=
  match ed_status e with Ready => true | _ => false end.

(** One task.  An input the surroundings cannot produce in the current state
    (a promise that is not pending, an editor that is not there) does
    nothing. *)
Definition step (i : Input) : M unit :=
  match i with
  | InData v => set_data v
  | InReadOnly b => set_readOnly b
  | InWriteValue v => writeValue v
  | InRegisterOnChange cb => registerOnChange cb
  | InRegisterOnTouched cb => registerOnTouched cb
  | InAfterViewInit => ngAfterViewInit
  | InDestroy => ngOnDestroy
  | NamespaceLoaded => tell (Emit namespaceLoaded PNamespace)
  | NamespaceResolved =>
      n <- gets pending_namespace ;;
      match n with
      | O => ret tt
      | S n' => modify (with_pending n') ;; catch namespace_then console_error
      end
  | NamespaceRejected reason =>
      n <- gets pending_namespace ;;
      match n with
      | O => ret tt
      | S n' => modify (with_pending n') ;; console_error reason
      end
  | InstanceReady h =>
      es <- gets editors ;;
      match es !! h with
      | Some e =>
          if is_loading e then
            update_editor h (ed_with_status Ready) ;;
            instanceReady h (ed_userCallback e)
          else ret tt
      | None => ret tt
      end
  | SetDataDone h =>
      es <- gets editors ;;
      match es !! h with
      | Some e =>
          match ed_callbacks e with
          | c :: rest =>
              update_editor h (ed_with_callbacks rest) ;;
              run_callback c
          | [] => ret tt
          end
      | None => ret tt
      end
  | Native h name =>
      es <- gets editors ;;
      match es !! h with
      | Some e => if is_ready e then dispatch h name else ret tt
      | None => ret tt
      end
  | UserEdit h d =>
      es <- gets editors ;;
      match es !! h with
      | Some e => if is_ready e then update_editor h (ed_with_data d) else ret tt
      | None => ret tt
      end
  end.

(** A run of the event loop: an exception that leaves a task is reported and
    the loop goes on. *)
Fixpoint run (ins : list Input) (w : World) : World * list Obs :=
  match ins with
  | [] => (w, [])
  | i :: rest =>
      match step i w with
      | (r, w1, t1) =>
          match run rest w1 with
          | (w2, t2) =>
              (w2, t1 ++ match r with Ret _ => [] | Throw e => [Uncaught e] end ++ t2)
          end
      end
  end.

(** The creation handshake as one piece: the editor becomes ready and then,
    with no other task in between, calls the completion callback of the
    initial push, if one is pending. *)
Definition handshake (editor : nat) : M unit :=
  step (InstanceReady editor) ;; step (SetDataDone editor).

(** ** Reading a log *)

Definition is_ready_emit (o : Obs) : bool :=
  match o with Emit ready _ => true | _ => false end.
Definition is_dataChange_emit (o : Obs) : bool :=
  match o with Emit dataChange _ => true | _ => false end.
Definition is_setData (o : Obs) : bool :=
  match o with EdSetData _ _ => true | _ => false end.
Definition is_fire (o : Obs) : bool :=
  match o with EdFire _ _ => true | _ => false end.
Definition is_create (o : Obs) : bool :=
  match o with CKReplace _ | CKInline _ => true | _ => false end.

Fixpoint count (p : Obs -> bool) (t : list Obs) : nat :=
  match t with
  | [] => 0
  | o :: t' => (if p o then 1 else 0) + count p t'
  end.

Definition outcome {A} (x : result A * World * list Obs) : result A := fst (fst x).
Definition world_of {A} (x : result A * World * list Obs) : World := snd (fst x).
Definition log_of {A} (x : result A * World * list Obs) : list Obs := snd x.

(** ** Vocabulary of the statements *)

(** The world in which the editor object [h] has become [e']. *)
Definition set_editor (h : nat) (e' : Editor) (w : World) : World :=
  with_editors (<[h := e']> (editors w)) w.

(** [m], started in [w], returns [a] and leaves [w'], having logged [t]. *)
Definition runs {A} (m : M A) (w : World) (a : A) (w' : World) (t : list Obs) : Prop :=
  m w = (Ret a, w', t).

(** The editor as [createEditor] leaves it to the namespace. *)
Definition loading (e : Editor) : Prop :=
  ed_status e = Loading /\ ed_listeners e = [] /\ ed_callbacks e = [].

(** What the completion callback [c] captured as [userInstanceReadyCallback]. *)
Definition cb_user (c : Callback) : Handler :=
  match c with
  | CbInitialData _ _ u => u
  end.

(** What [config.on.instanceReady] holds when only the user wrote to it: a
    function of the user, or no function; not a handler of the component. *)
Definition user_supplied (f : Handler) : Prop :=
  match f with
  | ComponentHandler _ => False
  | _ => True
  end.

(** No completion callback that is still pending captured a handler of the
    component. *)
Definition plain_callbacks (w : World) : Prop :=
  forall h e c, editors w !! h = Some e -> In c (ed_callbacks e) ->
    user_supplied (cb_user c).

(** No instance is referenced, and no pending completion callback would call
    a handler of the component. *)
Definition unset (w : World) : Prop := instance w = None /\ plain_callbacks w.

(** The [EdOn] calls of [subscribe], given the truth value of
    [this.instance.undoManager]. *)
Definition subscriptions (undo : bool) : list (string * Listener) :=
  [ ("focus", LRelay focus); ("paste", LRelay paste);
    ("afterPaste", LRelay afterPaste); ("dragend", LRelay dragEnd);
    ("dragstart", LRelay dragStart); ("drop", LRelay drop);
    ("fileUploadRequest", LRelay fileUploadRequest);
    ("fileUploadResponse", LRelay fileUploadResponse);
    ("blur", LBlur); ("dataReady", LPropagateChange);
    (if undo then "change" else "selectionCheck", LPropagateChange) ].

Definition on_calls (h : nat) (l : list (string * Listener)) : list Obs :=
  map (fun p => EdOn h (fst p) (snd p)) l.

(** The typed notification of [propagateChange]: by the name of the native
    event that fired. *)
Definition typed_emit (name : string) : list Obs :=
  if String.eqb name "change" then [Emit change (PEvent name)]
  else if String.eqb name "dataReady" then [Emit dataReady (PEvent name)]
  else [].

(** The call of the registered change-callback, if there is one. *)
Definition onChange_call (w : World) (d : Data) : list Obs :=
  match onChange w with
  | Some c => [CallOnChange c d]
  | None => []
  end.

(** What [propagateChange] logs when the value it reads, [newData], differs
    from [currentData]. *)
Definition propagate_log (name : string) (newData : Data) (w : World) : list Obs :=
  ZoneEnter :: typed_emit name
    ++ [Emit dataChange (PData newData)] ++ onChange_call w newData ++ [ZoneLeave].

(** The end of the handshake: inside the zone, the user's callback if there
    is one, then the ready notification. *)
Definition ready_log (userInstanceReadyCallback : Handler) : list Obs :=
  ZoneEnter :: match userInstanceReadyCallback with
               | UserFunction => [CallUserInstanceReady]
               | _ => []
               end
    ++ [Emit ready (PEvent "instanceReady"); ZoneLeave].

(** The beginning of the handshake: the read-only state is applied and the
    listeners are registered. *)
Definition setup_log (h : nat) (isReadOnly : NotNull bool) (undo : bool) : list Obs :=
  EdSetReadOnly h (Some isReadOnly) :: on_calls h (subscriptions undo).

(** A registration of the shared change handler on one of the two change
    signals. *)
Definition is_change_binding (o : Obs) : bool :=
  match o with
  | EdOn _ name LPropagateChange =>
      String.eqb name "change" || String.eqb name "selectionCheck"
  | _ => false
  end.

(** [m] keeps the property [P] of the world (also when it throws) and logs
    only observations in [L]. *)
Definition inv (P : World -> Prop) (L : Obs -> Prop) {A} (m : M A) : Prop :=
  forall w, P w -> P (world_of (m w)) /\ Forall L (log_of (m w)).



(** The instance reference points to an editor object. *)
Definition instance_valid (w : World) : Prop :=
  exists h, instance w = Some h /\ h < length (editors w).

(** No editor was ever asked for, and none is referenced. *)
Definition fresh (w : World) : Prop := editors w = [] /\ instance w = None.

Definition no_create (o : Obs) : Prop := is_create o = false.

(** The read-only buffer holds [b] and an instance is referenced. *)
Definition live_with (b : option (NotNull bool)) (w : World) : Prop :=
  _readOnly w = b /\ instance_valid w.

(** The same, in a world that has the editor [h]. *)
Definition live_at (b : option (NotNull bool)) (h : nat) (w : World) : Prop :=
  live_with b w /\ h < length (editors w).

(** ** Sample editors and worlds *)

(** An editor that wraps what it is given in a paragraph. *)
Definition wrap_paragraph : Data -> Data -> Data :=
  fun v _ =>
    match v with
    | Some (value s) => Some (value ("<p>" +:+ s +:+ "</p>"))
    | _ => Some (value EmptyString)
    end.

(** An editor that keeps what it is given. *)
Definition as_is : Data -> Data -> Data := fun v _ => v.

Definition true_if_omitted (b : option (NotNull bool)) : bool :=
  match b with
  | Some (value b') => b'
  | _ => true
  end.

Definition sample_editor (undo : option nat) (content : Data)
    (filter : Data -> Data -> Data) : Editor :=
  mkEditor content false undo [] [] Loading NotFunction filter true_if_omitted.

(** Three empty editors: with the undo plugin and a paragraph filter, without
    the plugin and with the filter, without either. *)
Definition undo_editor : Editor :=
  sample_editor (Some 0) (Some (value EmptyString)) wrap_paragraph.
Definition filter_editor : Editor :=
  sample_editor None (Some (value EmptyString)) wrap_paragraph.
Definition plain_editor : Editor :=
  sample_editor None (Some (value EmptyString)) as_is.

(** The component as its constructor leaves it, in a document that creates
    and appends every element, in front of a namespace that builds [e]. *)
Definition constructed (e : Editor) : World :=
  mkWorld OnAbsent "textarea" CLASSIC None None false None None None []
          (fun _ => Ret tt) (fun _ => Ret tt) (fun _ _ => Ret e) 0.

(** The same component with a [config] whose [on] object holds an
    [instanceReady] callback of the user. *)
Definition constructed_with_callback (e : Editor) : World :=
  mkWorld (OnObject UserFunction) "textarea" CLASSIC None None false None None None []
          (fun _ => Ret tt) (fun _ => Ret tt) (fun _ _ => Ret e) 0.

(** [createEditor] ran twice on that component, each time after the view was
    initialised and the namespace resolved: the editors [0] and [1] are
    loading, and the handler of [1] captured the handler of [0]. *)
Definition created_twice (e : Editor) : World :=
  fst (run [InAfterViewInit; NamespaceResolved; InAfterViewInit; NamespaceResolved]
         (constructed_with_callback e)).

(** ["x"] was set, the view was initialised and the namespace resolved: the
    editor [0] is loading. *)
Definition awaiting_ready (e : Editor) : World :=
  fst (run [InData (Some (value "x")); InRegisterOnChange (Some 7); InAfterViewInit;
            NamespaceResolved] (constructed e)).

(** The same, once the editor is ready and the handshake is over. *)
Definition live (e : Editor) : World :=
  fst (run [InstanceReady 0; SetDataDone 0] (awaiting_ready e)).

(** ** Vocabulary of the further properties *)

(** The native events [subscribe] relays, each with the output it goes to. *)
Definition relay_table : list (string * Output) :=
  [ ("focus", focus); ("paste", paste); ("afterPaste", afterPaste);
    ("dragend", dragEnd); ("dragstart", dragStart); ("drop", drop);
    ("fileUploadRequest", fileUploadRequest);
    ("fileUploadResponse", fileUploadResponse) ].

(** The handlers a native event reaches once [subscribe] has run on an editor
    that had no listener, by the name of the event. *)
Definition routed (undo : bool) (name : string) : list Listener :=
  if String.eqb name "focus" then [LRelay focus]
  else if String.eqb name "paste" then [LRelay paste]
  else if String.eqb name "afterPaste" then [LRelay afterPaste]
  else if String.eqb name "dragend" then [LRelay dragEnd]
  else if String.eqb name "dragstart" then [LRelay dragStart]
  else if String.eqb name "drop" then [LRelay drop]
  else if String.eqb name "fileUploadRequest" then [LRelay fileUploadRequest]
  else if String.eqb name "fileUploadResponse" then [LRelay fileUploadResponse]
  else if String.eqb name "blur" then [LBlur]
  else if String.eqb name "dataReady" then [LPropagateChange]
  else if String.eqb name (if undo then "change" else "selectionCheck")
       then [LPropagateChange]
  else [].

(** A ready editor that carries the listeners of [subscribe] and no other. *)
Definition subscribed (e : Editor) : Prop :=
  ed_status e = Ready /\
  ed_listeners e = subscriptions (truthy (undoManager e)).

Definition is_change_emit (o : Obs) : bool :=
  match o with Emit change _ => true | _ => false end.
Definition is_destroy (o : Obs) : bool :=
  match o with EdDestroy _ => true | _ => false end.
Definition is_onChange_call (o : Obs) : bool :=
  match o with CallOnChange _ _ => true | _ => false end.

(** The call of the registered touched-callback, if there is one. *)
Definition onTouched_call (w : World) : list Obs :=
  match onTouched w with
  | Some c => [CallOnTouched c]
  | None => []
  end.

(** The component right after its constructor, whatever its inputs are. *)
Definition pristine (w : World) : Prop :=
  editors w = [] /\ instance w = None /\
  pending_namespace w = 0 /\ _destroyed w = false.

(** What [createEditor] finds as [userInstanceReadyCallback]. *)
Definition found_callback (c : ConfigOn) : Handler :=
  match c with
  | OnObject f => f
  | _ => NotFunction
  end.

(** [this.config?.on] once [createEditor] has stored its handler: an object
    the component shares with its [config] now holds the handler. *)
Definition with_handler (c : ConfigOn) : ConfigOn :=
  match c with
  | OnObject f => OnObject (ComponentHandler f)
  | _ => c
  end.

(** The first exception among the calls of [createEditor] in [w], if one of
    them throws. *)
Definition creation_error (w : World) : option string :=
  match document_createElement w (tagName w) with
  | Throw reason => Some reason
  | Ret _ =>
      match appendChild w (length (editors w)) with
      | Throw reason => Some reason
      | Ret _ =>
          match config_on w with
          | OnNotObject => Some "TypeError: cannot set a property of config.on"
          | _ =>
              match CKEDITOR w (type w) (length (editors w)) with
              | Throw reason => Some reason
              | Ret _ => None
              end
          end
      end
  end.

(** The tasks of an undisturbed start: the view is initialised, the namespace
    arrives, the editor becomes ready and reports the initial push. *)
Definition startup : list Input :=
  [InAfterViewInit; NamespaceResolved; InstanceReady 0; SetDataDone 0].

Definition is_uncaught (o : Obs) : bool :=
  match o with Uncaught _ => true | _ => false end.

(** Where a log entry was made: at the top of a task, inside [ngZone.run]
    ([depth] further calls of [ngZone.run] around it), or inside
    [ngZone.runOutsideAngular]. *)
Inductive Mode : Type := Top | InZone (depth : nat) | Outside.

Definition in_zone (m : Mode) : bool :=
  match m with InZone _ => true | _ => false end.
Definition is_outside (m : Mode) : bool :=
  match m with Outside => true | _ => false end.

(** The mode inside an [ngZone.run] that is called in mode [m]. *)
Definition inner (m : Mode) : Mode :=
  match m with
  | Top => InZone 0
  | InZone depth => InZone (S depth)
  | Outside => Outside
  end.

(** What a consumer of the component sees: the emissions on its outputs and
    the calls of callbacks it registered.  [namespaceLoaded] is emitted from
    the loader's callback, which the component does not wrap. *)
Definition is_notification (o : Obs) : bool :=
  match o with
  | Emit namespaceLoaded _ => false
  | Emit _ _ | CallOnChange _ _ | CallOnTouched _ | CallUserInstanceReady => true
  | _ => false
  end.

(** The calls that create or destroy an editor. *)
Definition is_lifecycle_call (o : Obs) : bool :=
  match o with
  | CKReplace _ | CKInline _ | EdDestroy _ => true
  | _ => false
  end.

Definition is_zone_marker (o : Obs) : bool :=
  match o with
  | ZoneEnter | ZoneLeave | OutsideEnter | OutsideLeave => true
  | _ => false
  end.

(** An entry that may be logged in mode [m] without changing the mode. *)
Definition allowed (m : Mode) (o : Obs) : bool :=
  negb (is_zone_marker o)
  && (negb (is_notification o) || in_zone m)
  && (negb (is_lifecycle_call o) || is_outside m).

(** The zone discipline of a log read from mode [m]: notifications are made
    inside [ngZone.run] only; editors are created and destroyed inside
    [ngZone.runOutsideAngular] only; [runOutsideAngular] is entered from the
    top only and [ngZone.run] is not entered inside it; [ngZone.run] may be
    entered inside [ngZone.run]; every zone entered is left, innermost
    first, and the log ends at the top. *)
Fixpoint zoned (m : Mode) (t : list Obs) : bool :=
  match t with
  | [] => match m with Top => true | _ => false end
  | ZoneEnter :: t' =>
      match m with
      | Top => zoned (InZone 0) t'
      | InZone depth => zoned (InZone (S depth)) t'
      | Outside => false
      end
  | ZoneLeave :: t' =>
      match m with
      | InZone 0 => zoned Top t'
      | InZone (S depth) => zoned (InZone depth) t'
      | _ => false
      end
  | OutsideEnter :: t' =>
      match m with Top => zoned Outside t' | _ => false end
  | OutsideLeave :: t' =>
      match m with Outside => zoned Top t' | _ => false end
  | o :: t' => allowed m o && zoned m t'
  end.

(** Every log of [m] is a stretch that keeps the discipline from mode [mode]
    and ends in mode [mode]. *)
Definition stays (mode : Mode) {A} (m : M A) : Prop :=
  forall w rest, zoned mode (log_of (m w) ++ rest) = zoned mode rest.

(** ** Running the monad *)

Lemma runs_ret {A} (a : A) w : runs (ret a) w a w [].
Proof. reflexivity. Qed.

Lemma runs_gets {A} (f : World -> A) w : runs (gets f) w (f w) w [].
Proof. reflexivity. Qed.

Lemma runs_modify f w : runs (modify f) w tt (f w) [].
Proof. reflexivity. Qed.

Lemma runs_tell o w : runs (tell o) w tt w [o].
Proof. reflexivity. Qed.

Lemma runs_bind {A B} (m : M A) (k : A -> M B) w a w1 t1 b w2 t2 :
  runs m w a w1 t1 -> runs (k a) w1 b w2 t2 ->
  runs (bind m k) w b w2 (t1 ++ t2).
Proof. unfold runs, bind. intros -> ->. reflexivity. Qed.

Lemma runs_bind_via {A B} (m : M A) (k : A -> M B) w a w1 w1' t1 b w2 t2 :
  runs m w a w1 t1 -> w1 = w1' -> runs (k a) w1' b w2 t2 ->
  runs (bind m k) w b w2 (t1 ++ t2).
Proof. intros H1 <- H2. eapply runs_bind; eassumption. Qed.

Lemma runs_bracket {A} enter leave (m : M A) w a w1 t :
  runs m w a w1 t -> runs (bracket enter leave m) w a w1 (enter :: t ++ [leave]).
Proof. unfold runs, bracket. intros ->. reflexivity. Qed.

Lemma runs_conv {A} (m : M A) w a w1 t1 w2 t2 :
  runs m w a w1 t1 -> w1 = w2 -> t1 = t2 -> runs m w a w2 t2.
Proof. intros H <- <-. exact H. Qed.

Lemma runs_the_editor h e w :
  editors w !! h = Some e -> runs (the_editor h) w e w [].
Proof. unfold runs, the_editor. intros ->. reflexivity. Qed.

Lemma runs_update_editor h e f w :
  editors w !! h = Some e ->
  runs (update_editor h f) w tt (set_editor h (f e) w) [].
Proof.
  intros H. unfold update_editor.
  eapply runs_conv.
  - eapply runs_bind; [apply runs_the_editor, H | apply runs_modify].
  - reflexivity.
  - reflexivity.
Qed.

Lemma lookup_set_editor h e e' w :
  editors w !! h = Some e -> editors (set_editor h e' w) !! h = Some e'.
Proof.
  intros H. unfold set_editor. cbn.
  apply list_lookup_insert_eq. eapply lookup_lt_Some, H.
Qed.


Lemma runs_this_instance h w :
  instance w = Some h -> runs this_instance w h w [].
Proof. unfold runs, this_instance, bind, gets. intros ->. reflexivity. Qed.

Lemma runs_editor_getData h e w :
  editors w !! h = Some e -> runs (editor_getData h) w (ed_data e) w [].
Proof.
  intros H. unfold editor_getData.
  eapply runs_conv; [eapply runs_bind; [apply runs_the_editor, H | apply runs_ret] | ..];
    reflexivity.
Qed.

Lemma runs_editor_readOnly h e w :
  editors w !! h = Some e -> runs (editor_readOnly h) w (ed_readOnly e) w [].
Proof.
  intros H. unfold editor_readOnly.
  eapply runs_conv; [eapply runs_bind; [apply runs_the_editor, H | apply runs_ret] | ..];
    reflexivity.
Qed.

Lemma runs_editor_undoManager h e w :
  editors w !! h = Some e ->
  runs (editor_undoManager h) w (truthy (undoManager e)) w [].
Proof.
  intros H. unfold editor_undoManager.
  eapply runs_conv; [eapply runs_bind; [apply runs_the_editor, H | apply runs_ret] | ..];
    reflexivity.
Qed.

Lemma runs_editor_setData h e data cb w :
  editors w !! h = Some e ->
  runs (editor_setData h data cb) w tt
    (set_editor h (ed_with_callbacks
                     (ed_callbacks e ++ match cb with Some c => [c] | None => [] end)
                     (ed_with_data (ed_filter e data (ed_data e)) e)) w)
    [EdSetData h data].
Proof.
  intros H. unfold editor_setData.
  eapply runs_conv;
    [eapply runs_bind; [apply runs_tell | apply runs_update_editor, H] | ..];
    reflexivity.
Qed.

Lemma runs_editor_setReadOnly h e b w :
  editors w !! h = Some e ->
  runs (editor_setReadOnly h b) w tt
    (set_editor h (ed_with_readOnly (ed_coerce e b) e) w) [EdSetReadOnly h b].
Proof.
  intros H. unfold editor_setReadOnly.
  eapply runs_conv;
    [eapply runs_bind; [apply runs_tell | apply runs_update_editor, H] | ..];
    reflexivity.
Qed.

Lemma runs_undo_lock h e w :
  editors w !! h = Some e ->
  runs (undo_lock h) w tt
    (set_editor h (ed_with_undo (option_map S (undoManager e)) e) w) [UndoLock h].
Proof.
  intros H. unfold undo_lock.
  eapply runs_conv;
    [eapply runs_bind; [apply runs_tell | apply runs_update_editor, H] | ..];
    reflexivity.
Qed.

Lemma runs_undo_unlock h e w :
  editors w !! h = Some e ->
  runs (undo_unlock h) w tt
    (set_editor h (ed_with_undo (option_map Nat.pred (undoManager e)) e) w)
    [UndoUnlock h].
Proof.
  intros H. unfold undo_unlock.
  eapply runs_conv;
    [eapply runs_bind; [apply runs_tell | apply runs_update_editor, H] | ..];
    reflexivity.
Qed.

Lemma runs_editor_on h e name l w :
  editors w !! h = Some e ->
  runs (editor_on h name l) w tt
    (set_editor h (ed_with_listeners (ed_listeners e ++ [(name, l)]) e) w)
    [EdOn h name l].
Proof.
  intros H. unfold editor_on.
  eapply runs_conv;
    [eapply runs_bind; [apply runs_tell | apply runs_update_editor, H] | ..];
    reflexivity.
Qed.

Lemma runs_editor_destroy h e w :
  editors w !! h = Some e ->
  runs (editor_destroy h) w tt
    (set_editor h (ed_with_status Destroyed
                     (ed_with_callbacks [] (ed_with_listeners [] e))) w)
    [EdDestroy h].
Proof.
  intros H. unfold editor_destroy.
  eapply runs_conv;
    [eapply runs_bind; [apply runs_tell | apply runs_update_editor, H] | ..];
    reflexivity.
Qed.

(** ** The data setter *)

Lemma data_eqb_true (a b : Data) : a = b -> data_eqb a b = true.
Proof. intros H. unfold data_eqb. now apply bool_decide_eq_true_2. Qed.

Lemma data_eqb_false (a b : Data) : a <> b -> data_eqb a b = false.
Proof. intros H. unfold data_eqb. now apply bool_decide_eq_false_2. Qed.

(** C3.  [set data(value)]: a value equal to [currentData] changes nothing
    and calls nothing; otherwise, with an instance, the value is pushed with
    [setData] and [currentData] becomes what the instance then returns from
    [getData] (the content the editor made of the value, not the value);
    without an instance the value is stored in [currentData]. *)
Theorem set_data_spec (value : Data) (w : World) :
  (value = _data w -> set_data value w = (Ret tt, w, [])) /\
  (value <> _data w -> instance w = None ->
   set_data value w = (Ret tt, with_data value w, [])) /\
  (forall h e, value <> _data w -> instance w = Some h ->
     editors w !! h = Some e ->
     exists e',
       set_data value w
       = (Ret tt, with_data (ed_data e') (set_editor h e' w), [EdSetData h value]) /\
       ed_data e' = ed_filter e value (ed_data e) /\
       editor_getData h (set_editor h e' w)
       = (Ret (ed_data e'), set_editor h e' w, [])).
Proof.
  split; [|split].
  - intros Heq. unfold set_data, bind, gets. cbn.
    now rewrite (data_eqb_true _ _ Heq).
  - intros Hne Hi. unfold set_data, bind, gets, modify. cbn.
    rewrite (data_eqb_false _ _ Hne), Hi. reflexivity.
  - intros h e Hne Hi He.
    exists (ed_with_callbacks (ed_callbacks e ++ [])
              (ed_with_data (ed_filter e value (ed_data e)) e)).
    split; [|split].
    + eapply runs_conv.
      { unfold set_data.
        eapply runs_bind; [apply runs_gets|]. cbn beta.
        rewrite (data_eqb_false _ _ Hne).
        eapply runs_bind; [apply runs_gets|]. cbn beta. rewrite Hi.
        eapply runs_bind; [apply runs_editor_setData, He|].
        eapply runs_bind;
          [apply runs_editor_getData; eapply lookup_set_editor, He|].
        apply runs_modify. }
      all: reflexivity.
    + reflexivity.
    + apply runs_editor_getData. eapply lookup_set_editor, He.
Qed.

(** An editor that wraps the pushed value: [currentData] is the wrapped
    value, not the input. *)
Lemma set_data_spec_witness :
  let e := filter_editor in
  let w := with_editors [e] (with_instance (Some 0) (constructed e)) in
  set_data None w = (Ret tt, w, []) /\
  set_data (Some (value "a")) (constructed e)
  = (Ret tt, with_data (Some (value "a")) (constructed e), []) /\
  _data (world_of (set_data (Some (value "a")) w)) = Some (value "<p>a</p>").
Proof.
  intros e w.
  destruct (set_data_spec None w) as (H1 & _ & _).
  destruct (set_data_spec (Some (value "a")) (constructed e)) as (_ & H2 & _).
  destruct (set_data_spec (Some (value "a")) w) as (_ & _ & H3).
  split; [apply H1; reflexivity|].
  split; [apply H2; [discriminate | reflexivity]|].
  destruct (H3 0 e) as (e' & Hrun & Hd & _); [discriminate | reflexivity | reflexivity |].
  rewrite Hrun. cbn [world_of fst snd with_data _data]. rewrite Hd. reflexivity.
Defined.

(** C9.  [writeValue(value)] is the data setter: same result, same state,
    same push and read-back, as a call and as a task of the event loop. *)
Theorem writeValue_is_set_data (value : Data) (w : World) :
  writeValue value w = set_data value w /\
  step (InWriteValue value) w = step (InData value) w.
Proof. split; reflexivity. Qed.

(** ** The shared change handler *)

Lemma count_app p (t1 t2 : list Obs) : count p (t1 ++ t2) = count p t1 + count p t2.
Proof. induction t1 as [|o t1 IH]; cbn; [reflexivity | rewrite IH; lia]. Qed.

Lemma count_typed_emit p name :
  p (Emit change (PEvent name)) = false ->
  p (Emit dataReady (PEvent name)) = false ->
  count p (typed_emit name) = 0.
Proof.
  intros H1 H2. unfold typed_emit.
  destruct (String.eqb name "change"); [cbn; now rewrite H1|].
  destruct (String.eqb name "dataReady"); [cbn; now rewrite H2|].
  reflexivity.
Qed.

Lemma runs_typed_emit name w :
  runs (if String.eqb name "change" then tell (Emit change (PEvent name))
        else if String.eqb name "dataReady" then tell (Emit dataReady (PEvent name))
        else ret tt) w tt w (typed_emit name).
Proof.
  unfold typed_emit.
  destruct (String.eqb name "change"); [apply runs_tell|].
  destruct (String.eqb name "dataReady"); [apply runs_tell | apply runs_ret].
Qed.

Lemma propagateChange_same name w h e :
  instance w = Some h -> editors w !! h = Some e -> ed_data e = _data w ->
  runs (propagateChange name) w tt w (ZoneEnter :: typed_emit name ++ [ZoneLeave]).
Proof.
  intros Hi He Heq. unfold propagateChange, ngZone_run.
  eapply runs_conv.
  { apply runs_bracket.
    eapply runs_bind; [apply runs_this_instance, Hi|].
    eapply runs_bind; [apply runs_editor_getData, He|].
    eapply runs_bind; [apply runs_typed_emit|].
    eapply runs_bind; [apply runs_gets|]. cbn beta.
    rewrite (data_eqb_true _ _ Heq). apply runs_ret. }
  - reflexivity.
  - cbn. now rewrite !app_nil_r.
Qed.

Lemma propagateChange_differs name w h e :
  instance w = Some h -> editors w !! h = Some e -> ed_data e <> _data w ->
  runs (propagateChange name) w tt (with_data (ed_data e) w)
    (ZoneEnter :: typed_emit name ++ [Emit dataChange (PData (ed_data e))]
       ++ onChange_call w (ed_data e) ++ [ZoneLeave]).
Proof.
  intros Hi He Hne. unfold propagateChange, ngZone_run.
  eapply runs_conv.
  { apply runs_bracket.
    eapply runs_bind; [apply runs_this_instance, Hi|].
    eapply runs_bind; [apply runs_editor_getData, He|].
    eapply runs_bind; [apply runs_typed_emit|].
    eapply runs_bind; [apply runs_gets|]. cbn beta.
    rewrite (data_eqb_false _ _ Hne).
    eapply runs_bind; [apply runs_modify|].
    eapply runs_bind; [apply runs_tell|].
    eapply runs_bind; [apply runs_gets|]. cbn beta.
    instantiate (1 := onChange_call w (ed_data e)).
    unfold onChange_call. cbn.
    destruct (onChange w); [apply runs_tell | apply runs_ret]. }
  - reflexivity.
  - cbn. now rewrite <- !app_assoc.
Qed.

(** ** The creation handshake *)

Ltac solve_lookup :=
  cbn [editors set_editor with_editors with_readOnly with_data with_destroyed
       with_instance with_onChange with_onTouched with_pending with_config_on];
  first
    [ eassumption
    | apply list_lookup_insert_eq; rewrite ?length_insert;
      eapply lookup_lt_Some; eassumption ].

Ltac wsimpl :=
  cbn [editors instance _data _readOnly _destroyed onChange onTouched type
       config_on tagName document_createElement appendChild CKEDITOR
       pending_namespace
       ed_data ed_readOnly undoManager ed_listeners ed_callbacks ed_status
       ed_userCallback ed_filter ed_coerce
       truthy when negb option_map from_option app is_loading is_ready
       get_data ngZone_run ngZone_runOutsideAngular].

(** A world or an editor, written as its record of fields. *)
Ltac norm_world :=
  unfold set_editor, with_editors, with_readOnly, with_data, with_destroyed,
    with_instance, with_onChange, with_onTouched, with_pending, with_config_on,
    ed_with_data, ed_with_readOnly, ed_with_undo, ed_with_listeners,
    ed_with_callbacks, ed_with_status, ed_with_userCallback;
  wsimpl; rewrite ?list_insert_insert_eq.

Ltac rewrite_lookup :=
  repeat match goal with
    | |- context [ <[?i := ?x]> ?l !! ?i ] =>
        rewrite (list_lookup_insert_eq l i x)
          by (rewrite ?length_insert; eapply lookup_lt_Some; eassumption)
    | H : ?l !! ?i = Some _ |- context [ ?l !! ?i ] => rewrite H
    end.

Ltac rewrite_eqb :=
  repeat match goal with
    | H : ?a = ?b |- context [ data_eqb ?a ?b ] => rewrite (data_eqb_true a b H)
    | H : ?b = ?a |- context [ data_eqb ?a ?b ] =>
        rewrite (data_eqb_true a b (eq_sym H))
    | H : ?a <> ?b |- context [ data_eqb ?a ?b ] => rewrite (data_eqb_false a b H)
    | H : ?b <> ?a |- context [ data_eqb ?a ?b ] =>
        rewrite (data_eqb_false a b (not_eq_sym H))
    end.

(** One step of a run.  After each call the world is put back in the form of
    a record, so that the terms stay small. *)
Ltac runs_pre := cbv beta; wsimpl; rewrite_lookup; rewrite_eqb; wsimpl.

Ltac runs_step :=
  lazymatch goal with
  | |- @eq World _ _ => norm_world; reflexivity
  | |- runs _ _ _ _ _ =>
    runs_pre;
    lazymatch goal with
    | |- runs (bind _ _) _ _ _ _ => eapply runs_bind_via
    | |- runs (ret _) _ _ _ _ => apply runs_ret
    | |- runs (gets _) _ _ _ _ => apply runs_gets
    | |- runs (modify _) _ _ _ _ => apply runs_modify
    | |- runs (tell _) _ _ _ _ => apply runs_tell
    | |- runs (bracket _ _ _) _ _ _ _ => eapply runs_bracket
    | |- runs (ngZone_run _) _ _ _ _ => unfold ngZone_run
    | |- runs (ngZone_runOutsideAngular _) _ _ _ _ => unfold ngZone_runOutsideAngular
    | |- runs this_instance _ _ _ _ => apply runs_this_instance; reflexivity
    | |- runs (the_editor _) _ _ _ _ => apply runs_the_editor; solve_lookup
    | |- runs (update_editor _ _) _ _ _ _ => eapply runs_update_editor; solve_lookup
    | |- runs (editor_getData _) _ _ _ _ => eapply runs_editor_getData; solve_lookup
    | |- runs (editor_readOnly _) _ _ _ _ => eapply runs_editor_readOnly; solve_lookup
    | |- runs (editor_undoManager _) _ _ _ _ =>
        eapply runs_editor_undoManager; solve_lookup
    | |- runs (editor_setData _ _ _) _ _ _ _ =>
        eapply runs_editor_setData; solve_lookup
    | |- runs (editor_setReadOnly _ _) _ _ _ _ =>
        eapply runs_editor_setReadOnly; solve_lookup
    | |- runs (undo_lock _) _ _ _ _ => eapply runs_undo_lock; solve_lookup
    | |- runs (undo_unlock _) _ _ _ _ => eapply runs_undo_unlock; solve_lookup
    | |- runs (editor_on _ _ _) _ _ _ _ => eapply runs_editor_on; solve_lookup
    | |- runs (editor_destroy _) _ _ _ _ => eapply runs_editor_destroy; solve_lookup
    | |- runs get_data _ _ _ _ => apply runs_gets
    | |- runs (set_readOnly _) _ _ _ _ => unfold set_readOnly
    | |- runs (subscribe _) _ _ _ _ => unfold subscribe
    | |- runs (instanceReady _ _) _ _ _ _ => unfold instanceReady, instanceReady_with
    | |- runs (run_callback _) _ _ _ _ => unfold run_callback
    | |- runs (editor_fire _ _) _ _ _ _ => unfold editor_fire
    | |- runs (dispatch _ _) _ _ _ _ => unfold dispatch
    | |- runs (step _) _ _ _ _ => unfold step
    | |- runs (handshake _) _ _ _ _ => unfold handshake
    end
  end.

Lemma subscribe_runs h e w :
  instance w = Some h -> editors w !! h = Some e ->
  runs (subscribe h) w tt
    (set_editor h
       (ed_with_listeners
          (ed_listeners e ++ subscriptions (truthy (undoManager e))) e) w)
    (on_calls h (subscriptions (truthy (undoManager e)))).
Proof.
  intros Hi He.
  destruct w as [cfg tg ty ro d dd i oc ot es ce ac mk pn]; cbn in Hi, He; subst i.
  destruct e as [ed_d ed_ro um ls cbs st eu flt co].
  destruct um as [n|];
    (eapply runs_conv;
     [ repeat runs_step
     | norm_world; rewrite <- !app_assoc; reflexivity
     | reflexivity ]).
Qed.

Lemma announce_ready_runs h u w :
  user_supplied u -> runs (announce_ready h u) w tt w (ready_log u).
Proof.
  intros Hu. destruct u; [| |destruct Hu];
    cbn [announce_ready]; unfold ngZone_run, ready_log;
    (eapply runs_conv; [repeat runs_step | reflexivity | reflexivity]).
Qed.

Ltac runs_more :=
  try lazymatch goal with |- runs _ _ _ _ _ => runs_pre end;
  first
    [ lazymatch goal with
      | |- @eq World _ _ => fail
      | |- runs (subscribe _) _ _ _ _ =>
          eapply subscribe_runs; [reflexivity | solve_lookup]
      | |- runs (announce_ready _ _) _ _ _ _ =>
          apply announce_ready_runs; first [assumption | exact I]
      | |- runs (forM_ (listeners_of ?n ?e) _) _ _ _ _ =>
          let l := eval vm_compute in (listeners_of n e) in
          change (listeners_of n e) with l; cbn [forM_ run_listener]
      | |- runs (propagateChange _) _ _ _ _ =>
          first
            [ eapply propagateChange_differs;
              [ reflexivity | solve_lookup
              | wsimpl; first [assumption | apply not_eq_sym; assumption] ]
            | eapply propagateChange_same;
              [ reflexivity | solve_lookup
              | wsimpl; first [assumption | symmetry; assumption] ] ]
      end
    | runs_step ].

Ltac log_eq :=
  unfold propagate_log, onChange_call; cbn;
  rewrite ?app_nil_r, <- ?app_assoc; reflexivity.

(** The [instanceReady] task of a loading editor, up to the point where the
    handler returns. *)
Lemma instanceReady_runs (w : World) (h : nat) (e : Editor) :
  editors w !! h = Some e -> loading e ->
  (_data w = None -> user_supplied (ed_userCallback e)) ->
  let isReadOnly := default (value (ed_readOnly e)) (_readOnly w) in
  let undo := truthy (undoManager e) in
  exists w' e',
    runs (step (InstanceReady h)) w tt w'
      (setup_log h isReadOnly undo ++
       match _data w with
       | None => ready_log (ed_userCallback e)
       | Some s => (if undo then [UndoLock h] else []) ++ [EdSetData h (Some s)]
       end) /\
    instance w' = Some h /\
    _readOnly w' = _readOnly w /\
    editors w' !! h = Some e' /\
    ed_readOnly e' = ed_coerce e (Some isReadOnly) /\
    ed_callbacks e'
    = match _data w with
      | None => []
      | Some _ => [CbInitialData h undo (ed_userCallback e)]
      end /\
    ed_data e'
    = match _data w with
      | None => ed_data e
      | Some s => ed_filter e (Some s) (ed_data e)
      end /\
    _data w' = _data w /\
    ed_listeners e' = subscriptions undo.
Proof.
  intros He (Hst & Hls & Hcb) Hu.
  destruct w as [cfg tg ty ro d dd i oc ot es ce ac mk pn]; cbn in He.
  destruct e as [ed_d ed_ro um ls cbs st eu flt co]; cbn in Hst, Hls, Hcb, Hu; subst.
  cbn [_data _readOnly undoManager ed_userCallback ed_filter ed_data ed_readOnly
       ed_coerce].
  destruct d as [s|]; [clear Hu | specialize (Hu eq_refl)];
    destruct um as [n|], ro as [b|];
    eexists; eexists;
    (split;
     [ eapply runs_conv; [solve [repeat runs_more] | norm_world; reflexivity | log_eq]
     | repeat split; first [reflexivity | solve_lookup] ]).
Qed.

(** The completion callback of the initial push, in whatever state it finds
    the component once the handler has returned: the instance is still this
    editor, and the event the callback may fire reaches the shared change
    handler and nothing else. *)
Lemma callback_runs (w : World) (h : nat) (e : Editor)
    (undo : bool) (u : Handler) (rest : list Callback) :
  instance w = Some h -> editors w !! h = Some e ->
  ed_callbacks e = CbInitialData h undo u :: rest ->
  listeners_of (if undo then "change" else "dataReady") e = [LPropagateChange] ->
  user_supplied u ->
  exists w',
    runs (step (SetDataDone h)) w tt w'
      ((if data_eqb (_data w) (ed_data e) then []
        else let name := if undo then "change" else "dataReady" in
             EdFire h name :: propagate_log name (ed_data e) w) ++
       (if undo then [UndoUnlock h] else []) ++ ready_log u).
Proof.
  intros Hi He Hcb Hl Hu.
  destruct w as [cfg tg ty ro d dd i oc ot es ce ac mk pn]; cbn in Hi, He; subst i.
  destruct e as [ed_d ed_ro um ls cbs st eu flt co]; cbn in Hcb; subst cbs.
  cbn [_data ed_data].
  assert (Hl' : forall cbs',
             listeners_of (if undo then "change" else "dataReady")
               (mkEditor ed_d ed_ro um ls cbs' st eu flt co) = [LPropagateChange])
    by (intros cbs'; exact Hl).
  clear Hl.
  destruct (decide (d = ed_d)) as [Heq|Hne];
    [rewrite (data_eqb_true _ _ Heq) | rewrite (data_eqb_false _ _ Hne)];
    destruct undo;
    eexists;
    (eapply runs_conv;
     [ solve [repeat first
                [ lazymatch goal with
                  | |- runs (forM_ (listeners_of _ _) _) _ _ _ _ =>
                      rewrite Hl'; cbn [forM_ run_listener]
                  end
                | runs_more ]]
     | reflexivity | log_eq ]).
Qed.

(** The handshake of a loading editor when the callback follows the handler
    with nothing in between, step by step. *)
Lemma handshake_runs (w : World) (h : nat) (e : Editor) :
  editors w !! h = Some e -> loading e -> user_supplied (ed_userCallback e) ->
  let isReadOnly := default (value (ed_readOnly e)) (_readOnly w) in
  let undo := truthy (undoManager e) in
  exists w',
    runs (handshake h) w tt w'
      (setup_log h isReadOnly undo ++
       match _data w with
       | None => ready_log (ed_userCallback e)
       | Some s =>
           let pushed := ed_filter e (Some s) (ed_data e) in
           (if undo then [UndoLock h] else []) ++
           [EdSetData h (Some s)] ++
           (if data_eqb (Some s) pushed then []
            else let name := if undo then "change" else "dataReady" in
                 EdFire h name :: propagate_log name pushed w) ++
           (if undo then [UndoUnlock h] else []) ++
           ready_log (ed_userCallback e)
       end).
Proof.
  intros He (Hst & Hls & Hcb) Hu.
  destruct w as [cfg tg ty ro d dd i oc ot es ce ac mk pn]; cbn in He.
  destruct e as [ed_d ed_ro um ls cbs st eu flt co]; cbn in Hst, Hls, Hcb, Hu; subst.
  cbn [_data _readOnly undoManager ed_userCallback ed_filter ed_data ed_readOnly].
  destruct d as [s|].
  - destruct (decide (Some s = flt (Some s) ed_d)) as [Heq|Hne];
      [rewrite (data_eqb_true _ _ Heq) | rewrite (data_eqb_false _ _ Hne)];
      destruct um as [n|], ro as [b|];
      eexists; (eapply runs_conv; [solve [repeat runs_more] | reflexivity | log_eq]).
  - destruct um as [n|], ro as [b|];
      eexists; (eapply runs_conv; [solve [repeat runs_more] | reflexivity | log_eq]).
Qed.

Lemma runs_eq {A} (m : M A) w a w' t :
  runs m w a w' t -> outcome (m w) = Ret a /\ world_of (m w) = w' /\ log_of (m w) = t.
Proof. unfold runs. intros ->. repeat split. Qed.

(** C1, as amended.  The creation handshake of an editor that [createEditor]
    asked for, when the callback its handler captured is the user's or none.

    The handler returns.  With no buffered data ([null]) it emits ready
    directly, once, inside the zone and after the user's callback, and pushes
    nothing.  With buffered data [v] ([undefined] counts) it locks the undo
    manager, if there is one, pushes [v] and emits no ready yet: the
    completion callback is left pending.

    The completion callback, in whatever state it finds the component: it
    fires 'change' (undo manager) or 'dataReady' (none) exactly when the
    editor's content at that moment differs from [currentData] at that
    moment; then it unlocks the undo manager and emits ready, once, inside
    the zone and after the user's callback.

    When the callback runs right after the handler, that test is between the
    content after the push and the buffered value, and the whole handshake
    emits ready exactly once. *)
Theorem handshake_spec (w : World) (h : nat) (e : Editor) :
  editors w !! h = Some e -> loading e -> user_supplied (ed_userCallback e) ->
  let isReadOnly := default (value (ed_readOnly e)) (_readOnly w) in
  let undo := truthy (undoManager e) in
  let name := if undo then "change" else "dataReady" in
  let u := ed_userCallback e in
  (* the handler *)
  (let x := step (InstanceReady h) w in
   outcome x = Ret tt /\
   exists e',
     editors (world_of x) !! h = Some e' /\
     match _data w with
     | None =>
         log_of x = setup_log h isReadOnly undo ++ ready_log u /\
         count is_ready_emit (log_of x) = 1 /\
         count is_setData (log_of x) = 0 /\
         ed_callbacks e' = []
     | Some v =>
         log_of x =
           setup_log h isReadOnly undo ++
           (if undo then [UndoLock h] else []) ++ [EdSetData h (Some v)] /\
         count is_ready_emit (log_of x) = 0 /\
         ed_callbacks e' = [CbInitialData h undo u] /\
         ed_data e' = ed_filter e (Some v) (ed_data e) /\
         _data (world_of x) = Some v
     end) /\
  (* the completion callback, whenever it runs *)
  (forall w1 e1 rest,
     instance w1 = Some h -> editors w1 !! h = Some e1 ->
     ed_callbacks e1 = CbInitialData h undo u :: rest ->
     listeners_of name e1 = [LPropagateChange] ->
     let y := step (SetDataDone h) w1 in
     outcome y = Ret tt /\
     log_of y =
       (if data_eqb (_data w1) (ed_data e1) then []
        else EdFire h name :: propagate_log name (ed_data e1) w1) ++
       (if undo then [UndoUnlock h] else []) ++ ready_log u /\
     count is_ready_emit (log_of y) = 1 /\
     count is_fire (log_of y) = if data_eqb (_data w1) (ed_data e1) then 0 else 1) /\
  (* the callback right after the handler *)
  (let x := handshake h w in
   outcome x = Ret tt /\
   count is_ready_emit (log_of x) = 1 /\
   match _data w with
   | None =>
       log_of x = setup_log h isReadOnly undo ++ ready_log u /\
       count is_setData (log_of x) = 0
   | Some s =>
       let pushed := ed_filter e (Some s) (ed_data e) in
       log_of x =
         setup_log h isReadOnly undo ++
         (if undo then [UndoLock h] else []) ++
         [EdSetData h (Some s)] ++
         (if data_eqb (Some s) pushed then []
          else EdFire h name :: propagate_log name pushed w) ++
         (if undo then [UndoUnlock h] else []) ++
         ready_log u /\
       (count is_fire (log_of x) = if data_eqb (Some s) pushed then 0 else 1)
   end).
Proof.
  intros He Hl Hu isReadOnly undo name u.
  split; [|split].
  - intros x.
    destruct (instanceReady_runs w h e He Hl (fun _ => Hu))
      as (w' & e' & Hr & _ & _ & He' & _ & Hcb & Hd & Hdw & _).
    apply runs_eq in Hr. destruct Hr as (Ho & Hw & Hlog).
    fold x in Ho, Hw, Hlog. fold isReadOnly undo u in Hlog, Hcb.
    split; [exact Ho|]. exists e'. rewrite Hw. split; [exact He'|].
    rewrite Hlog, Hdw. clear Hlog Ho Hw x He He'.
    unfold setup_log, ready_log, on_calls, subscriptions.
    destruct (_data w) as [v|].
    + repeat split; try assumption. destruct undo; reflexivity.
    + repeat split; try assumption; destruct undo, u; try reflexivity;
        destruct Hu.
  - intros w1 e1 rest Hi1 He1 Hcb1 Hl1 y.
    destruct (callback_runs w1 h e1 undo u rest Hi1 He1 Hcb1 Hl1 Hu) as (w' & Hr).
    apply runs_eq in Hr. destruct Hr as (Ho & _ & Hlog).
    fold y in Ho, Hlog. split; [exact Ho|].
    rewrite Hlog. clear Hlog Ho y. fold name.
    unfold ready_log, propagate_log, onChange_call, typed_emit, name. cbv zeta.
    destruct (data_eqb (_data w1) (ed_data e1)), undo, u, (onChange w1);
      try destruct Hu; repeat split; reflexivity.
  - intros x.
    destruct (handshake_runs w h e He Hl Hu) as (w' & Hr).
    apply runs_eq in Hr. destruct Hr as (Ho & _ & Hlog).
    fold x in Ho, Hlog. fold isReadOnly undo u in Hlog.
    split; [exact Ho|].
    rewrite Hlog. clear Hlog Ho x He w'.
    unfold setup_log, ready_log, propagate_log, onChange_call, on_calls,
      subscriptions, typed_emit, name.
    destruct (_data w) as [s|].
    + cbv zeta.
      destruct (data_eqb (Some s) (ed_filter e (Some s) (ed_data e))), undo,
        u, (onChange w); try destruct Hu; repeat split; reflexivity.
    + destruct undo, u; try destruct Hu; repeat split; reflexivity.
Qed.

(** An editor with an undo manager that wraps the pushed ["x"] in a
    paragraph: the handler pushes and leaves the callback pending; run right
    after it, the callback fires 'change' once and ready is emitted once. *)
Lemma handshake_spec_witness :
  let w := awaiting_ready undo_editor in
  count is_ready_emit (log_of (step (InstanceReady 0) w)) = 0 /\
  count is_ready_emit (log_of (handshake 0 w)) = 1 /\
  count is_fire (log_of (handshake 0 w)) = 1.
Proof.
  intros w.
  pose proof (handshake_spec w 0
                (fresh_editor NotFunction undo_editor)
                eq_refl (conj eq_refl (conj eq_refl eq_refl)) I) as H.
  cbv zeta in H.
  destruct H as ((_ & e' & _ & _ & H0 & _) & _ & (_ & Hready & _ & Hfire)).
  split; [exact H0|]. split; [exact Hready | exact Hfire].
Defined.

(** C1 as stated fails when something runs between the handler and the
    completion callback.  The pushed ["x"] comes back as a paragraph, so the
    content after the push differs from the buffered value; yet when the
    editor's own 'dataReady' reaches the component first, the shared change
    handler has already taken the content over and the callback fires
    nothing.  When the component is torn down in between, the editor drops
    the callback and ready is never emitted.  And the handshake of an editor
    created by a second [createEditor] on a shared [config.on] emits ready
    twice. *)
Lemma handshake_as_stated_fails :
  (let w := awaiting_ready undo_editor in
   _data w = Some (value "x") /\
   ed_filter undo_editor (Some (value "x")) (ed_data undo_editor)
   = Some (value "<p>x</p>") /\
   count is_fire
     (snd (run [InstanceReady 0; Native 0 "dataReady"; SetDataDone 0] w)) = 0 /\
   count is_ready_emit
     (snd (run [InstanceReady 0; Native 0 "dataReady"; SetDataDone 0] w)) = 1 /\
   count is_ready_emit
     (snd (run [InstanceReady 0; InDestroy; SetDataDone 0] w)) = 0) /\
  count is_ready_emit
    (snd (run [InstanceReady 1] (created_twice plain_editor))) = 2.
Proof. vm_compute. repeat split. Qed.

(** C2, as amended.  One firing of [propagateChange] with an instance: it
    reads the instance's value; when that equals [currentData], the state is
    unchanged, no data-changed notification is emitted and the change-callback
    is not called; otherwise [currentData] becomes the value, a data-changed
    notification carries it and the change-callback, if registered, is called
    with it.  So two consecutive firings on the same content emit at most one
    data-changed notification: one when the content differs from
    [currentData] before the first firing, none when it does not. *)
Theorem propagateChange_spec (name : string) (w : World) (h : nat) (e : Editor) :
  instance w = Some h -> editors w !! h = Some e ->
  (ed_data e = _data w ->
   propagateChange name w = (Ret tt, w, ZoneEnter :: typed_emit name ++ [ZoneLeave])) /\
  (ed_data e <> _data w ->
   propagateChange name w
   = (Ret tt, with_data (ed_data e) w,
      ZoneEnter :: typed_emit name ++ [Emit dataChange (PData (ed_data e))]
        ++ onChange_call w (ed_data e) ++ [ZoneLeave])) /\
  (forall name',
     count is_dataChange_emit
       (log_of ((propagateChange name ;; propagateChange name') w))
     = if data_eqb (ed_data e) (_data w) then 0 else 1).
Proof.
  intros Hi He.
  assert (Hcount : forall n, count is_dataChange_emit
                               (ZoneEnter :: typed_emit n ++ [ZoneLeave]) = 0).
  { intros n. cbn. rewrite count_app, count_typed_emit by reflexivity. reflexivity. }
  split; [|split].
  - intros Heq. exact (propagateChange_same name w h e Hi He Heq).
  - intros Hne. exact (propagateChange_differs name w h e Hi He Hne).
  - intros name'.
    destruct (decide (ed_data e = _data w)) as [Heq|Hne].
    + rewrite (data_eqb_true _ _ Heq).
      pose proof (runs_bind _ (fun _ => propagateChange name') _ _ _ _ _ _ _
                    (propagateChange_same name w h e Hi He Heq)
                    (propagateChange_same name' w h e Hi He Heq)) as H.
      apply runs_eq in H. destruct H as (_ & _ & ->).
      rewrite count_app, !Hcount. reflexivity.
    + rewrite (data_eqb_false _ _ Hne).
      pose proof (runs_bind _ (fun _ => propagateChange name') _ _ _ _ _ _ _
                    (propagateChange_differs name w h e Hi He Hne)
                    (propagateChange_same name' (with_data (ed_data e) w) h e
                       Hi He eq_refl)) as H.
      apply runs_eq in H. destruct H as (_ & _ & ->).
      rewrite count_app, Hcount. cbn.
      rewrite !count_app, count_typed_emit by reflexivity.
      unfold onChange_call. destruct (onChange w); reflexivity.
Qed.

(** The editor's content differs from [currentData]: two 'change' events,
    one data-changed notification. *)
Lemma propagateChange_spec_witness :
  let e := sample_editor (Some 0) (Some (value "typed")) as_is in
  let w := with_editors [e] (with_instance (Some 0) (constructed e)) in
  count is_dataChange_emit
    (log_of ((propagateChange "change" ;; propagateChange "change") w)) = 1.
Proof.
  intros e w.
  assert (Hi : instance w = Some 0) by reflexivity.
  assert (He : editors w !! 0 = Some e) by reflexivity.
  destruct (propagateChange_spec "change" w 0 e Hi He) as (_ & _ & H).
  exact (H "change").
Defined.

(** C2 as stated fails: when the content the two firings carry is already
    [currentData], no data-changed notification is emitted, not one. *)
Lemma two_firings_of_current_data :
  let w := live undo_editor in
  instance w = Some 0 /\
  _data w = Some (value "<p>x</p>") /\
  count is_dataChange_emit
    (log_of ((propagateChange "change" ;; propagateChange "change") w)) = 0 /\
  count is_dataChange_emit (snd (run [Native 0 "change"; Native 0 "change"] w)) <> 1.
Proof. vm_compute. repeat split. discriminate. Qed.

(** ** The subscriptions *)

Lemma listeners_of_app name l1 l2 e :
  listeners_of name (ed_with_listeners (l1 ++ l2) e)
  = listeners_of name (ed_with_listeners l1 e)
    ++ listeners_of name (ed_with_listeners l2 e).
Proof. unfold listeners_of. cbn. now rewrite filter_app, map_app. Qed.

(** C6.  [subscribe] binds the shared handler to 'dataReady' always, to
    'change' exactly when the instance has an undo manager and to
    'selectionCheck' exactly when it has none: one of the two, never both. *)
Theorem subscribe_spec (w : World) (h : nat) (e : Editor) :
  instance w = Some h -> editors w !! h = Some e ->
  let x := subscribe h w in
  outcome x = Ret tt /\
  In (EdOn h "dataReady" LPropagateChange) (log_of x) /\
  (In (EdOn h "change" LPropagateChange) (log_of x) <-> undoManager e <> None) /\
  (In (EdOn h "selectionCheck" LPropagateChange) (log_of x) <-> undoManager e = None) /\
  count is_change_binding (log_of x) = 1 /\
  exists e',
    editors (world_of x) !! h = Some e' /\
    listeners_of "dataReady" e' = listeners_of "dataReady" e ++ [LPropagateChange] /\
    listeners_of "change" e'
    = listeners_of "change" e
      ++ (if truthy (undoManager e) then [LPropagateChange] else []) /\
    listeners_of "selectionCheck" e'
    = listeners_of "selectionCheck" e
      ++ (if truthy (undoManager e) then [] else [LPropagateChange]).
Proof.
  intros Hi He x.
  pose proof (subscribe_runs h e w Hi He) as Hr.
  apply runs_eq in Hr. destruct Hr as (Ho & Hw & Hlog).
  subst x. rewrite Hlog, Hw. clear Hlog Hw.
  split; [exact Ho|].
  assert (Hsame : forall l, ed_with_listeners l e
                            = ed_with_listeners l (ed_with_listeners [] e))
    by reflexivity.
  assert (Hnil : forall n, listeners_of n (ed_with_listeners (ed_listeners e) e)
                           = listeners_of n e) by reflexivity.
  destruct (undoManager e) as [n|] eqn:Hu; cbn [truthy].
  - split; [cbn; tauto|].
    split; [split; [discriminate | intros _; cbn; tauto]|].
    split; [split; [cbn; intros H;
                    repeat (destruct H as [H|H]; [discriminate H|]); destruct H
                   | discriminate]|].
    split; [reflexivity|].
    eexists. split; [eapply lookup_set_editor, He|].
    rewrite !listeners_of_app, !Hnil. repeat split.
  - split; [cbn; tauto|].
    split; [split; [cbn; intros H;
                    repeat (destruct H as [H|H]; [discriminate H|]); destruct H
                   | congruence]|].
    split; [split; [reflexivity | intros _; cbn; tauto]|].
    split; [reflexivity|].
    eexists. split; [eapply lookup_set_editor, He|].
    rewrite !listeners_of_app, !Hnil. repeat split.
Qed.

(** An editor without the undo plugin: 'selectionCheck' is the signal. *)
Lemma subscribe_spec_witness :
  let e := plain_editor in
  let w := with_editors [e] (with_instance (Some 0) (constructed e)) in
  In (EdOn 0 "selectionCheck" LPropagateChange) (log_of (subscribe 0 w)) /\
  count is_change_binding (log_of (subscribe 0 w)) = 1.
Proof.
  intros e w.
  destruct (subscribe_spec w 0 e eq_refl eq_refl) as (_ & _ & _ & Hs & Hc & _).
  split; [apply Hs; reflexivity | exact Hc].
Defined.

(** ** Invariants of the event loop

    The rules by which a property of the world is carried through a piece of
    the component, for any property that the writes of the component other
    than those to [instance], [_readOnly], [_destroyed] and
    [pending_namespace] cannot break. *)


Lemma inv_ret P L {A} (a : A) : inv P L (ret a).
Proof. intros w Hw. split; [exact Hw | constructor]. Qed.

Lemma inv_throw P L {A} reason : inv P L (@throw A reason).
Proof. intros w Hw. split; [exact Hw | constructor]. Qed.

Lemma inv_gets P L {A} (f : World -> A) : inv P L (gets f).
Proof. intros w Hw. split; [exact Hw | constructor]. Qed.

Lemma inv_tell P (L : Obs -> Prop) o : L o -> inv P L (tell o).
Proof. intros Ho w Hw. split; [exact Hw | repeat constructor; exact Ho]. Qed.

Lemma inv_modify (P : World -> Prop) L f :
  (forall w, P w -> P (f w)) -> inv P L (modify f).
Proof. intros Hf w Hw. split; [apply Hf, Hw | constructor]. Qed.

Lemma inv_bind P L {A B} (m : M A) (k : A -> M B) :
  inv P L m -> (forall a, inv P L (k a)) -> inv P L (bind m k).
Proof.
  intros Hm Hk w Hw. specialize (Hm w Hw). unfold bind.
  destruct (m w) as [[[a|e] w1] t1]; cbn in Hm; destruct Hm as (H1 & H2).
  - specialize (Hk a w1 H1). destruct (k a w1) as [[r w2] t2]. cbn in *.
    destruct Hk as (H3 & H4). split; [exact H3 | apply Forall_app; split; assumption].
  - cbn. split; assumption.
Qed.

(** A read followed by a use of what was read, when the use is only sound in
    the world that was read. *)
Lemma inv_gets_bind P L {A B} (f : World -> A) (k : A -> M B) :
  (forall w, P w -> P (world_of (k (f w) w)) /\ Forall L (log_of (k (f w) w))) ->
  inv P L (bind (gets f) k).
Proof.
  intros H w Hw. specialize (H w Hw). unfold bind, gets.
  destruct (k (f w) w) as [[r w2] t2]. cbn in *. exact H.
Qed.

Lemma inv_bracket P (L : Obs -> Prop) enter leave {A} (m : M A) :
  L enter -> L leave -> inv P L m -> inv P L (bracket enter leave m).
Proof.
  intros He Hl Hm w Hw. specialize (Hm w Hw). unfold bracket.
  destruct (m w) as [[r w1] t]. cbn in *. destruct Hm as (H1 & H2).
  split; [exact H1|]. constructor; [exact He|].
  apply Forall_app. split; [exact H2 | repeat constructor; exact Hl].
Qed.

Lemma inv_catch P L (m : M unit) handler :
  inv P L m -> (forall e, inv P L (handler e)) -> inv P L (catch m handler).
Proof.
  intros Hm Hh w Hw. specialize (Hm w Hw). unfold catch.
  destruct (m w) as [[[a|e] w1] t1]; cbn in Hm; destruct Hm as (H1 & H2).
  - cbn. split; assumption.
  - specialize (Hh e w1 H1). destruct (handler e w1) as [[r w2] t2]. cbn in *.
    destruct Hh as (H3 & H4). split; [exact H3 | apply Forall_app; split; assumption].
Qed.

Lemma inv_forM_ P L {A} (l : list A) (f : A -> M unit) :
  (forall a, inv P L (f a)) -> inv P L (forM_ l f).
Proof.
  intros Hf. induction l as [|a l IH]; cbn [forM_].
  - apply inv_ret.
  - apply inv_bind; [apply Hf | intros _; exact IH].
Qed.

Lemma inv_when P L b (m : M unit) : inv P L m -> inv P L (when b m).
Proof. intros Hm. destruct b; [exact Hm | apply inv_ret]. Qed.

(** An update of an editor, for a property that no such update breaks. *)
Lemma inv_update_editor_any (P : World -> Prop) L h f :
  (forall h e w, P w -> P (set_editor h e w)) -> inv P L (update_editor h f).
Proof.
  intros He w Hw. unfold update_editor, bind, the_editor, modify.
  destruct (editors w !! h) as [e|]; cbn.
  - split; [apply (He h (f e) w Hw) | constructor].
  - split; [exact Hw | constructor].
Qed.

(** A read of an editor's content followed by a use of it, when the use is
    only sound in a world that has the editor. *)
Lemma inv_editor_getData_bind (P : World -> Prop) L {B} h (k : Data -> M B) :
  (forall w e, P w -> editors w !! h = Some e ->
     P (world_of (k (ed_data e) w)) /\ Forall L (log_of (k (ed_data e) w))) ->
  inv P L (bind (editor_getData h) k).
Proof.
  intros H w Hw. unfold editor_getData, bind, the_editor, ret.
  destruct (editors w !! h) as [e|] eqn:He; cbn.
  - specialize (H w e Hw He). destruct (k (ed_data e) w) as [[r w2] t2]. exact H.
  - split; [exact Hw | constructor].
Qed.

Section InvariantRules.
Variable P : World -> Prop.
Variable L : Obs -> Prop.

Hypothesis P_data : forall d w, P w -> P (with_data d w).
Hypothesis P_onChange : forall c w, P w -> P (with_onChange c w).
Hypothesis P_onTouched : forall c w, P w -> P (with_onTouched c w).
Hypothesis P_editor :
  forall h e e' w, P w -> editors w !! h = Some e ->
    incl (ed_callbacks e') (ed_callbacks e) -> P (set_editor h e' w).
Hypothesis L_other : forall o, is_create o = false -> L o.

Local Ltac inv_step :=
  cbv beta;
  lazymatch goal with
  | |- inv _ _ (ret _) => apply inv_ret
  | |- inv _ _ (throw _) => apply inv_throw
  | |- inv _ _ (gets _) => apply inv_gets
  | |- inv _ _ (tell _) => apply inv_tell; apply L_other; reflexivity
  | |- inv _ _ (bracket _ _ _) =>
      apply inv_bracket;
      [apply L_other; reflexivity | apply L_other; reflexivity |]
  | |- inv _ _ (when _ _) => apply inv_when
  | |- inv _ _ (bind _ _) => apply inv_bind; [|intros ?]
  | |- inv _ _ (modify _) => apply inv_modify; intros ? ?; auto
  end.

(** An update that adds no completion callback. *)
Local Ltac no_new_callback :=
  intros ?; cbn [ed_callbacks ed_with_data ed_with_readOnly ed_with_undo
                 ed_with_listeners ed_with_callbacks ed_with_status];
  first [apply incl_refl | rewrite app_nil_r; apply incl_refl | apply incl_nil_l].

Lemma inv_the_editor h : inv P L (the_editor h).
Proof.
  intros w Hw. unfold the_editor.
  destruct (editors w !! h); (split; [exact Hw | constructor]).
Qed.

Lemma inv_update_editor h f :
  (forall e, incl (ed_callbacks (f e)) (ed_callbacks e)) ->
  inv P L (update_editor h f).
Proof.
  intros Hf w Hw. unfold update_editor, bind, the_editor, modify.
  destruct (editors w !! h) as [e|] eqn:He; cbn.
  - split; [apply (P_editor h e (f e) w Hw He (Hf e)) | constructor].
  - split; [exact Hw | constructor].
Qed.

Lemma inv_this_instance : inv P L this_instance.
Proof.
  unfold this_instance. apply inv_bind; [apply inv_gets|].
  intros [h|]; [apply inv_ret | apply inv_throw].
Qed.

Lemma inv_editor_getData h : inv P L (editor_getData h).
Proof. unfold editor_getData. repeat first [inv_step | apply inv_the_editor]. Qed.

Lemma inv_editor_readOnly h : inv P L (editor_readOnly h).
Proof. unfold editor_readOnly. repeat first [inv_step | apply inv_the_editor]. Qed.

Lemma inv_editor_undoManager h : inv P L (editor_undoManager h).
Proof. unfold editor_undoManager. repeat first [inv_step | apply inv_the_editor]. Qed.

Lemma inv_editor_setData h d : inv P L (editor_setData h d None).
Proof.
  unfold editor_setData.
  repeat first [inv_step | apply inv_update_editor; no_new_callback].
Qed.

Lemma inv_editor_setReadOnly h b : inv P L (editor_setReadOnly h b).
Proof.
  unfold editor_setReadOnly.
  repeat first [inv_step | apply inv_update_editor; no_new_callback].
Qed.

Lemma inv_undo_lock h : inv P L (undo_lock h).
Proof.
  unfold undo_lock. repeat first [inv_step | apply inv_update_editor; no_new_callback].
Qed.

Lemma inv_undo_unlock h : inv P L (undo_unlock h).
Proof.
  unfold undo_unlock.
  repeat first [inv_step | apply inv_update_editor; no_new_callback].
Qed.

Lemma inv_editor_on h n l : inv P L (editor_on h n l).
Proof.
  unfold editor_on. repeat first [inv_step | apply inv_update_editor; no_new_callback].
Qed.

Lemma inv_editor_destroy h : inv P L (editor_destroy h).
Proof.
  unfold editor_destroy.
  repeat first [inv_step | apply inv_update_editor; no_new_callback].
Qed.

Lemma inv_set_data v : inv P L (set_data v).
Proof.
  unfold set_data. apply inv_bind; [apply inv_gets|]. intros cur.
  destruct (data_eqb v cur); [apply inv_ret|].
  apply inv_bind; [apply inv_gets|]. intros [h|]; [|repeat inv_step].
  apply inv_bind; [apply inv_editor_setData|]. intros _.
  apply inv_bind; [apply inv_editor_getData|]. intros d. repeat inv_step.
Qed.

Lemma inv_propagateChange name : inv P L (propagateChange name).
Proof.
  unfold propagateChange, ngZone_run.
  apply inv_bracket; [apply L_other; reflexivity | apply L_other; reflexivity |].
  apply inv_bind; [apply inv_this_instance|]. intros h.
  apply inv_bind; [apply inv_editor_getData|]. intros newData.
  apply inv_bind.
  { destruct (String.eqb name "change"); [repeat inv_step|].
    destruct (String.eqb name "dataReady"); repeat inv_step. }
  intros _. unfold get_data. apply inv_bind; [apply inv_gets|]. intros cur.
  destruct (data_eqb newData cur); [apply inv_ret|].
  apply inv_bind; [repeat inv_step|]. intros _.
  apply inv_bind; [repeat inv_step|]. intros _.
  apply inv_bind; [apply inv_gets|]. intros [c|]; repeat inv_step.
Qed.

Lemma inv_run_listener name l : inv P L (run_listener name l).
Proof.
  destruct l as [o| |]; cbn [run_listener].
  - unfold ngZone_run. repeat inv_step.
  - unfold ngZone_run.
    apply inv_bracket; [apply L_other; reflexivity | apply L_other; reflexivity |].
    apply inv_bind; [apply inv_gets|]. intros t.
    apply inv_bind; [destruct t; repeat inv_step | intros _; repeat inv_step].
  - apply inv_propagateChange.
Qed.

Lemma inv_dispatch h name : inv P L (dispatch h name).
Proof.
  unfold dispatch. apply inv_bind; [apply inv_the_editor|]. intros e.
  apply inv_forM_. intros l. apply inv_run_listener.
Qed.

Lemma inv_editor_fire h name : inv P L (editor_fire h name).
Proof. unfold editor_fire. repeat first [inv_step | apply inv_dispatch]. Qed.

Lemma inv_subscribe h : inv P L (subscribe h).
Proof.
  unfold subscribe.
  repeat (apply inv_bind; [apply inv_editor_on | intros _]).
  apply inv_bind; [apply inv_this_instance|]. intros h'.
  apply inv_bind; [apply inv_editor_undoManager|]. intros [|]; apply inv_editor_on.
Qed.

(** The completion callback, given the [ngZone.run] block it ends with. *)
Lemma inv_run_callback_with h undo u :
  inv P L (announce_ready h u) -> inv P L (run_callback (CbInitialData h undo u)).
Proof.
  intros Ha. cbn [run_callback]. unfold get_data.
  apply inv_bind; [apply inv_gets|]. intros cur.
  apply inv_bind; [apply inv_editor_getData|]. intros d.
  apply inv_bind.
  { apply inv_when. destruct undo; apply inv_editor_fire. }
  intros _. apply inv_bind; [apply inv_when, inv_undo_unlock|].
  intros _. exact Ha.
Qed.

(** The end of the handshake when the captured callback is the user's or
    none. *)
Lemma inv_announce_ready_user h u : user_supplied u -> inv P L (announce_ready h u).
Proof.
  intros Hu. destruct u; [| |destruct Hu]; cbn [announce_ready];
    unfold ngZone_run; repeat inv_step.
Qed.

(** The completion callback of an editor whose pending callbacks captured no
    handler of the component. *)
Lemma inv_step_SetDataDone_user h :
  (forall w e c, P w -> editors w !! h = Some e -> In c (ed_callbacks e) ->
     user_supplied (cb_user c)) ->
  inv P L (step (SetDataDone h)).
Proof.
  intros Hplain. cbn [step]. apply inv_gets_bind. intros w Hw.
  destruct (editors w !! h) as [e|] eqn:He; [|split; [exact Hw | constructor]].
  destruct (ed_callbacks e) as [|c rest] eqn:Hcb; [split; [exact Hw | constructor]|].
  assert (Hc : user_supplied (cb_user c)).
  { apply (Hplain w e c Hw He). rewrite Hcb. left. reflexivity. }
  pose proof (runs_update_editor h e (ed_with_callbacks rest) w He) as Hr.
  unfold runs in Hr. unfold bind. rewrite Hr.
  assert (HP : P (set_editor h (ed_with_callbacks rest e) w)).
  { apply (P_editor h e _ w Hw He). cbn. rewrite Hcb. apply incl_tl, incl_refl. }
  destruct c as [h' undo u]. cbn in Hc.
  destruct (inv_run_callback_with h' undo u (inv_announce_ready_user h' u Hc) _ HP)
    as (H1 & H2).
  destruct (run_callback (CbInitialData h' undo u)
              (set_editor h (ed_with_callbacks rest e) w)) as [[r w2] t2].
  cbn in *. split; assumption.
Qed.

(** The tasks that write none of the four fields and call no handler of the
    component. *)
Lemma inv_step_plain i :
  match i with
  | InData _ | InWriteValue _ | InRegisterOnChange _ | InRegisterOnTouched _
  | NamespaceLoaded | Native _ _ | UserEdit _ _ => True
  | _ => False
  end ->
  inv P L (step i).
Proof.
  destruct i; intros []; cbn [step].
  - apply inv_set_data.
  - apply inv_set_data.
  - unfold registerOnChange. repeat inv_step.
  - unfold registerOnTouched. repeat inv_step.
  - repeat inv_step.
  - apply inv_bind; [apply inv_gets|]. intros es.
    destruct (es !! h) as [e|]; [|apply inv_ret].
    destruct (is_ready e); [apply inv_dispatch | apply inv_ret].
  - apply inv_bind; [apply inv_gets|]. intros es.
    destruct (es !! h) as [e|]; [|apply inv_ret].
    destruct (is_ready e); [apply inv_update_editor; no_new_callback | apply inv_ret].
Qed.

(** The tasks that write one of the four fields, each under what it needs
    of [P]. *)
Hypothesis P_readOnly : forall b w, P w -> P (with_readOnly b w).
Hypothesis P_pending : forall n w, P w -> P (with_pending n w).
Hypothesis P_destroyed : forall w, P w -> P (with_destroyed true w).
Hypothesis P_released : forall w, P w -> P (with_instance None w).
Hypothesis P_config : forall c w, P w -> P (with_config_on c w).
Hypothesis P_created :
  forall e w, P w -> P (with_editors (editors w ++ [fresh_editor (ed_userCallback e) e]) w).
Hypothesis L_create : forall o, is_create o = true -> L o.

Lemma inv_set_readOnly b : inv P L (set_readOnly b).
Proof.
  unfold set_readOnly. apply inv_bind; [apply inv_gets|].
  intros [h|]; [apply inv_editor_setReadOnly | repeat inv_step].
Qed.

Lemma inv_ngAfterViewInit : inv P L ngAfterViewInit.
Proof. unfold ngAfterViewInit. repeat inv_step. Qed.

Lemma inv_ngOnDestroy : inv P L ngOnDestroy.
Proof.
  unfold ngOnDestroy, release_instance, ngZone_runOutsideAngular.
  apply inv_bind; [repeat inv_step|]. intros _.
  apply inv_bracket; [apply L_other; reflexivity | apply L_other; reflexivity |].
  apply inv_bind; [apply inv_gets|]. intros [h|]; [|apply inv_ret].
  apply inv_bind; [apply inv_editor_destroy | intros _; repeat inv_step].
Qed.

Lemma inv_lift {A} (r : result A) : inv P L (lift r).
Proof. destruct r; [apply inv_ret | apply inv_throw]. Qed.

Lemma inv_createEditor : inv P L createEditor.
Proof.
  unfold createEditor.
  apply inv_bind; [apply inv_gets|]. intros tag.
  apply inv_bind; [apply inv_gets|]. intros createElement.
  apply inv_bind; [repeat inv_step|]. intros _.
  apply inv_bind; [apply inv_lift|]. intros _.
  apply inv_bind; [apply inv_gets|]. intros h.
  apply inv_bind; [apply inv_gets|]. intros append.
  apply inv_bind; [repeat inv_step|]. intros _.
  apply inv_bind; [apply inv_lift|]. intros _.
  apply inv_bind; [apply inv_gets|]. intros on.
  apply inv_bind; [destruct on; repeat inv_step|]. intros _.
  apply inv_bind; [apply inv_gets|]. intros ty.
  apply inv_bind; [apply inv_gets|]. intros mk.
  apply inv_bind; [destruct ty; apply inv_tell; apply L_create; reflexivity|].
  intros _.
  apply inv_bind; [apply inv_lift|]. intros e.
  apply inv_modify. intros w Hw.
  exact (P_created (ed_with_userCallback
                      match on with OnObject f => f | _ => NotFunction end e) w Hw).
Qed.

Lemma inv_namespace_settled (m : M unit) :
  inv P L m ->
  inv P L (n <- gets pending_namespace ;;
           match n with
           | O => ret tt
           | S n' => modify (with_pending n') ;; m
           end).
Proof.
  intros Hm. apply inv_bind; [apply inv_gets|].
  intros [|n']; [apply inv_ret|].
  apply inv_bind; [repeat inv_step | intros _; exact Hm].
Qed.

Lemma inv_step_NamespaceResolved : inv P L (step NamespaceResolved).
Proof.
  cbn [step]. apply inv_namespace_settled.
  apply inv_catch; [|intros e; unfold console_error; repeat inv_step].
  unfold namespace_then, ngZone_runOutsideAngular.
  apply inv_bind; [apply inv_gets|]. intros [|]; [apply inv_ret|].
  apply inv_bracket; [apply L_other; reflexivity | apply L_other; reflexivity |].
  apply inv_createEditor.
Qed.

Lemma inv_step_NamespaceRejected reason : inv P L (step (NamespaceRejected reason)).
Proof.
  cbn [step]. apply inv_namespace_settled. unfold console_error. repeat inv_step.
Qed.

(** The handler of the component, which writes [instance] and registers a
    completion callback, and with it the tasks that may call it. *)
Variable h0 : nat.
Hypothesis P_instance : forall w, P w -> P (with_instance (Some h0) w).
Hypothesis P_any_editor : forall h e w, P w -> P (set_editor h e w).
Hypothesis set_readOnly_ok : forall b, inv P L (set_readOnly b).

Lemma inv_instanceReady_with announce u :
  inv P L announce -> inv P L (instanceReady_with announce h0 u).
Proof.
  intros Ha. unfold instanceReady_with.
  apply inv_bind; [repeat inv_step|]. intros _.
  apply inv_bind; [apply inv_gets|]. intros buffered.
  apply inv_bind.
  { destruct buffered; [apply inv_ret|].
    apply inv_bind; [apply inv_this_instance | intros h].
    apply inv_bind; [apply inv_editor_readOnly | intros b; apply inv_ret]. }
  intros isReadOnly.
  apply inv_bind; [apply set_readOnly_ok|]. intros _.
  apply inv_bind; [apply inv_this_instance|]. intros h.
  apply inv_bind; [apply inv_subscribe|]. intros _.
  apply inv_bind; [apply inv_editor_undoManager|]. intros undo.
  unfold get_data. apply inv_bind; [apply inv_gets|]. intros [s|].
  - apply inv_bind; [apply inv_when, inv_undo_lock | intros _].
    unfold editor_setData. apply inv_bind; [repeat inv_step | intros _].
    unfold update_editor. apply inv_bind; [apply inv_the_editor | intros e].
    apply inv_modify. intros w Hw. apply (P_any_editor h0 _ w Hw).
  - exact Ha.
Qed.

Lemma inv_announce_ready u : inv P L (announce_ready h0 u).
Proof.
  induction u as [| |u IH]; cbn [announce_ready]; unfold ngZone_run.
  - repeat inv_step.
  - repeat inv_step.
  - apply inv_bracket; [apply L_other; reflexivity | apply L_other; reflexivity |].
    apply inv_bind; [apply inv_instanceReady_with, IH | intros _; repeat inv_step].
Qed.

Lemma inv_instanceReady u : inv P L (instanceReady h0 u).
Proof. unfold instanceReady. apply inv_instanceReady_with. apply inv_announce_ready. Qed.

Lemma inv_run_callback undo u : inv P L (run_callback (CbInitialData h0 undo u)).
Proof. apply inv_run_callback_with. apply inv_announce_ready. Qed.

Lemma inv_step_InstanceReady : inv P L (step (InstanceReady h0)).
Proof.
  cbn [step]. apply inv_bind; [apply inv_gets|]. intros es.
  destruct (es !! h0) as [e|]; [|apply inv_ret].
  destruct (is_loading e); [|apply inv_ret].
  apply inv_bind; [|intros _; apply inv_instanceReady].
  apply inv_update_editor. no_new_callback.
Qed.
End InvariantRules.

(** The completion callback of any editor, for a property that every write
    of the handler keeps. *)
Lemma inv_step_SetDataDone (P : World -> Prop) (L : Obs -> Prop) h :
  (forall d w, P w -> P (with_data d w)) ->
  (forall c w, P w -> P (with_onChange c w)) ->
  (forall c w, P w -> P (with_onTouched c w)) ->
  (forall o, is_create o = false -> L o) ->
  (forall h' w, P w -> P (with_instance (Some h') w)) ->
  (forall h' e w, P w -> P (set_editor h' e w)) ->
  (forall b, inv P L (set_readOnly b)) ->
  inv P L (step (SetDataDone h)).
Proof.
  intros Hd Hc Ht HL Hi He Hro.
  assert (He' : forall h' e e' w, P w -> editors w !! h' = Some e ->
                  incl (ed_callbacks e') (ed_callbacks e) -> P (set_editor h' e' w))
    by (intros h' e e' w Hw _ _; apply He, Hw).
  cbn [step]. apply inv_bind; [apply inv_gets|]. intros es.
  destruct (es !! h) as [e|]; [|apply inv_ret].
  destruct (ed_callbacks e) as [|[h' undo u] rest]; [apply inv_ret|].
  apply inv_bind.
  - unfold update_editor. apply inv_bind; [apply inv_the_editor | intros e0].
    apply inv_modify. intros w Hw. apply He, Hw.
  - intros _. apply inv_run_callback; auto.
Qed.

(** A run keeps what each of its tasks keeps. *)
Lemma inv_run (P : World -> Prop) (L : Obs -> Prop) (ok : Input -> Prop) :
  (forall i, ok i -> inv P L (step i)) ->
  (forall e, L (Uncaught e)) ->
  forall ins w, Forall ok ins -> P w ->
    P (fst (run ins w)) /\ Forall L (snd (run ins w)).
Proof.
  intros Hstep HL ins. induction ins as [|i rest IH]; intros w Hok Hw; cbn [run].
  - split; [exact Hw | constructor].
  - inversion Hok as [|? ? Hi Hrest]; subst.
    destruct (Hstep i Hi w Hw) as (H1 & H2).
    destruct (step i w) as [[r w1] t1]. cbn in H1, H2.
    destruct (IH w1 Hrest H1) as (H3 & H4).
    destruct (run rest w1) as [w2 t2]. cbn in *.
    split; [exact H3|].
    apply Forall_app. split; [exact H2|].
    apply Forall_app. split; [|exact H4].
    destruct r; [constructor | repeat constructor; apply HL].
Qed.

Lemma run_app ins1 ins2 w :
  fst (run (ins1 ++ ins2) w) = fst (run ins2 (fst (run ins1 w))).
Proof.
  revert w. induction ins1 as [|i rest IH]; intros w; cbn [run app].
  - reflexivity.
  - destruct (step i w) as [[r w1] t1]. specialize (IH w1).
    destruct (run (rest ++ ins2) w1) as [w2 t2].
    destruct (run rest w1) as [w3 t3]. cbn in *. exact IH.
Qed.

Lemma run_single i w : fst (run [i] w) = world_of (step i w).
Proof. cbn [run]. destruct (step i w) as [[r w1] t1]. reflexivity. Qed.

Lemma count_none p (t : list Obs) : Forall (fun o => p o = false) t -> count p t = 0.
Proof. induction 1 as [|o t Ho _ IH]; cbn; [reflexivity | now rewrite Ho, IH]. Qed.

(** ** A component without editor *)

Ltac closed :=
  intros; cbn; unfold no_create;
  first [assumption | reflexivity | exact I | tauto | discriminate].

Lemma fresh_step i w :
  fresh w -> count is_create (log_of (step i w)) = 0 -> fresh (world_of (step i w)).
Proof.
  intros Hf Hc.
  assert (Hclosed : forall h e e' w, fresh w -> editors w !! h = Some e ->
                      incl (ed_callbacks e') (ed_callbacks e) ->
                      fresh (set_editor h e' w)).
  { intros h e e' w' (H1 & H2) He _. rewrite H1 in He. discriminate He. }
  assert (Hro : forall b, inv fresh (fun _ => True) (set_readOnly b)).
  { intros b. apply inv_set_readOnly; first [exact Hclosed | closed]. }
  destruct i.
  1, 3, 4, 5, 8, 13, 14:
    apply (inv_step_plain fresh (fun _ => True)); first [exact Hclosed | closed].
  - apply (Hro b w Hf).
  - apply (inv_ngAfterViewInit fresh (fun _ => True)); closed.
  - apply (inv_ngOnDestroy fresh (fun _ => True));
      first [exact Hclosed | closed | idtac].
    intros w' (H1 & H2). split; [exact H1 | reflexivity].
  - revert Hc. destruct Hf as (H1 & H2).
    destruct w as [cfg tg ty ro d dd i oc ot es ce ac mk pn]. cbn in H1, H2. subst.
    destruct pn as [|n]; [intros _; split; reflexivity|].
    destruct dd; [intros _; split; reflexivity|].
    cbn [step]. unfold namespace_then, createEditor, ngZone_runOutsideAngular,
      bracket, catch, bind, gets, modify, tell, lift, console_error. cbn.
    destruct (ce tg) as [[]|r1]; cbn; [|intros _; split; reflexivity].
    destruct (ac 0) as [[]|r2]; cbn; [|intros _; split; reflexivity].
    destruct cfg as [| |f]; cbn; try (intros _; split; reflexivity);
      destruct (mk ty 0) as [e0|r3]; destruct ty; cbn; discriminate.
  - apply (inv_step_NamespaceRejected fresh (fun _ => True)); closed.
  - destruct Hf as (H1 & H2). cbn [step]. unfold bind, gets. rewrite H1.
    cbn. split; assumption.
  - destruct Hf as (H1 & H2). cbn [step]. unfold bind, gets. rewrite H1.
    cbn. split; assumption.
Qed.

Lemma fresh_run ins w :
  fresh w -> count is_create (snd (run ins w)) = 0 -> fresh (fst (run ins w)).
Proof.
  revert w. induction ins as [|i rest IH]; intros w Hf Hc; cbn [run] in *.
  - exact Hf.
  - pose proof (fresh_step i w Hf) as Hs.
    destruct (step i w) as [[r w1] t1]. cbn in Hs.
    specialize (IH w1). destruct (run rest w1) as [w2 t2]. cbn in *.
    rewrite !count_app in Hc.
    apply IH; [apply Hs|]; lia.
Qed.

(** ** Destroyed before the namespace is there *)

Lemma destroyed_step i : inv (fun w => _destroyed w = true) no_create (step i).
Proof.
  set (P := fun w => _destroyed w = true).
  assert (Hro : forall b, inv P no_create (set_readOnly b))
    by (intros b; apply inv_set_readOnly; closed).
  destruct i.
  1, 3, 4, 5, 8, 13, 14: apply inv_step_plain; closed.
  - apply Hro.
  - apply inv_ngAfterViewInit; closed.
  - apply inv_ngOnDestroy; closed.
  - cbn [step]. apply inv_namespace_settled; try closed.
    apply inv_catch; [|intros e; apply inv_tell; reflexivity].
    unfold namespace_then. apply inv_gets_bind.
    intros w Hw. rewrite Hw. split; [exact Hw | constructor].
  - apply inv_step_NamespaceRejected; closed.
  - apply inv_step_InstanceReady; first [exact Hro | closed].
  - apply inv_step_SetDataDone; first [exact Hro | closed].
Qed.

(** C4.  Once [destroyed] is set, the [then] callback of the namespace
    promise returns at once: nothing is logged, nothing is thrown, the state
    is as it was.  From then on no run of the event loop calls
    [CKEDITOR.replace] or [CKEDITOR.inline], and a component that had no
    editor never gets an instance. *)
Theorem destroyed_before_resolved (w : World) :
  _destroyed w = true ->
  namespace_then w = (Ret tt, w, []) /\
  (forall n, pending_namespace w = S n ->
     step NamespaceResolved w = (Ret tt, with_pending n w, []) /\
     run [NamespaceResolved] w = (with_pending n w, [])) /\
  (forall ins,
     _destroyed (fst (run ins w)) = true /\
     count is_create (snd (run ins w)) = 0) /\
  (fresh w -> forall ins, instance (fst (run ins w)) = None).
Proof.
  intros Hd.
  assert (Hrun : forall ins,
             _destroyed (fst (run ins w)) = true /\
             count is_create (snd (run ins w)) = 0).
  { intros ins.
    destruct (inv_run (fun w => _destroyed w = true) no_create (fun _ => True)
                (fun i _ => destroyed_step i) (fun _ => eq_refl) ins w) as (H1 & H2).
    - apply Forall_forall. intros; exact I.
    - exact Hd.
    - split; [exact H1 | apply count_none, H2]. }
  split; [|split; [|split]].
  - unfold namespace_then, bind, gets. rewrite Hd. reflexivity.
  - intros n Hn.
    assert (Hs : step NamespaceResolved w = (Ret tt, with_pending n w, [])).
    { cbn [step]. unfold bind, gets, modify, catch, namespace_then.
      rewrite Hn. cbn. rewrite Hd. reflexivity. }
    split; [exact Hs | cbn [run]; rewrite Hs; reflexivity].
  - exact Hrun.
  - intros Hf ins. apply (fresh_run ins w Hf). apply Hrun.
Qed.

(** The view is initialised, the component is destroyed, and only then the
    namespace arrives. *)
Lemma destroyed_before_resolved_witness :
  let w := fst (run [InAfterViewInit; InDestroy]
                  (constructed plain_editor)) in
  run [NamespaceResolved] w = (with_pending 0 w, []) /\
  instance (fst (run [NamespaceResolved; InstanceReady 0; InData (Some (value "x"))] w)) = None.
Proof.
  intros w.
  destruct (destroyed_before_resolved w eq_refl) as (_ & H1 & _ & H2).
  split; [apply (H1 0); reflexivity | apply H2; split; reflexivity].
Defined.

(** ** The namespace cannot be loaded *)

Lemma settled_step i :
  i <> InAfterViewInit -> inv (fun w => pending_namespace w = 0) no_create (step i).
Proof.
  intros Hi.
  assert (Hro : forall b, inv (fun w => pending_namespace w = 0) no_create
                            (set_readOnly b))
    by (intros b; apply inv_set_readOnly; closed).
  destruct i.
  1, 3, 4, 5, 8, 13, 14: apply inv_step_plain; closed.
  - apply Hro.
  - congruence.
  - apply inv_ngOnDestroy; closed.
  - cbn [step]. apply inv_gets_bind.
    intros w Hw. rewrite Hw. split; [exact Hw | constructor].
  - cbn [step]. apply inv_gets_bind.
    intros w Hw. rewrite Hw. split; [exact Hw | constructor].
  - apply inv_step_InstanceReady; first [exact Hro | closed].
  - apply inv_step_SetDataDone; first [exact Hro | closed].
Qed.

(** C8.  A rejection of the namespace promise is passed to [console.error]
    and to nothing else: the task returns, the state is as it was but for the
    promise being settled.  When that was the component's only pending
    promise, no later run (one in which the host does not initialise the view
    again) calls [CKEDITOR.replace] or [CKEDITOR.inline], and a component that
    had no editor never gets an instance: nothing retries. *)
Theorem rejection_is_final (reason : string) (w : World) (n : nat) :
  pending_namespace w = S n ->
  step (NamespaceRejected reason) w = (Ret tt, with_pending n w, [ConsoleError reason]) /\
  run [NamespaceRejected reason] w = (with_pending n w, [ConsoleError reason]) /\
  (n = 0 ->
   forall ins, Forall (fun i => i <> InAfterViewInit) ins ->
     let r := run ins (with_pending n w) in
     pending_namespace (fst r) = 0 /\
     count is_create (snd r) = 0 /\
     (fresh w -> instance (fst r) = None)).
Proof.
  intros Hn.
  assert (Hs : step (NamespaceRejected reason) w
               = (Ret tt, with_pending n w, [ConsoleError reason])).
  { cbn [step]. unfold bind, gets, modify, console_error, tell. rewrite Hn. reflexivity. }
  split; [exact Hs|]. split; [cbn [run]; rewrite Hs; reflexivity|].
  intros -> ins Hins r.
  {
    destruct (inv_run (fun w => pending_namespace w = 0) no_create
                (fun i => i <> InAfterViewInit)
                settled_step (fun _ => eq_refl) ins (with_pending 0 w) Hins eq_refl)
      as (H1 & H2).
    apply count_none in H2. fold r in H1, H2.
    split; [exact H1|]. split; [exact H2|].
    intros Hf. apply (fresh_run ins (with_pending 0 w)); [exact Hf | exact H2]. }
Qed.

(** The namespace fails to load; the host goes on using the component and the
    promise machinery stirs again: still no editor. *)
Lemma rejection_is_final_witness :
  let w := fst (run [InData (Some (value "x")); InAfterViewInit]
                  (constructed plain_editor)) in
  run [NamespaceRejected "404"] w = (with_pending 0 w, [ConsoleError "404"]) /\
  count is_create
    (snd (run [NamespaceResolved; InData (Some (value "y")); InstanceReady 0]
            (with_pending 0 w))) = 0.
Proof.
  intros w.
  destruct (rejection_is_final "404" w 0 eq_refl) as (_ & H1 & H2).
  split; [exact H1|].
  apply (H2 eq_refl [NamespaceResolved; InData (Some (value "y")); InstanceReady 0]).
  repeat constructor; discriminate.
Defined.

(** ** The instance reference *)

Lemma plain_callbacks_editor h e e' w :
  plain_callbacks w -> editors w !! h = Some e ->
  incl (ed_callbacks e') (ed_callbacks e) -> plain_callbacks (set_editor h e' w).
Proof.
  intros Hp He Hincl h1 e1 c H1 Hc. cbn in H1.
  apply list_lookup_insert_Some in H1.
  destruct H1 as [(<- & <- & _)|(_ & H1)].
  - apply (Hp h e c He), Hincl, Hc.
  - apply (Hp h1 e1 c H1 Hc).
Qed.

Lemma plain_callbacks_created e u w :
  plain_callbacks w ->
  plain_callbacks (with_editors (editors w ++ [fresh_editor u e]) w).
Proof.
  intros Hp h1 e1 c H1 Hc. cbn in H1.
  apply lookup_app_Some in H1. destruct H1 as [H1|(_ & H1)].
  - apply (Hp h1 e1 c H1 Hc).
  - apply list_lookup_singleton_Some in H1. destruct H1 as (_ & <-).
    destruct Hc.
Qed.

Lemma unset_step i :
  (forall h, i <> InstanceReady h) -> inv unset (fun _ => True) (step i).
Proof.
  intros Hi.
  assert (Hed : forall h e e' w, unset w -> editors w !! h = Some e ->
                  incl (ed_callbacks e') (ed_callbacks e) -> unset (set_editor h e' w)).
  { intros h e e' w (H1 & H2) He Hincl.
    split; [exact H1 | eapply plain_callbacks_editor; eassumption]. }
  assert (Hsame : forall f : World -> World,
             (forall w, instance (f w) = instance w) ->
             (forall w, editors (f w) = editors w) ->
             forall w, unset w -> unset (f w)).
  { intros f Hf1 Hf2 w (H1 & H2). split; [now rewrite Hf1|].
    intros h e c He Hc. rewrite Hf2 in He. exact (H2 h e c He Hc). }
  assert (Hcr : forall e w, unset w ->
                  unset (with_editors
                           (editors w ++ [fresh_editor (ed_userCallback e) e]) w)).
  { intros e w (H1 & H2). split; [exact H1 | now apply plain_callbacks_created]. }
  assert (Hrel : forall w, unset w -> unset (with_instance None w)).
  { intros w (H1 & H2). split; [reflexivity | exact H2]. }
  destruct i.
  1, 3, 4, 5, 8, 13, 14:
    apply inv_step_plain;
    first [exact Hed | exact I | intros; apply Hsame; auto | closed].
  - apply inv_set_readOnly;
      first [exact Hed | intros; apply Hsame; auto | closed].
  - apply inv_ngAfterViewInit; first [intros; apply Hsame; auto | closed].
  - apply inv_ngOnDestroy;
      first [exact Hed | exact Hrel | intros; apply Hsame; auto | closed].
  - apply inv_step_NamespaceResolved;
      first [exact Hcr | intros; apply Hsame; auto | closed].
  - apply inv_step_NamespaceRejected; first [intros; apply Hsame; auto | closed].
  - now elim (Hi h).
  - apply inv_step_SetDataDone_user;
      first [exact Hed | intros; apply Hsame; auto | closed | idtac].
    intros w e c (_ & Hp) He Hc. exact (Hp h e c He Hc).
Qed.

Lemma instanceReady_sets_first h u w :
  instanceReady h u w = instanceReady h u (with_instance (Some h) w).
Proof. reflexivity. Qed.

(** Whatever the handler captured, the task in which an editor becomes ready
    ends with that editor as the instance. *)
Lemma instanceReady_sets_instance w h e :
  editors w !! h = Some e -> ed_status e = Loading ->
  instance (world_of (step (InstanceReady h) w)) = Some h.
Proof.
  intros He Hst.
  assert (HP : inv (fun w' => instance w' = Some h) (fun _ => True)
                 (instanceReady h (ed_userCallback e))).
  { apply inv_instanceReady; try closed.
    intros b. apply inv_set_readOnly; closed. }
  cbn [step]. unfold bind at 1, gets. rewrite He.
  unfold is_loading. rewrite Hst.
  match goal with |- instance (world_of ?x) = _ =>
    replace x with
      (instanceReady h (ed_userCallback e)
         (with_instance (Some h) (set_editor h (ed_with_status Ready e) w)))
  end.
  - apply HP. reflexivity.
  - rewrite <- instanceReady_sets_first.
    pose proof (runs_update_editor h e (ed_with_status Ready) w He) as Hu.
    unfold runs in Hu. unfold bind. rewrite Hu.
    destruct (instanceReady h (ed_userCallback e)
                (set_editor h (ed_with_status Ready e) w)) as [[r w2] t2].
    reflexivity.
Qed.


Lemma ngOnDestroy_live w h e :
  instance w = Some h -> editors w !! h = Some e ->
  runs ngOnDestroy w tt
    (with_instance None
       (set_editor h
          (ed_with_status Destroyed (ed_with_callbacks [] (ed_with_listeners [] e)))
          (with_destroyed true w)))
    [OutsideEnter; EdDestroy h; OutsideLeave].
Proof.
  intros Hi He.
  destruct w as [cfg tg ty ro d dd i oc ot es ce ac mk pn]; cbn in Hi, He; subst i.
  eapply runs_conv;
    [ unfold ngOnDestroy, release_instance; solve [repeat runs_step]
    | reflexivity | reflexivity ].
Qed.

(** C7, as amended.  [ngOnDestroy] sets [destroyed] and only then, outside the
    zone, destroys the instance it finds and clears the reference: when it
    returns, [destroyed] is set and the reference is null.  The reference is
    null as long as no editor has become ready (from a state in which no
    pending completion callback would call a handler of the component, as
    is the case before any editor is ready), and the [instanceReady] handler
    stores it as its first action, whatever it captured: it is set while the
    handshake is still under way (with buffered data, before the ready
    notification). *)
Theorem instance_lifetime (w : World) :
  ngOnDestroy w = ngZone_runOutsideAngular release_instance (with_destroyed true w) /\
  (forall h e, instance w = Some h -> editors w !! h = Some e ->
     ngOnDestroy w
     = (Ret tt,
        with_instance None
          (set_editor h
             (ed_with_status Destroyed (ed_with_callbacks [] (ed_with_listeners [] e)))
             (with_destroyed true w)),
        [OutsideEnter; EdDestroy h; OutsideLeave])) /\
  (instance w = None ->
   ngOnDestroy w = (Ret tt, with_destroyed true w, [OutsideEnter; OutsideLeave])) /\
  (instance w = None -> plain_callbacks w ->
   forall ins, Forall (fun i => forall h, i <> InstanceReady h) ins ->
     instance (fst (run ins w)) = None) /\
  (forall h e, editors w !! h = Some e -> loading e ->
     let x := step (InstanceReady h) w in
     instance (world_of x) = Some h /\
     (_data w <> None -> count is_ready_emit (log_of x) = 0)).
Proof.
  split; [|split; [|split; [|split]]].
  - unfold ngOnDestroy, bind, modify.
    destruct (ngZone_runOutsideAngular release_instance (with_destroyed true w))
      as [[r w2] t2].
    reflexivity.
  - intros h e Hi He. exact (ngOnDestroy_live w h e Hi He).
  - intros Hi.
    unfold ngOnDestroy, release_instance, ngZone_runOutsideAngular, bracket, bind,
      modify, gets.
    cbn. rewrite Hi. reflexivity.
  - intros Hi Hp ins Hins.
    apply (inv_run unset (fun _ => True)
             (fun i => forall h, i <> InstanceReady h) unset_step (fun _ => I)
             ins w Hins (conj Hi Hp)).
  - intros h e He Hl x. split.
    + exact (instanceReady_sets_instance w h e He (proj1 Hl)).
    + intros Hd.
      assert (Hu : _data w = None -> user_supplied (ed_userCallback e))
        by (intros H; now elim Hd).
      destruct (instanceReady_runs w h e He Hl Hu) as (w' & e' & Hr & _).
      apply runs_eq in Hr. fold x in Hr. destruct Hr as (_ & _ & Hlog).
      rewrite Hlog. destruct (_data w) as [s|]; [|congruence].
      unfold setup_log, on_calls, subscriptions.
      destruct (truthy (undoManager e)); reflexivity.
Qed.

(** An editor in use is torn down; another one is still loading when its
    handshake starts. *)
Lemma instance_lifetime_witness :
  let e := undo_editor in
  let w := with_editors [ed_with_status Ready e] (with_instance (Some 0) (constructed e)) in
  instance (world_of (ngOnDestroy w)) = None /\
  _destroyed (world_of (ngOnDestroy w)) = true /\
  instance (world_of (step (InstanceReady 0) (awaiting_ready e))) = Some 0 /\
  count is_ready_emit (log_of (step (InstanceReady 0) (awaiting_ready e))) = 0.
Proof.
  intros e w.
  destruct (instance_lifetime w) as (_ & H1 & _).
  destruct (instance_lifetime (awaiting_ready e)) as (_ & _ & _ & _ & H2).
  specialize (H1 0 (ed_with_status Ready e) eq_refl eq_refl).
  specialize (H2 0 (fresh_editor NotFunction e) eq_refl
                (conj eq_refl (conj eq_refl eq_refl))).
  cbv zeta in H2. destruct H2 as (H2 & H3).
  rewrite H1.
  split; [reflexivity|]. split; [reflexivity|].
  split; [exact H2 | apply H3; discriminate].
Defined.

(** C7 as stated fails.  With buffered data the reference is set while the
    handshake has not completed (no ready notification yet, the completion
    callback of the push still pending); and an editor that was asked for
    before teardown and becomes ready after it sets the reference again. *)
Lemma instance_set_outside_lifetime :
  let e := undo_editor in
  (let r := run [InData (Some (value "x")); InAfterViewInit; NamespaceResolved;
                 InstanceReady 0] (constructed e) in
   instance (fst r) = Some 0 /\ count is_ready_emit (snd r) = 0) /\
  (let r := run [InAfterViewInit; NamespaceResolved; InDestroy; InstanceReady 0]
              (constructed e) in
   _destroyed (fst r) = true /\ instance (fst r) = Some 0).
Proof. vm_compute. repeat split. Qed.

(** ** The read-only state *)

Lemma live_set_readOnly (P : World -> Prop) (L : Obs -> Prop) b :
  (forall w, P w -> instance w <> None) ->
  (forall h e w, P w -> P (set_editor h e w)) ->
  (forall o, is_create o = false -> L o) ->
  inv P L (set_readOnly b).
Proof.
  intros Hlive Hed HL. unfold set_readOnly. apply inv_gets_bind.
  intros w Hw. destruct (instance w) as [h|] eqn:Hi.
  - apply (inv_editor_setReadOnly P L (fun h e e' w Hw _ _ => Hed h e' w Hw) HL
             h b w Hw).
  - now elim (Hlive w Hw).
Qed.

Lemma live_with_editor b0 h e w : live_with b0 w -> live_with b0 (set_editor h e w).
Proof.
  intros (H1 & h' & H2 & H3). split; [exact H1|].
  exists h'. split; [exact H2|]. cbn. now rewrite length_insert.
Qed.

Lemma live_at_editor b0 h h' e' w : live_at b0 h w -> live_at b0 h (set_editor h' e' w).
Proof.
  intros (H1 & H2). split; [now apply live_with_editor|].
  cbn. now rewrite length_insert.
Qed.

Ltac live_at_closed :=
  first
    [ exact (live_at_editor _ _)
    | intros ? ? ? ? ? ? ?; now apply live_at_editor
    | closed
    | intros; assumption ].

Lemma live_at_set_readOnly b0 h b : inv (live_at b0 h) (fun _ => True) (set_readOnly b).
Proof.
  apply live_set_readOnly; [|exact (live_at_editor b0 h) | closed].
  intros w ((_ & h' & H & _) & _). congruence.
Qed.

(** The handler of the component on the editor [h], and the end of its
    completion callback. *)
Lemma live_at_announce_ready b0 h u :
  inv (live_at b0 h) (fun _ => True) (announce_ready h u).
Proof.
  apply inv_announce_ready; try live_at_closed.
  - intros w ((H1 & _) & H2). split; [|exact H2].
    split; [exact H1 | exists h; split; [reflexivity | exact H2]].
  - apply live_at_set_readOnly.
Qed.

Lemma live_at_instanceReady b0 h u :
  inv (live_at b0 h) (fun _ => True) (instanceReady h u).
Proof.
  apply inv_instanceReady; try live_at_closed.
  - intros w ((H1 & _) & H2). split; [|exact H2].
    split; [exact H1 | exists h; split; [reflexivity | exact H2]].
  - apply live_at_set_readOnly.
Qed.

Lemma live_run_callback b0 c : inv (live_with b0) (fun _ => True) (run_callback c).
Proof.
  destruct c as [h undo u]. cbn [run_callback]. unfold get_data.
  apply inv_bind; [apply inv_gets|]. intros cur.
  apply inv_editor_getData_bind. intros w e Hw He.
  assert (HP : inv (live_at b0 h) (fun _ => True)
                 (when (negb (data_eqb cur (ed_data e)))
                    (if undo then editor_fire h "change"
                     else editor_fire h "dataReady") ;;
                  when undo (undo_unlock h) ;;
                  announce_ready h u)).
  { apply inv_bind.
    { apply inv_when. destruct undo; apply inv_editor_fire; live_at_closed. }
    intros _. apply inv_bind.
    { apply inv_when, inv_undo_unlock; live_at_closed. }
    intros _. apply live_at_announce_ready. }
  destruct (HP w (conj Hw (lookup_lt_Some _ _ _ He))) as ((H1 & _) & H2).
  split; assumption.
Qed.

Lemma live_step b0 i :
  i <> InDestroy -> inv (live_with b0) (fun _ => True) (step i).
Proof.
  intros Hi.
  assert (Hlive : forall w, live_with b0 w -> instance w <> None).
  { intros w (_ & h & H & _). congruence. }
  assert (Hed : forall h e e' w, live_with b0 w -> editors w !! h = Some e ->
                  incl (ed_callbacks e') (ed_callbacks e) ->
                  live_with b0 (set_editor h e' w))
    by (intros h e e' w Hw _ _; now apply live_with_editor).
  destruct i.
  1, 3, 4, 5, 8, 13, 14: apply inv_step_plain; first [exact Hed | closed].
  - apply live_set_readOnly; first [exact Hlive | exact (live_with_editor b0) | closed].
  - apply inv_ngAfterViewInit; closed.
  - congruence.
  - apply inv_step_NamespaceResolved; try closed.
    intros e w (H1 & h & H2 & H3). split; [exact H1|].
    exists h. split; [exact H2|]. cbn. rewrite length_app. lia.
  - apply inv_step_NamespaceRejected; closed.
  - cbn [step]. apply inv_gets_bind. intros w Hw.
    destruct (editors w !! h) as [e|] eqn:He; [|split; [exact Hw | constructor]].
    destruct (is_loading e); [|split; [exact Hw | constructor]].
    assert (HP' : inv (live_at b0 h) (fun _ => True)
                    (update_editor h (ed_with_status Ready) ;;
                     instanceReady h (ed_userCallback e))).
    { apply inv_bind; [|intros _; apply live_at_instanceReady].
      apply inv_update_editor_any. exact (live_at_editor b0 h). }
    destruct (HP' w) as ((H1 & _) & H2).
    + split; [exact Hw | eapply lookup_lt_Some, He].
    + split; assumption.
  - cbn [step]. apply inv_bind; [apply inv_gets|]. intros es.
    destruct (es !! h) as [e|]; [|apply inv_ret].
    destruct (ed_callbacks e) as [|c rest]; [apply inv_ret|].
    apply inv_bind; [|intros _; apply live_run_callback].
    apply inv_update_editor_any. exact (live_with_editor b0).
Qed.

(** A ready editor's handshake leaves a referenced instance and the buffer as
    it was. *)
Lemma live_after_instanceReady w h e :
  editors w !! h = Some e -> ed_status e = Loading ->
  live_with (_readOnly w) (world_of (step (InstanceReady h) w)).
Proof.
  intros He Hst.
  pose proof (live_at_instanceReady (_readOnly w) h (ed_userCallback e)) as HP'.
  assert (Hlt : h < length (editors w)) by (eapply lookup_lt_Some, He).
  cbn [step]. unfold bind at 1, gets. rewrite He.
  unfold is_loading. rewrite Hst.
  match goal with |- live_with _ (world_of ?x) =>
    replace x with
      (instanceReady h (ed_userCallback e)
         (with_instance (Some h) (set_editor h (ed_with_status Ready e) w)))
  end.
  - apply HP'. split; [split|].
    + reflexivity.
    + exists h. split; [reflexivity|]. cbn. now rewrite length_insert.
    + cbn. now rewrite length_insert.
  - rewrite <- instanceReady_sets_first.
    pose proof (runs_update_editor h e (ed_with_status Ready) w He) as Hu.
    unfold runs in Hu. unfold bind. rewrite Hu.
    destruct (instanceReady h (ed_userCallback e)
                (set_editor h (ed_with_status Ready e) w)) as [[r w2] t2].
    reflexivity.
Qed.

(** C10.  After the teardown of a component whose editor had become ready,
    the read-only property reads the buffer as it was when the editor became
    ready, whatever happened to the editor in between: the setter does not
    write the buffer while an instance exists, and nothing clears it. *)
Theorem buffer_visible_after_teardown (w : World) (h : nat) (e : Editor)
    (mid : list Input) :
  editors w !! h = Some e -> ed_status e = Loading ->
  Forall (fun i => i <> InDestroy) mid ->
  let w' := fst (run (InstanceReady h :: mid ++ [InDestroy]) w) in
  instance w' = None /\
  get_readOnly w' = (Ret (_readOnly w), w', []).
Proof.
  intros He Hst Hmid w'.
  assert (Hlive : live_with (_readOnly w) (fst (run (InstanceReady h :: mid) w))).
  { pose proof (live_after_instanceReady w h e He Hst) as H0.
    cbn [run]. destruct (step (InstanceReady h) w) as [[r w1] t1]. cbn in H0.
    pose proof (inv_run (live_with (_readOnly w)) (fun _ => True)
                  (fun i => i <> InDestroy) (live_step (_readOnly w)) (fun _ => I)
                  mid w1 Hmid H0) as (H1 & _).
    destruct (run mid w1) as [w2 t2]. exact H1. }
  assert (Hw' : w' = world_of (ngOnDestroy (fst (run (InstanceReady h :: mid) w)))).
  { unfold w'. rewrite app_comm_cons, run_app. apply run_single. }
  destruct Hlive as (Hb & h' & Hi & Hlt).
  destruct (lookup_lt_is_Some_2 _ _ Hlt) as (e' & He').
  pose proof (ngOnDestroy_live _ h' e' Hi He') as Hd. unfold runs in Hd.
  rewrite Hd in Hw'. cbn [world_of fst snd] in Hw'.
  assert (Hinst : instance w' = None) by (rewrite Hw'; reflexivity).
  split; [exact Hinst|].
  unfold get_readOnly, bind, gets. rewrite Hinst.
  rewrite <- Hb. rewrite Hw'. reflexivity.
Qed.

(** Read-only was set before creation; while the editor lived it was made
    writable again; after teardown the property reads the old buffer. *)
Lemma buffer_visible_after_teardown_witness :
  let e := plain_editor in
  let w := fst (run [InReadOnly (Some (value true)); InAfterViewInit; NamespaceResolved]
                  (constructed e)) in
  let w' := fst (run (InstanceReady 0 :: [InReadOnly (Some (value false))] ++ [InDestroy]) w) in
  get_readOnly w' = (Ret (Some (value true)), w', []).
Proof.
  intros e w.
  apply (buffer_visible_after_teardown w 0 (fresh_editor NotFunction e)
           [InReadOnly (Some (value false))] eq_refl eq_refl).
  repeat constructor; discriminate.
Defined.

(** *** What does not touch the buffer *)





































(** ** Further properties: the event relay *)

Lemma listeners_of_subscriptions name e :
  ed_listeners e = subscriptions (truthy (undoManager e)) ->
  listeners_of name e = routed (truthy (undoManager e)) name.
Proof.
  intros Hl. unfold listeners_of. rewrite Hl. clear Hl.
  generalize (truthy (undoManager e)). intros u.
  unfold routed, subscriptions.
  destruct u;
    repeat match goal with
      | |- context [String.eqb name ?s] =>
          destruct (String.eqb_spec name s) as [->|?]; [vm_compute; reflexivity|]
      end;
    rewrite !filter_cons_False by (cbn; congruence); reflexivity.
Qed.

Lemma Native_dispatches h name e w :
  editors w !! h = Some e -> subscribed e ->
  step (Native h name) w
  = forM_ (routed (truthy (undoManager e)) name) (run_listener name) w.
Proof.
  intros He (Hst & Hl). cbn [step]. unfold bind at 1, gets. rewrite He.
  unfold is_ready. rewrite Hst. unfold dispatch, bind at 1, the_editor.
  rewrite He, (listeners_of_subscriptions name e Hl).
  destruct (forM_ _ _ w) as [[r w2] t2]. reflexivity.
Qed.

(** X1.  Once [subscribe] has run, each of the eight relayed native events
    (focus, paste, afterPaste, dragend, dragstart, drop, fileUploadRequest,
    fileUploadResponse) is answered by one emission, inside the zone, on the
    output of that event, carrying the event; the component's state is not
    touched, whether the undo plugin is loaded or not. *)
Theorem relay_spec (w : World) (h : nat) (e : Editor) (name : string) (o : Output) :
  editors w !! h = Some e -> subscribed e -> In (name, o) relay_table ->
  step (Native h name) w = (Ret tt, w, [ZoneEnter; Emit o (PEvent name); ZoneLeave]).
Proof.
  intros He Hs Hin. rewrite (Native_dispatches h name e w He Hs).
  generalize (truthy (undoManager e)). intros u.
  unfold relay_table in Hin. cbn [In] in Hin.
  repeat (destruct Hin as [Hin|Hin]; [inversion Hin; subst; reflexivity|]).
  destruct Hin.
Qed.

(** A drag ends on a ready editor: [dragEnd] is emitted. *)
Lemma relay_spec_witness :
  let e := ed_with_listeners (subscriptions false) (ed_with_status Ready plain_editor) in
  let w := with_editors [e] (with_instance (Some 0) (constructed plain_editor)) in
  step (Native 0 "dragend") w
  = (Ret tt, w, [ZoneEnter; Emit dragEnd (PEvent "dragend"); ZoneLeave]).
Proof.
  intros e w.
  apply (relay_spec w 0 e "dragend" dragEnd eq_refl (conj eq_refl eq_refl)).
  cbn. tauto.
Defined.

(** X2.  A native blur event calls the registered touched-callback, if there
    is one, and then emits [blur], both inside the zone; with no callback
    registered only the emission happens.  The state is not touched. *)
Theorem blur_spec (w : World) (h : nat) (e : Editor) :
  editors w !! h = Some e -> subscribed e ->
  step (Native h "blur") w
  = (Ret tt, w,
     ZoneEnter :: onTouched_call w ++ [Emit blur (PEvent "blur"); ZoneLeave]).
Proof.
  intros He Hs. rewrite (Native_dispatches h "blur" e w He Hs).
  generalize (truthy (undoManager e)). intros u.
  change (routed u "blur") with [LBlur]. cbn [forM_ run_listener].
  unfold ngZone_run, bracket, bind, gets, tell, ret, onTouched_call.
  destruct (onTouched w); reflexivity.
Qed.

(** The forms module registered callback 3 for touched. *)
Lemma blur_spec_witness :
  let e := ed_with_listeners (subscriptions false) (ed_with_status Ready plain_editor) in
  let w := with_onTouched (Some 3)
             (with_editors [e] (with_instance (Some 0) (constructed plain_editor))) in
  step (Native 0 "blur") w
  = (Ret tt, w, [ZoneEnter; CallOnTouched 3; Emit blur (PEvent "blur"); ZoneLeave]).
Proof.
  intros e w.
  apply (blur_spec w 0 e eq_refl (conj eq_refl eq_refl)).
Defined.

(** ** Further properties: the state the handshake leaves *)

Lemma handshake_state (w : World) (h : nat) (e : Editor) :
  editors w !! h = Some e -> loading e -> user_supplied (ed_userCallback e) ->
  exists w' e' t,
    runs (handshake h) w tt w' t /\
    instance w' = Some h /\
    editors w' !! h = Some e' /\
    length (editors w') = length (editors w) /\
    subscribed e' /\
    ed_callbacks e' = [] /\
    undoManager e' = undoManager e /\
    _readOnly w' = _readOnly w /\
    _destroyed w' = _destroyed w /\
    onChange w' = onChange w /\
    onTouched w' = onTouched w /\
    ed_readOnly e'
    = ed_coerce e (Some (default (value (ed_readOnly e)) (_readOnly w))) /\
    match _data w with
    | Some s => ed_data e' = ed_filter e (Some s) (ed_data e) /\ _data w' = ed_data e'
    | None => ed_data e' = ed_data e /\ _data w' = None
    end.
Proof.
  intros He (Hst & Hls & Hcb) Hu.
  assert (Hlen : h < length (editors w)) by (eapply lookup_lt_Some, He).
  destruct w as [cfg tg ty ro d dd i oc ot es ce ac mk pn]; cbn in He, Hlen.
  destruct e as [ed_d ed_ro um ls cbs st eu flt co]; cbn in Hst, Hls, Hcb, Hu; subst.
  cbn [_data _readOnly _destroyed onChange onTouched editors undoManager
       ed_userCallback ed_filter ed_data ed_readOnly ed_coerce].
  destruct d as [s|].
  - destruct (decide (Some s = flt (Some s) ed_d)) as [Heq|Hne];
      destruct um as [n|], ro as [b|];
      eexists; eexists; eexists;
      (split;
       [ eapply runs_conv;
         [solve [repeat runs_more] | norm_world; reflexivity | reflexivity]
       | cbn [instance editors _readOnly _destroyed onChange onTouched _data];
         rewrite ?length_insert;
         repeat split; first [reflexivity | solve_lookup | congruence] ]).
  - destruct um as [n|], ro as [b|];
      eexists; eexists; eexists;
      (split;
       [ eapply runs_conv;
         [solve [repeat runs_more] | norm_world; reflexivity | reflexivity]
       | cbn [instance editors _readOnly _destroyed onChange onTouched _data];
         rewrite ?length_insert;
         repeat split; first [reflexivity | solve_lookup | congruence] ]).
Qed.

(** X3.  What the creation handshake leaves behind, when the handler
    captured the user's callback or none: the component references the
    editor; the editor is ready, carries the listeners of [subscribe] and no
    other, has no completion callback pending, and its undo manager is locked
    as deep as before.  With buffered data, [currentData] is the editor's
    content, which is what the editor made of the buffered value; with none,
    [currentData] stays null whatever the editor holds. *)
Theorem handshake_leaves_synced (w : World) (h : nat) (e : Editor) :
  editors w !! h = Some e -> loading e -> user_supplied (ed_userCallback e) ->
  let w' := world_of (handshake h w) in
  instance w' = Some h /\
  exists e',
    editors w' !! h = Some e' /\
    subscribed e' /\
    ed_callbacks e' = [] /\
    undoManager e' = undoManager e /\
    match _data w with
    | Some s => ed_data e' = ed_filter e (Some s) (ed_data e) /\ _data w' = ed_data e'
    | None => ed_data e' = ed_data e /\ _data w' = None
    end.
Proof.
  intros He Hl Hus w'.
  destruct (handshake_state w h e He Hl Hus)
    as (w1 & e1 & t & Hr & Hi & He1 & _ & Hs & Hcb & Hu & _ & _ & _ & _ & _ & Hd).
  apply runs_eq in Hr. destruct Hr as (_ & Hw & _).
  subst w'. rewrite Hw. split; [exact Hi|].
  exists e1. repeat split; try assumption; apply Hs.
Qed.

(** The buffered ["x"] comes back wrapped in a paragraph. *)
Lemma handshake_leaves_synced_witness :
  _data (world_of (handshake 0 (awaiting_ready undo_editor))) = Some (value "<p>x</p>").
Proof.
  destruct (handshake_leaves_synced (awaiting_ready undo_editor) 0
              (fresh_editor NotFunction undo_editor) eq_refl
              (conj eq_refl (conj eq_refl eq_refl)) I)
    as (_ & e' & _ & _ & _ & _ & Hd).
  cbv zeta in Hd. cbn [awaiting_ready] in Hd.
  destruct Hd as (Hd1 & Hd2). rewrite Hd2, Hd1. reflexivity.
Defined.

(** ** Further properties: the two change signals *)

Lemma dispatch_propagate_log name w h e :
  instance w = Some h -> editors w !! h = Some e ->
  exists w' t,
    propagateChange name w = (Ret tt, w', t) /\
    count is_change_emit t = (if String.eqb name "change" then 1 else 0).
Proof.
  intros Hi He.
  assert (Ht : count is_change_emit (typed_emit name)
               = if String.eqb name "change" then 1 else 0).
  { unfold typed_emit. destruct (String.eqb name "change"); [reflexivity|].
    destruct (String.eqb name "dataReady"); reflexivity. }
  destruct (decide (ed_data e = _data w)) as [Heq|Hne].
  - eexists; eexists. split; [apply (propagateChange_same name w h e Hi He Heq)|].
    cbn. rewrite count_app, Ht. cbn. lia.
  - eexists; eexists. split; [apply (propagateChange_differs name w h e Hi He Hne)|].
    cbn. rewrite !count_app, Ht. unfold onChange_call.
    destruct (onChange w); cbn; lia.
Qed.

(** X4.  The two change signals at work.  On an editor without the undo
    plugin no native event whatever makes the component emit [change], and a
    native 'change' event reaches no handler at all; on an editor with the
    plugin a native 'selectionCheck' event reaches no handler.  An event that
    is none of the names [subscribe] registered is ignored. *)
Theorem change_signal_spec (w : World) (h : nat) (e : Editor) :
  instance w = Some h -> editors w !! h = Some e -> subscribed e ->
  (undoManager e = None ->
   forall name, count is_change_emit (log_of (step (Native h name) w)) = 0) /\
  (undoManager e = None -> step (Native h "change") w = (Ret tt, w, [])) /\
  (undoManager e <> None -> step (Native h "selectionCheck") w = (Ret tt, w, [])) /\
  (forall name, routed (truthy (undoManager e)) name = [] ->
     step (Native h name) w = (Ret tt, w, [])).
Proof.
  intros Hi He Hs.
  split; [|split; [|split]].
  - intros Hu name. rewrite (Native_dispatches h name e w He Hs), Hu. cbn [truthy].
    unfold routed.
    repeat match goal with
      | |- context [String.eqb name ?s] =>
          destruct (String.eqb_spec name s) as [->|?]; [cbv beta iota|]
      end;
      try reflexivity.
    + cbn [forM_ run_listener].
      unfold ngZone_run, bracket, bind, gets, tell, ret, log_of.
      destruct (onTouched w); reflexivity.
    + cbn [forM_ run_listener].
      destruct (dispatch_propagate_log "dataReady" w h e Hi He) as (w' & t & Hp & Hc).
      unfold bind. rewrite Hp. cbn. rewrite app_nil_r. exact Hc.
    + cbv beta iota. cbn [forM_ run_listener].
      destruct (dispatch_propagate_log "selectionCheck" w h e Hi He)
        as (w' & t & Hp & Hc).
      unfold bind. rewrite Hp. cbn. rewrite app_nil_r. exact Hc.
  - intros Hu. rewrite (Native_dispatches h "change" e w He Hs), Hu. reflexivity.
  - intros Hu. rewrite (Native_dispatches h "selectionCheck" e w He Hs).
    destruct (undoManager e); [reflexivity | congruence].
  - intros name Hr. rewrite (Native_dispatches h name e w He Hs), Hr. reflexivity.
Qed.

(** Without the undo plugin a content change is noticed at the next
    'selectionCheck', and [change] is not emitted for it. *)
Lemma change_signal_spec_witness :
  let e := ed_with_data (Some (value "typed"))
             (ed_with_listeners (subscriptions false)
                (ed_with_status Ready plain_editor)) in
  let w := with_editors [e] (with_instance (Some 0) (constructed plain_editor)) in
  count is_change_emit (log_of (step (Native 0 "selectionCheck") w)) = 0 /\
  step (Native 0 "change") w = (Ret tt, w, []).
Proof.
  intros e w.
  destruct (change_signal_spec w 0 e eq_refl eq_refl (conj eq_refl eq_refl))
    as (H1 & H2 & _).
  split; [apply (H1 eq_refl) | apply (H2 eq_refl)].
Defined.

(** ** Further properties: the data binding *)

Lemma set_data_live v w h e :
  instance w = Some h -> editors w !! h = Some e -> v <> _data w ->
  let content := ed_filter e v (ed_data e) in
  runs (set_data v) w tt
    (with_data content
       (set_editor h (ed_with_callbacks (ed_callbacks e ++ []) (ed_with_data content e)) w))
    [EdSetData h v].
Proof.
  intros Hi He Hne content.
  eapply runs_conv.
  { unfold set_data.
    eapply runs_bind; [apply runs_gets|]. cbn beta.
    rewrite (data_eqb_false _ _ Hne).
    eapply runs_bind; [apply runs_gets|]. cbn beta. rewrite Hi.
    eapply runs_bind; [apply runs_editor_setData, He|].
    eapply runs_bind;
      [apply runs_editor_getData; eapply lookup_set_editor, He|].
    apply runs_modify. }
  all: reflexivity.
Qed.

Lemma with_data_same w : with_data (_data w) w = w.
Proof. destruct w. reflexivity. Qed.

Lemma set_data_unbound v w :
  instance w = None -> runs (set_data v) w tt (with_data v w) [].
Proof.
  intros Hi. unfold runs, set_data, bind, gets, modify. cbn.
  destruct (decide (v = _data w)) as [->|Hne].
  - rewrite (data_eqb_true _ _ eq_refl), with_data_same. reflexivity.
  - rewrite (data_eqb_false _ _ Hne), Hi. reflexivity.
Qed.

(** X5.  A value the host writes into a live editor is not reported back: the
    change handler that fires next finds [currentData] equal to the editor's
    content, so it emits no data-changed notification and does not call the
    change-callback, whatever the editor made of the value. *)
Theorem written_value_is_not_echoed (w : World) (h : nat) (e : Editor)
    (value : Data) (name : string) :
  instance w = Some h -> editors w !! h = Some e -> value <> _data w ->
  let x := (set_data value ;; propagateChange name) w in
  log_of x = EdSetData h value :: ZoneEnter :: typed_emit name ++ [ZoneLeave] /\
  count is_dataChange_emit (log_of x) = 0 /\
  count is_onChange_call (log_of x) = 0 /\
  _data (world_of x) = ed_filter e value (ed_data e).
Proof.
  intros Hi He Hne x.
  pose proof (set_data_live value w h e Hi He Hne) as H1. cbv zeta in H1.
  match type of H1 with runs _ _ _ ?w1 _ =>
    assert (H2 : runs (propagateChange name) w1 tt w1
                   (ZoneEnter :: typed_emit name ++ [ZoneLeave]))
  end.
  { eapply propagateChange_same;
      [exact Hi | eapply lookup_set_editor, He | reflexivity]. }
  pose proof (runs_bind _ (fun _ => propagateChange name) _ _ _ _ _ _ _ H1 H2) as H.
  apply runs_eq in H. fold x in H. destruct H as (_ & Hw & Hlog).
  rewrite Hlog, Hw. cbn [app].
  split; [reflexivity|].
  split; [cbn; rewrite count_app, count_typed_emit by reflexivity; reflexivity|].
  split; [cbn; rewrite count_app, count_typed_emit by reflexivity; reflexivity|].
  reflexivity.
Qed.

(** The editor wraps the written value; the 'change' it fires for that is not
    passed on as a data change. *)
Lemma written_value_is_not_echoed_witness :
  let e := ed_with_listeners (subscriptions false) (ed_with_status Ready filter_editor) in
  let w := with_onChange (Some 7)
             (with_editors [e] (with_instance (Some 0) (constructed filter_editor))) in
  count is_dataChange_emit
    (log_of ((set_data (Some (value "a")) ;; propagateChange "change") w)) = 0.
Proof.
  intros e w.
  destruct (written_value_is_not_echoed w 0 e (Some (value "a")) "change" eq_refl eq_refl)
    as (_ & H & _); [discriminate | exact H].
Defined.

(** X6.  Writing the same value twice into a live editor: nothing is pushed
    when the value is [currentData]; otherwise it is pushed once when the
    editor hands the value back unchanged, and twice when the editor hands
    back something else, since the second write is compared with what the
    editor handed back and not with what was written. *)
Theorem set_data_twice (w : World) (h : nat) (e : Editor) (value : Data) :
  instance w = Some h -> editors w !! h = Some e ->
  count is_setData (log_of ((set_data value ;; set_data value) w))
  = if data_eqb value (_data w) then 0
    else if data_eqb value (ed_filter e value (ed_data e)) then 1 else 2.
Proof.
  intros Hi He.
  destruct (decide (value = _data w)) as [Heq|Hne].
  - rewrite (data_eqb_true _ _ Heq).
    assert (H1 : runs (set_data value) w tt w []).
    { unfold runs, set_data, bind, gets. cbn. now rewrite (data_eqb_true _ _ Heq). }
    pose proof (runs_bind _ (fun _ => set_data value) _ _ _ _ _ _ _ H1 H1) as H.
    apply runs_eq in H. destruct H as (_ & _ & ->). reflexivity.
  - rewrite (data_eqb_false _ _ Hne).
    pose proof (set_data_live value w h e Hi He Hne) as H1. cbv zeta in H1.
    destruct (decide (value = ed_filter e value (ed_data e))) as [Heq2|Hne2].
    + rewrite (data_eqb_true _ _ Heq2).
      match type of H1 with runs _ _ _ ?w1 _ =>
        assert (H2 : runs (set_data value) w1 tt w1 [])
      end.
      { unfold runs, set_data, bind, gets. cbn.
        now rewrite (data_eqb_true _ _ Heq2). }
      pose proof (runs_bind _ (fun _ => set_data value) _ _ _ _ _ _ _ H1 H2) as H.
      apply runs_eq in H. destruct H as (_ & _ & ->). reflexivity.
    + rewrite (data_eqb_false _ _ Hne2).
      match type of H1 with runs _ _ _ ?w1 _ =>
        pose proof (set_data_live value w1 h _ Hi
                      (lookup_set_editor h e _ w He) Hne2) as H2
      end.
      cbv zeta in H2.
      pose proof (runs_bind _ (fun _ => set_data value) _ _ _ _ _ _ _ H1 H2) as H.
      apply runs_eq in H. destruct H as (_ & _ & ->). reflexivity.
Qed.

(** The editor wraps what it is given: the second, identical write is pushed
    again. *)
Lemma set_data_twice_witness :
  let e := ed_with_status Ready filter_editor in
  let w := with_editors [e] (with_instance (Some 0) (constructed filter_editor)) in
  count is_setData (log_of ((set_data (Some (value "a")) ;; set_data (Some (value "a"))) w)) = 2.
Proof.
  intros e w. exact (set_data_twice w 0 e (Some (value "a")) eq_refl eq_refl).
Defined.

(** X7.  Before there is an instance the data setter only stores: nothing is
    logged or thrown, [currentData] becomes the value written, the getter
    returns it, and of two writes the last one stands. *)
Theorem data_is_buffered (w : World) (a b : Data) :
  instance w = None ->
  set_data b w = (Ret tt, with_data b w, []) /\
  (set_data b ;; get_data) w = (Ret b, with_data b w, []) /\
  (set_data a ;; set_data b) w = (Ret tt, with_data b w, []).
Proof.
  intros Hi.
  pose proof (set_data_unbound b w Hi) as Hb.
  pose proof (set_data_unbound a w Hi) as Ha.
  pose proof (set_data_unbound b (with_data a w) Hi) as Hab.
  split; [exact Hb|]. split.
  - exact (runs_bind _ (fun _ => get_data) _ _ _ _ _ _ _ Hb (runs_gets _ _)).
  - exact (runs_bind _ (fun _ => set_data b) _ _ _ _ _ _ _ Ha Hab).
Qed.

Lemma data_is_buffered_witness :
  let w := constructed plain_editor in
  (set_data (Some (value "a")) ;; set_data None) w = (Ret tt, with_data None w, []).
Proof.
  intros w. destruct (data_is_buffered w (Some (value "a")) None eq_refl) as (_ & _ & H).
  exact H.
Defined.

(** ** Further properties: the registered callbacks *)

(** X8.  Of the callbacks registered with [registerOnChange] and
    [registerOnTouched] the last one is the one called: an earlier
    registration is forgotten, and registering [null] silences the call while
    the notification is still emitted.  The change-callback gets the new data
    and is called after the data-changed notification; the touched-callback is
    called before [blur] is emitted. *)
Theorem last_registration_wins (w : World) (h : nat) (e : Editor)
    (first last : option nat) (name : string) :
  instance w = Some h -> editors w !! h = Some e ->
  (ed_data e <> _data w ->
   log_of ((registerOnChange first ;; registerOnChange last ;;
            propagateChange name) w)
   = ZoneEnter :: typed_emit name ++ [Emit dataChange (PData (ed_data e))]
       ++ match last with
          | Some c => [CallOnChange c (ed_data e)]
          | None => []
          end ++ [ZoneLeave]) /\
  (subscribed e ->
   log_of ((registerOnTouched first ;; registerOnTouched last ;;
            step (Native h "blur")) w)
   = ZoneEnter :: match last with
                  | Some c => [CallOnTouched c]
                  | None => []
                  end ++ [Emit blur (PEvent "blur"); ZoneLeave]).
Proof.
  intros Hi He. split.
  - intros Hne.
    pose proof (propagateChange_differs name
                  (with_onChange last (with_onChange first w)) h e Hi He Hne) as H3.
    pose proof (runs_bind _ (fun _ => propagateChange name) _ _ _ _ _ _ _
                  (runs_modify (with_onChange last) (with_onChange first w)) H3) as H2.
    pose proof (runs_bind _ (fun _ => registerOnChange last ;; propagateChange name)
                  _ _ _ _ _ _ _ (runs_modify (with_onChange first) w) H2) as H1.
    apply runs_eq in H1. destruct H1 as (_ & _ & Hlog).
    exact Hlog.
  - intros Hs.
    assert (H3 : runs (step (Native h "blur"))
                   (with_onTouched last (with_onTouched first w)) tt
                   (with_onTouched last (with_onTouched first w))
                   (ZoneEnter :: match last with
                                 | Some c => [CallOnTouched c]
                                 | None => []
                                 end ++ [Emit blur (PEvent "blur"); ZoneLeave])).
    { unfold runs.
      rewrite (Native_dispatches h "blur" e
                 (with_onTouched last (with_onTouched first w)) He Hs).
      generalize (truthy (undoManager e)). intros u.
      change (routed u "blur") with [LBlur]. cbn [forM_ run_listener].
      unfold ngZone_run, bracket, bind, gets, tell, ret.
      destruct last; reflexivity. }
    pose proof (runs_bind _ (fun _ => step (Native h "blur")) _ _ _ _ _ _ _
                  (runs_modify (with_onTouched last) (with_onTouched first w)) H3) as H2.
    pose proof (runs_bind _ (fun _ => registerOnTouched last ;; step (Native h "blur"))
                  _ _ _ _ _ _ _ (runs_modify (with_onTouched first) w) H2) as H1.
    apply runs_eq in H1. destruct H1 as (_ & _ & Hlog).
    exact Hlog.
Qed.

(** Callback 1 is replaced by callback 2 before the user types. *)
Lemma last_registration_wins_witness :
  let e := ed_with_data (Some (value "typed"))
             (ed_with_listeners (subscriptions false)
                (ed_with_status Ready plain_editor)) in
  let w := with_editors [e] (with_instance (Some 0) (constructed plain_editor)) in
  log_of ((registerOnChange (Some 1) ;; registerOnChange (Some 2) ;;
           propagateChange "selectionCheck") w)
  = [ZoneEnter; Emit dataChange (PData (Some (value "typed")));
     CallOnChange 2 (Some (value "typed")); ZoneLeave].
Proof.
  intros e w.
  destruct (last_registration_wins w 0 e (Some 1) (Some 2) "selectionCheck"
              eq_refl eq_refl) as (H & _).
  apply H. discriminate.
Defined.

(** ** Further properties: from the constructor to a ready editor *)

Lemma runs_deterministic {A} (m : M A) w a1 w1 t1 a2 w2 t2 :
  runs m w a1 w1 t1 -> runs m w a2 w2 t2 -> a1 = a2 /\ w1 = w2 /\ t1 = t2.
Proof. unfold runs. intros H1 H2. rewrite H1 in H2. now inversion H2. Qed.

Lemma run_handshake h w w' t :
  runs (handshake h) w tt w' t -> run [InstanceReady h; SetDataDone h] w = (w', t).
Proof.
  unfold runs, handshake, bind. cbn [run].
  destruct (step (InstanceReady h) w) as [[[[]|err] w1] t1]; [|discriminate].
  destruct (step (SetDataDone h) w1) as [[[[]|err] w2] t2]; [|discriminate].
  intros H. inversion H; subst. cbn. now rewrite app_nil_r.
Qed.

Lemma handshake_counts (w : World) (h : nat) (e : Editor) :
  editors w !! h = Some e -> loading e -> user_supplied (ed_userCallback e) ->
  count is_ready_emit (log_of (handshake h w)) = 1 /\
  count is_create (log_of (handshake h w)) = 0 /\
  count is_uncaught (log_of (handshake h w)) = 0.
Proof.
  intros He Hl Hu.
  destruct (handshake_runs w h e He Hl Hu) as (w' & Hr).
  apply runs_eq in Hr. destruct Hr as (_ & _ & ->).
  unfold setup_log, ready_log, propagate_log, onChange_call, on_calls,
    subscriptions, typed_emit.
  destruct (_data w) as [s|].
  - cbv zeta.
    destruct (data_eqb (Some s) (ed_filter e (Some s) (ed_data e))),
      (truthy (undoManager e)), (ed_userCallback e), (onChange w);
      try destruct Hu; repeat split; reflexivity.
  - destruct (truthy (undoManager e)), (ed_userCallback e);
      try destruct Hu; repeat split; reflexivity.
Qed.

(** [createEditor] when each of its calls succeeds. *)
Lemma createEditor_runs (w : World) (e : Editor) :
  document_createElement w (tagName w) = Ret tt ->
  appendChild w (length (editors w)) = Ret tt ->
  config_on w <> OnNotObject ->
  CKEDITOR w (type w) (length (editors w)) = Ret e ->
  runs createEditor w tt
    (with_editors (editors w ++ [fresh_editor (found_callback (config_on w)) e])
       (with_config_on (with_handler (config_on w)) w))
    [CreateElement (tagName w); AppendChild;
     create_call (type w) (length (editors w))].
Proof.
  intros Hce Hac Hcfg Hmk.
  destruct w as [cfg tg ty ro d dd i oc ot es ce ac mk pn].
  cbn in Hce, Hac, Hcfg, Hmk.
  unfold runs, createEditor, bind, gets, modify, tell, lift, ret. cbn.
  rewrite Hce. cbn. rewrite Hac. cbn.
  destruct cfg as [| |f]; [|congruence|]; cbn; rewrite Hmk; reflexivity.
Qed.

(** The namespace arrives at a component that waits for it and was not
    destroyed, and each call of [createEditor] succeeds. *)
Lemma NamespaceResolved_runs (w : World) (n : nat) (e : Editor) :
  pending_namespace w = S n -> _destroyed w = false ->
  document_createElement w (tagName w) = Ret tt ->
  appendChild w (length (editors w)) = Ret tt ->
  config_on w <> OnNotObject ->
  CKEDITOR w (type w) (length (editors w)) = Ret e ->
  runs (step NamespaceResolved) w tt
    (with_editors (editors w ++ [fresh_editor (found_callback (config_on w)) e])
       (with_config_on (with_handler (config_on w)) (with_pending n w)))
    [OutsideEnter; CreateElement (tagName w); AppendChild;
     create_call (type w) (length (editors w)); OutsideLeave].
Proof.
  intros Hn Hd Hce Hac Hcfg Hmk.
  pose proof (createEditor_runs (with_pending n w) e Hce Hac Hcfg Hmk) as Hc.
  unfold runs in *. cbn [step]. unfold bind at 1, gets. rewrite Hn.
  unfold bind at 1, modify.
  unfold catch, namespace_then, bind at 1, gets. cbn [_destroyed with_pending].
  rewrite Hd. unfold ngZone_runOutsideAngular, bracket.
  rewrite Hc. reflexivity.
Qed.

(** X9.  An undisturbed start, for every type, buffered data and editor,
    when the calls of [createEditor] succeed (the document creates the
    element, the host element takes it, [config.on] is absent or an object
    that holds the user's callback or none, the namespace builds an editor):
    [ngAfterViewInit] asks for the namespace; when it arrives the element is
    created and appended and the editor is created, outside the zone, with
    [CKEDITOR.inline] for the inline type and [CKEDITOR.replace] otherwise,
    once; the handshake then emits one ready notification; nothing is
    thrown.  At the end the component references the one editor, no promise
    is pending, and buffered data has become the editor's content. *)
Theorem startup_spec (w : World) (e : Editor) :
  pristine w ->
  document_createElement w (tagName w) = Ret tt ->
  appendChild w 0 = Ret tt ->
  config_on w <> OnNotObject ->
  user_supplied (found_callback (config_on w)) ->
  CKEDITOR w (type w) 0 = Ret e ->
  let r := run startup w in
  (exists t,
     snd r = GetEditorNamespace :: OutsideEnter :: CreateElement (tagName w)
               :: AppendChild :: create_call (type w) 0 :: OutsideLeave :: t /\
     count is_create t = 0 /\
     count is_ready_emit t = 1 /\
     count is_uncaught t = 0) /\
  instance (fst r) = Some 0 /\
  length (editors (fst r)) = 1 /\
  pending_namespace (fst r) = 0 /\
  exists e',
    editors (fst r) !! 0 = Some e' /\ subscribed e' /\
    (_data w <> None -> _data (fst r) = ed_data e').
Proof.
  intros (Hed & Hi & Hp & Hd) Hce Hac Hcfg Hus Hmk r.
  destruct w as [cfg tg ty ro d dd i oc ot es ce ac mk pn].
  cbn in Hed, Hi, Hp, Hd, Hce, Hac, Hcfg, Hus, Hmk. subst.
  set (e0 := fresh_editor (found_callback cfg) e).
  set (w1 := mkWorld cfg tg ty ro d false None oc ot [] ce ac mk 0).
  set (w2 := mkWorld (with_handler cfg) tg ty ro d false None oc ot [e0] ce ac mk 0).
  assert (Hcreate : step NamespaceResolved (with_pending 1 w1)
                    = (Ret tt, w2, [OutsideEnter; CreateElement tg; AppendChild;
                                    create_call ty 0; OutsideLeave])).
  { exact (NamespaceResolved_runs (with_pending 1 w1) 0 e eq_refl eq_refl
             Hce Hac Hcfg Hmk). }
  assert (Hrun : r = (let '(w3, t) := run [InstanceReady 0; SetDataDone 0] w2 in
                      (w3, GetEditorNamespace :: OutsideEnter :: CreateElement tg
                             :: AppendChild :: create_call ty 0
                             :: OutsideLeave :: t))).
  { subst r. unfold startup. cbn [run].
    change (step InAfterViewInit (mkWorld cfg tg ty ro d false None oc ot [] ce ac mk 0))
      with (Ret tt, with_pending 1 w1, [GetEditorNamespace]).
    cbv beta iota. rewrite Hcreate. cbv beta iota.
    destruct (step (InstanceReady 0) w2) as [[r1 w3] t1].
    destruct (step (SetDataDone 0) w3) as [[r2 w4] t2]. reflexivity. }
  assert (He0 : editors w2 !! 0 = Some e0) by reflexivity.
  assert (Hl0 : loading e0) by (repeat split).
  assert (Hu0 : user_supplied (ed_userCallback e0)) by exact Hus.
  destruct (handshake_state w2 0 e0 He0 Hl0 Hu0)
    as (w' & e' & t & Hr & Hinst & He' & Hlen & Hs & _ & _ & _ & _ & _ & _ & _ & Hdata).
  destruct (handshake_counts w2 0 e0 He0 Hl0 Hu0) as (Hc1 & Hc2 & Hc3).
  pose proof (runs_eq _ _ _ _ _ Hr) as (_ & _ & Hlog).
  rewrite Hlog in Hc1, Hc2, Hc3.
  rewrite (run_handshake 0 w2 w' t Hr) in Hrun. rewrite Hrun. cbn [fst snd].
  split; [exists t; repeat split; assumption|].
  split; [exact Hinst|]. split; [exact Hlen|].
  split.
  { pose proof (inv_run (fun w => pending_namespace w = 0) no_create
                  (fun i => i <> InAfterViewInit) settled_step (fun _ => eq_refl)
                  [InstanceReady 0; SetDataDone 0] w2) as H.
    destruct H as (H & _); [repeat constructor; discriminate | reflexivity|].
    rewrite (run_handshake 0 w2 w' t Hr) in H. exact H. }
  exists e'. split; [exact He'|]. split; [exact Hs|].
  intros Hne. subst w1 w2. cbn [_data] in Hne, Hdata.
  destruct d as [s|]; [|congruence].
  apply Hdata.
Qed.

(** An inline editor for a component that was given ["x"] and a [config.on]
    with an [instanceReady] callback of the user. *)
Lemma startup_spec_witness :
  let w := mkWorld (OnObject UserFunction) "textarea" INLINE None
             (Some (value "x")) false None None None []
             (fun _ => Ret tt) (fun _ => Ret tt) (fun _ _ => Ret undo_editor) 0 in
  instance (fst (run startup w)) = Some 0 /\
  length (editors (fst (run startup w))) = 1.
Proof.
  intros w.
  destruct (startup_spec w undo_editor
              (conj eq_refl (conj eq_refl (conj eq_refl eq_refl)))
              eq_refl eq_refl ltac:(discriminate) I eq_refl)
    as (_ & H1 & H2 & _).
  split; [exact H1 | exact H2].
Defined.

(** ** Further properties: teardown and the read-only round trip *)

Lemma ngOnDestroy_unbound w :
  instance w = None ->
  runs ngOnDestroy w tt (with_destroyed true w) [OutsideEnter; OutsideLeave].
Proof.
  intros Hi.
  unfold runs, ngOnDestroy, release_instance, ngZone_runOutsideAngular, bracket, bind,
    modify, gets.
  cbn. rewrite Hi. reflexivity.
Qed.

Lemma destroy_again k w :
  instance w = None -> _destroyed w = true ->
  let r := run (repeat InDestroy k) w in
  instance (fst r) = None /\ _destroyed (fst r) = true /\
  count is_destroy (snd r) = 0 /\ count is_uncaught (snd r) = 0.
Proof.
  revert w. induction k as [|k IH]; intros w Hi Hd; cbn [repeat run].
  - repeat split; assumption.
  - cbn [step]. rewrite (ngOnDestroy_unbound w Hi).
    destruct (IH (with_destroyed true w) Hi eq_refl) as (H1 & H2 & H3 & H4).
    destruct (run (repeat InDestroy k) (with_destroyed true w)) as [w2 t2].
    cbn in *. repeat split; assumption.
Qed.

(** X10.  However often the host tears the component down, the editor is
    destroyed once: the first [ngOnDestroy] calls [destroy] and clears the
    reference, every later one finds no instance and only sets the flag
    again. *)
Theorem editor_destroyed_once (w : World) (h : nat) (e : Editor) (k : nat) :
  instance w = Some h -> editors w !! h = Some e ->
  let r := run (repeat InDestroy (S k)) w in
  count is_destroy (snd r) = 1 /\
  count is_uncaught (snd r) = 0 /\
  instance (fst r) = None /\
  _destroyed (fst r) = true.
Proof.
  intros Hi He r. subst r. cbn [repeat run step].
  pose proof (ngOnDestroy_live w h e Hi He) as Hd. unfold runs in Hd. rewrite Hd.
  match goal with |- context [run (repeat InDestroy k) ?w1] =>
    destruct (destroy_again k w1 eq_refl eq_refl) as (H1 & H2 & H3 & H4);
    destruct (run (repeat InDestroy k) w1) as [w2 t2]
  end.
  cbn in *. rewrite H3, H4. repeat split; assumption.
Qed.

Lemma editor_destroyed_once_witness :
  let e := ed_with_status Ready plain_editor in
  let w := with_editors [e] (with_instance (Some 0) (constructed plain_editor)) in
  count is_destroy (snd (run [InDestroy; InDestroy; InDestroy] w)) = 1.
Proof.
  intros e w.
  destruct (editor_destroyed_once w 0 e 2 eq_refl eq_refl) as (H & _). exact H.
Defined.

Lemma set_readOnly_live_runs b w h e :
  instance w = Some h -> editors w !! h = Some e ->
  runs (set_readOnly b) w tt
    (set_editor h (ed_with_readOnly (ed_coerce e b) e) w) [EdSetReadOnly h b].
Proof.
  intros Hi He.
  eapply runs_conv;
    [ unfold set_readOnly; eapply runs_bind; [apply runs_gets|];
      cbv beta; rewrite Hi; apply runs_editor_setReadOnly, He
    | reflexivity | reflexivity ].
Qed.

Lemma get_readOnly_live_runs w h e :
  instance w = Some h -> editors w !! h = Some e ->
  runs get_readOnly w (Some (value (ed_readOnly e))) w [].
Proof.
  intros Hi He.
  eapply runs_conv;
    [ unfold get_readOnly; eapply runs_bind; [apply runs_gets|];
      cbv beta; rewrite Hi;
      eapply runs_bind; [apply runs_editor_readOnly, He | apply runs_ret]
    | reflexivity | reflexivity ].
Qed.

(** X11.  Reading the read-only property right after writing it: without an
    instance the value written comes back, [null] and [undefined] included,
    and nothing is called; with an instance what comes back is the editor's
    own [readOnly] after [setReadOnly], a boolean even when [null] or
    [undefined] was written, and the buffer keeps what it held. *)
Theorem readOnly_round_trip (w : World) (isReadOnly : option (NotNull bool)) :
  (instance w = None ->
   (set_readOnly isReadOnly ;; get_readOnly) w
   = (Ret isReadOnly, with_readOnly isReadOnly w, [])) /\
  (forall h e, instance w = Some h -> editors w !! h = Some e ->
     (set_readOnly isReadOnly ;; get_readOnly) w
     = (Ret (Some (value (ed_coerce e isReadOnly))),
        set_editor h (ed_with_readOnly (ed_coerce e isReadOnly) e) w,
        [EdSetReadOnly h isReadOnly])).
Proof.
  split.
  - intros Hi. unfold set_readOnly, get_readOnly, bind, gets, modify.
    rewrite Hi. cbn. rewrite Hi. reflexivity.
  - intros h e Hi He.
    pose proof (set_readOnly_live_runs isReadOnly w h e Hi He) as H1.
    match type of H1 with runs _ _ _ ?w1 _ =>
      pose proof (get_readOnly_live_runs w1 h _ Hi (lookup_set_editor h e _ w He)) as H2
    end.
    exact (runs_bind _ (fun _ => get_readOnly) _ _ _ _ _ _ _ H1 H2).
Qed.

(** [null] written to a live editor that reads an omitted argument as
    [true]. *)
Lemma readOnly_round_trip_witness :
  let e := ed_with_status Ready plain_editor in
  let w := with_editors [e] (with_instance (Some 0) (constructed plain_editor)) in
  outcome ((set_readOnly None ;; get_readOnly) w) = Ret (Some (value true)).
Proof.
  intros e w.
  destruct (readOnly_round_trip w None) as (_ & H).
  rewrite (H 0 e eq_refl eq_refl). reflexivity.
Defined.

(** ** Further properties: a handshake after teardown *)

(** X12.  The [instanceReady] handler does not look at [destroyed].  When the
    component is torn down while its editor is still loading ([ngOnDestroy]
    finds no instance and destroys nothing) and the editor becomes ready
    afterwards, the handshake (of a handler that captured the user's callback
    or none) logs exactly what it logs on a component that was not torn
    down: it stores the editor as the instance, registers the listeners and
    emits ready, and [destroyed] stays set. *)
Theorem handshake_ignores_destroyed (w : World) (h : nat) (e : Editor) :
  instance w = None -> editors w !! h = Some e -> loading e ->
  user_supplied (ed_userCallback e) ->
  let x := handshake h (world_of (ngOnDestroy w)) in
  log_of (ngOnDestroy w) = [OutsideEnter; OutsideLeave] /\
  log_of x = log_of (handshake h w) /\
  count is_ready_emit (log_of x) = 1 /\
  instance (world_of x) = Some h /\
  _destroyed (world_of x) = true /\
  exists e', editors (world_of x) !! h = Some e' /\ subscribed e'.
Proof.
  intros Hnone He Hl Hus x.
  pose proof (ngOnDestroy_unbound w Hnone) as Hd0.
  apply runs_eq in Hd0. destruct Hd0 as (_ & Hw0 & Hlog0).
  subst x. rewrite Hw0, Hlog0.
  destruct (handshake_runs w h e He Hl Hus) as (w1 & H1).
  destruct (handshake_runs (with_destroyed true w) h e He Hl Hus) as (w2 & H2).
  destruct (handshake_state (with_destroyed true w) h e He Hl Hus)
    as (w3 & e3 & t3 & H3 & Hi & He3 & _ & Hs & _ & _ & _ & Hd & _).
  destruct (handshake_counts (with_destroyed true w) h e He Hl Hus) as (Hc & _).
  apply runs_eq in H1. destruct H1 as (_ & _ & Hlog1).
  apply runs_eq in H2. destruct H2 as (_ & _ & Hlog2).
  apply runs_eq in H3. destruct H3 as (_ & Hw3 & _).
  rewrite Hw3.
  split; [reflexivity|].
  split; [rewrite Hlog1, Hlog2; reflexivity|].
  split; [exact Hc|]. split; [exact Hi|]. split; [exact Hd|].
  exists e3. split; assumption.
Qed.

(** The component is destroyed while its editor is loading. *)
Lemma handshake_ignores_destroyed_witness :
  let w := awaiting_ready undo_editor in
  count is_ready_emit (log_of (handshake 0 (world_of (ngOnDestroy w)))) = 1 /\
  instance (world_of (handshake 0 (world_of (ngOnDestroy w)))) = Some 0.
Proof.
  intros w.
  destruct (handshake_ignores_destroyed w 0 (fresh_editor NotFunction undo_editor)
              eq_refl eq_refl (conj eq_refl (conj eq_refl eq_refl)) I)
    as (_ & _ & H1 & H2 & _).
  split; [exact H1 | exact H2].
Defined.

(** ** Further properties: the zone discipline *)

Lemma zoned_allowed m o t :
  allowed m o = true -> zoned m (o :: t) = zoned m t.
Proof.
  intros Ha. destruct o; cbn [zoned]; try (rewrite Ha; reflexivity);
    destruct m; discriminate Ha.
Qed.

Lemma stays_ret mode {A} (a : A) : stays mode (ret a).
Proof. intros w rest. reflexivity. Qed.

Lemma stays_throw mode {A} reason : stays mode (@throw A reason).
Proof. intros w rest. reflexivity. Qed.

Lemma stays_gets mode {A} (f : World -> A) : stays mode (gets f).
Proof. intros w rest. reflexivity. Qed.

Lemma stays_modify mode f : stays mode (modify f).
Proof. intros w rest. reflexivity. Qed.

Lemma stays_tell mode o : allowed mode o = true -> stays mode (tell o).
Proof. intros Ho w rest. cbn [tell log_of snd app]. now apply zoned_allowed. Qed.

Lemma stays_bind mode {A B} (m : M A) (k : A -> M B) :
  stays mode m -> (forall a, stays mode (k a)) -> stays mode (bind m k).
Proof.
  intros Hm Hk w rest. specialize (Hm w). unfold bind.
  destruct (m w) as [[[a|e] w1] t1]; cbn [log_of snd] in *.
  - specialize (Hk a w1). destruct (k a w1) as [[r w2] t2]. cbn [log_of snd] in *.
    now rewrite <- app_assoc, Hm, Hk.
  - apply Hm.
Qed.

Lemma stays_ngZone_run mode {A} (m : M A) :
  is_outside mode = false -> stays (inner mode) m -> stays mode (ngZone_run m).
Proof.
  intros Hmode Hm w rest. specialize (Hm w). unfold ngZone_run, bracket.
  destruct (m w) as [[r w1] t]. cbn [log_of snd] in *.
  destruct mode as [|depth|]; [| |discriminate Hmode];
    cbn [app zoned inner] in *; now rewrite <- app_assoc, Hm.
Qed.

Lemma stays_runOutsideAngular {A} (m : M A) :
  stays Outside m -> stays Top (ngZone_runOutsideAngular m).
Proof.
  intros Hm w rest. specialize (Hm w). unfold ngZone_runOutsideAngular, bracket.
  destruct (m w) as [[r w1] t]. cbn [log_of snd] in *.
  cbn [app zoned]. now rewrite <- app_assoc, Hm.
Qed.

Lemma stays_catch mode (m : M unit) handler :
  stays mode m -> (forall e, stays mode (handler e)) -> stays mode (catch m handler).
Proof.
  intros Hm Hh w rest. specialize (Hm w). unfold catch.
  destruct (m w) as [[[a|e] w1] t1]; cbn [log_of snd] in *; [apply Hm|].
  specialize (Hh e w1). destruct (handler e w1) as [[r w2] t2]. cbn [log_of snd] in *.
  now rewrite <- app_assoc, Hm, Hh.
Qed.

Lemma stays_forM_ mode {A} (l : list A) (f : A -> M unit) :
  (forall a, stays mode (f a)) -> stays mode (forM_ l f).
Proof.
  intros Hf. induction l as [|a l IH]; cbn [forM_].
  - apply stays_ret.
  - apply stays_bind; [apply Hf | intros _; exact IH].
Qed.

Lemma stays_the_editor mode h : stays mode (the_editor h).
Proof. intros w rest. unfold the_editor. destruct (editors w !! h); reflexivity. Qed.

Lemma stays_lift mode {A} (r : result A) : stays mode (lift r).
Proof. destruct r; [apply stays_ret | apply stays_throw]. Qed.

Ltac allowed_entry :=
  first [ reflexivity
        | match goal with |- allowed _ (Emit ?o _) = true => destruct o; reflexivity end
        | match goal with |- allowed _ (create_call ?ty _) = true =>
            destruct ty; reflexivity end ].

Ltac zone_step :=
  cbv beta; cbn [inner];
  lazymatch goal with
  | |- stays _ (ret _) => apply stays_ret
  | |- stays _ (throw _) => apply stays_throw
  | |- stays _ (gets _) => apply stays_gets
  | |- stays _ (modify _) => apply stays_modify
  | |- stays _ (lift _) => apply stays_lift
  | |- stays _ (tell _) => apply stays_tell; allowed_entry
  | |- stays _ (the_editor _) => apply stays_the_editor
  | |- stays _ (bind _ _) => apply stays_bind; [|intros ?]
  | |- stays _ (ngZone_run _) => apply stays_ngZone_run; [reflexivity|]
  | |- stays _ (ngZone_runOutsideAngular _) => apply stays_runOutsideAngular
  | |- stays _ (catch _ _) => apply stays_catch; [|intros ?]
  | |- stays _ (forM_ _ _) => apply stays_forM_; intros []; cbn [run_listener]
  | |- stays _ (when ?b _) => destruct b; cbn [when]
  | |- stays _ (match ?x with _ => _ end) => destruct x
  | |- stays _ (if ?b then _ else _) => destruct b
  end.

(** The pieces of the component that call no handler of the component. *)
Ltac zone_unfold :=
  progress unfold writeValue, set_data, set_readOnly, registerOnChange,
    registerOnTouched, ngAfterViewInit, ngOnDestroy, release_instance,
    namespace_then, console_error, createEditor, subscribe,
    editor_fire, dispatch, propagateChange,
    get_data, this_instance, editor_getData, editor_setData,
    editor_readOnly, editor_setReadOnly, editor_undoManager, undo_lock,
    undo_unlock, editor_on, editor_destroy, update_editor.

(** The handler of the component, in a zone or at the top, given that the
    block it ends with keeps the discipline there. *)
Lemma stays_instanceReady_with mode announce h u :
  is_outside mode = false -> stays mode announce ->
  stays mode (instanceReady_with announce h u).
Proof.
  intros Hmode Ha. unfold instanceReady_with.
  destruct mode as [|depth|]; [| |discriminate Hmode];
    repeat first [ exact Ha | zone_step | zone_unfold ].
Qed.

Lemma stays_announce_ready h u :
  forall mode, is_outside mode = false -> stays mode (announce_ready h u).
Proof.
  induction u as [| |u IH]; intros mode Hmode; cbn [announce_ready];
    (apply stays_ngZone_run; [exact Hmode|]);
    (assert (Hin : is_outside (inner mode) = false)
       by (destruct mode; [reflexivity | reflexivity | discriminate Hmode]));
    (apply stays_bind; [|intros _; destruct mode; [| |discriminate Hmode]; zone_step]).
  - apply stays_ret.
  - destruct mode; [| |discriminate Hmode]; zone_step.
  - apply stays_instanceReady_with; [exact Hin | apply IH, Hin].
Qed.

Lemma stays_run_callback c : stays Top (run_callback c).
Proof.
  destruct c as [h undo u]. cbn [run_callback].
  repeat first
    [ lazymatch goal with
      | |- stays _ (announce_ready _ _) => apply stays_announce_ready; reflexivity
      end
    | zone_step | zone_unfold ].
Qed.

Lemma stays_step i : stays Top (step i).
Proof.
  destruct i; cbn [step];
    repeat first
      [ lazymatch goal with
        | |- stays _ (run_callback _) => apply stays_run_callback
        | |- stays _ (instanceReady _ _) =>
            unfold instanceReady; apply stays_instanceReady_with;
            [reflexivity | apply stays_announce_ready; reflexivity]
        end
      | zone_step | zone_unfold ].
Qed.

(** X13.  The zone discipline, in every run of the event loop: each emission
    on an output other than [namespaceLoaded] and each call of a registered
    callback is made inside [ngZone.run]; each call of [CKEDITOR.replace],
    [CKEDITOR.inline] and [editor.destroy] is made inside
    [ngZone.runOutsideAngular], which is entered from the top of a task only
    and in which [ngZone.run] is not entered; every zone entered is left,
    also when an exception passes through.  [ngZone.run] can be entered
    inside [ngZone.run]: it is when the handler of the component calls, as
    the user's callback, a handler that an earlier [createEditor] left in
    the shared [config.on]. *)
Theorem zone_discipline (ins : list Input) (w : World) :
  zoned Top (snd (run ins w)) = true.
Proof.
  revert w. induction ins as [|i rest IH]; intros w; cbn [run]; [reflexivity|].
  pose proof (stays_step i w) as Hs.
  destruct (step i w) as [[r w1] t1]. cbn [log_of snd] in Hs.
  specialize (IH w1). destruct (run rest w1) as [w2 t2]. cbn [snd] in *.
  rewrite Hs. destruct r; [exact IH | exact IH].
Qed.

(** ** Further properties: what [createEditor] leaves in a shared [config.on] *)

(** X14.  [createEditor] stores its handler in the [on] object it shares with
    the component's [config], so the next [createEditor] finds that handler
    as [userInstanceReadyCallback].  The editor created then runs the
    handler twice when it becomes ready (with no buffered data): the outer
    handler applies the read-only state and subscribes, then, inside the
    zone, calls the inner one, which applies the read-only state and
    subscribes again and emits ready inside a nested [ngZone.run]; then the
    outer handler emits ready: two ready notifications, every listener
    registered twice. *)
Theorem handler_left_in_config (w : World) (f : Handler) (e e2 : Editor) :
  config_on w = OnObject f -> user_supplied f ->
  document_createElement w (tagName w) = Ret tt ->
  appendChild w (length (editors w)) = Ret tt ->
  CKEDITOR w (type w) (length (editors w)) = Ret e ->
  appendChild w (S (length (editors w))) = Ret tt ->
  CKEDITOR w (type w) (S (length (editors w))) = Ret e2 ->
  _data w = None ->
  let h := S (length (editors w)) in
  let w2 := world_of ((createEditor ;; createEditor) w) in
  config_on (world_of (createEditor w)) = OnObject (ComponentHandler f) /\
  config_on w2 = OnObject (ComponentHandler (ComponentHandler f)) /\
  exists e1,
    editors w2 !! h = Some e1 /\ loading e1 /\
    ed_userCallback e1 = ComponentHandler f /\
    let x := step (InstanceReady h) w2 in
    let isReadOnly := default (value (ed_readOnly e1)) (_readOnly w) in
    let again := default (value (ed_coerce e1 (Some isReadOnly))) (_readOnly w) in
    let undo := truthy (undoManager e1) in
    log_of x =
      setup_log h isReadOnly undo ++
      ZoneEnter :: setup_log h again undo ++ ready_log f ++
      [Emit ready (PEvent "instanceReady"); ZoneLeave] /\
    count is_ready_emit (log_of x) = 2 /\
    exists e', editors (world_of x) !! h = Some e' /\
               ed_listeners e' = subscriptions undo ++ subscriptions undo.
Proof.
  intros Hcfg Hf Hce Hac Hmk Hac2 Hmk2 Hd h w2.
  assert (Hne : config_on w <> OnNotObject) by (rewrite Hcfg; discriminate).
  pose proof (createEditor_runs w e Hce Hac Hne Hmk) as H1.
  set (w1 := with_editors (editors w ++ [fresh_editor (found_callback (config_on w)) e])
               (with_config_on (with_handler (config_on w)) w)) in H1.
  assert (Hlen : length (editors w1) = S (length (editors w)))
    by (unfold w1; cbn; rewrite length_app; cbn; lia).
  assert (Hcfg1 : config_on w1 = OnObject (ComponentHandler f))
    by (unfold w1; cbn; rewrite Hcfg; reflexivity).
  assert (Hd1 : _data w1 = None) by exact Hd.
  assert (Hro1 : _readOnly w1 = _readOnly w) by reflexivity.
  assert (Hce1 : document_createElement w1 (tagName w1) = Ret tt) by exact Hce.
  assert (Hac1 : appendChild w1 (length (editors w1)) = Ret tt)
    by (rewrite Hlen; exact Hac2).
  assert (Hmk1 : CKEDITOR w1 (type w1) (length (editors w1)) = Ret e2)
    by (rewrite Hlen; exact Hmk2).
  clearbody w1.
  assert (Hne1 : config_on w1 <> OnNotObject) by (rewrite Hcfg1; discriminate).
  pose proof (createEditor_runs w1 e2 Hce1 Hac1 Hne1 Hmk1) as H2.
  pose proof (runs_bind _ (fun _ => createEditor) _ _ _ _ _ _ _ H1 H2) as H12.
  apply runs_eq in H1. destruct H1 as (_ & Hw1 & _).
  apply runs_eq in H12. destruct H12 as (_ & Hw2 & _). fold w2 in Hw2.
  split; [rewrite Hw1; exact Hcfg1|].
  split.
  { rewrite Hw2. unfold with_editors, with_config_on. cbn [config_on].
    rewrite Hcfg1. reflexivity. }
  set (e1 := fresh_editor (ComponentHandler f) e2).
  assert (He1 : editors w2 !! h = Some e1).
  { rewrite Hw2. unfold with_editors, with_config_on. cbn [editors].
    rewrite Hcfg1. cbn [found_callback].
    unfold h. rewrite <- Hlen. apply list_lookup_middle. reflexivity. }
  exists e1. split; [exact He1|]. split; [repeat split|]. split; [reflexivity|].
  intros x isReadOnly again undo.
  assert (Hd2 : _data w2 = None) by (rewrite Hw2; exact Hd1).
  assert (Hro2 : _readOnly w2 = _readOnly w) by (rewrite Hw2; exact Hro1).
  assert (Hpush : _data w2 = None -> user_supplied (ed_userCallback e1) -> False)
    by (intros _ []).
  clearbody w2. clear Hw2 H2 Hw1.
  (* the outer handler, up to its [ngZone.run] *)
  destruct w2 as [cfg2 tg2 ty2 ro2 d2 dd2 i2 oc2 ot2 es2 ce2 ac2 mk2 pn2].
  cbn in He1, Hd2, Hro2. subst d2 ro2.
  remember e1 as e1' eqn:Ee1.
  destruct e1' as [ed_d ed_ro um ls cbs st eu flt co].
  assert (Est : st = Loading /\ ls = [] /\ cbs = [] /\ eu = ComponentHandler f).
  { unfold e1, fresh_editor in Ee1. inversion Ee1. repeat split. }
  destruct Est as (-> & -> & -> & ->). clear Ee1 e1. clear Hpush.
  subst isReadOnly again undo. cbn [ed_readOnly undoManager ed_coerce].
  set (ro := _readOnly w) in *. clearbody ro.
  set (hh := h) in *. clearbody hh. clear h.
  assert (Hrun : exists w' e',
             runs (step (InstanceReady hh))
               (mkWorld cfg2 tg2 ty2 ro None dd2 i2 oc2 ot2 es2 ce2 ac2 mk2 pn2) tt w'
               (setup_log hh (default (value ed_ro) ro) (truthy um) ++
                ZoneEnter ::
                  setup_log hh (default (value (co (Some (default (value ed_ro) ro)))) ro)
                    (truthy um) ++ ready_log f ++
                  [Emit ready (PEvent "instanceReady"); ZoneLeave]) /\
             editors w' !! hh = Some e' /\
             ed_listeners e' = subscriptions (truthy um) ++ subscriptions (truthy um)).
  { destruct um as [n|], ro as [b|], f as [| |f']; try destruct Hf;
      eexists; eexists;
      (split;
       [ eapply runs_conv;
         [ solve [repeat first
                    [ runs_pre;
                      lazymatch goal with
                      | |- runs (announce_ready _ (ComponentHandler _)) _ _ _ _ =>
                          cbn [announce_ready]; unfold instanceReady_with
                      end
                    | runs_more ]]
         | norm_world; reflexivity | log_eq ]
       | split; [solve_lookup | reflexivity] ]). }
  destruct Hrun as (w' & e' & Hr & He' & Hls).
  apply runs_eq in Hr. fold x in Hr. destruct Hr as (_ & Hw' & Hlog).
  split; [exact Hlog|].
  split.
  { rewrite Hlog. unfold setup_log, on_calls, subscriptions, ready_log.
    destruct (truthy um), f; try destruct Hf; reflexivity. }
  exists e'. rewrite Hw'. split; assumption.
Qed.

(** A [config.on] with an [instanceReady] callback of the user, and two
    calls of [createEditor]: the second editor emits ready twice. *)
Lemma handler_left_in_config_witness :
  let w := mkWorld (OnObject UserFunction) "textarea" CLASSIC None None false
             None None None []
             (fun _ => Ret tt) (fun _ => Ret tt) (fun _ _ => Ret plain_editor) 0 in
  count is_ready_emit
    (log_of (step (InstanceReady 1) (world_of ((createEditor ;; createEditor) w)))) = 2.
Proof.
  intros w.
  destruct (handler_left_in_config w UserFunction plain_editor plain_editor
              eq_refl I eq_refl eq_refl eq_refl eq_refl eq_refl eq_refl)
    as (_ & _ & e1 & _ & _ & _ & H).
  cbv zeta in H. destruct H as (_ & H & _). exact H.
Defined.

(** ** Further properties: an exception in [createEditor] *)

(** X15.  When a call of [createEditor] throws (the document refuses the tag
    name, the host element refuses the child, [config.on] cannot take the
    handler, or the namespace refuses to build the editor), the exception
    leaves the zone and goes to [console.error]: the task returns, nothing
    reaches the event loop, no editor is added and the instance reference,
    the buffers and the destroyed flag are as they were.  Only an exception
    of [CKEDITOR.replace]/[CKEDITOR.inline] comes after the handler was
    stored: a shared [config.on] then holds the handler of an editor that
    does not exist. *)
Theorem creation_error_is_reported (w : World) (n : nat) (reason : string) :
  pending_namespace w = S n -> _destroyed w = false ->
  creation_error w = Some reason ->
  let x := step NamespaceResolved w in
  outcome x = Ret tt /\
  (exists calls,
     log_of x = OutsideEnter :: calls ++ [OutsideLeave; ConsoleError reason] /\
     Forall (fun o => is_zone_marker o = false /\ is_notification o = false) calls) /\
  count is_uncaught (snd (run [NamespaceResolved] w)) = 0 /\
  editors (world_of x) = editors w /\
  instance (world_of x) = instance w /\
  _data (world_of x) = _data w /\
  _readOnly (world_of x) = _readOnly w /\
  _destroyed (world_of x) = false /\
  pending_namespace (world_of x) = n /\
  config_on (world_of x)
  = match document_createElement w (tagName w),
          appendChild w (length (editors w)) with
    | Ret _, Ret _ => with_handler (config_on w)
    | _, _ => config_on w
    end.
Proof.
  intros Hn Hd Herr x. subst x.
  destruct w as [cfg tg ty ro d dd i oc ot es ce ac mk pn].
  cbn in Hn, Hd. subst pn dd.
  unfold creation_error in Herr. cbn in Herr.
  cbn [run step]. unfold namespace_then, createEditor, ngZone_runOutsideAngular,
    bracket, catch, bind, gets, modify, tell, lift, ret, throw, console_error.
  cbn.
  destruct ty, (ce tg) as [[]|r1] eqn:Hce; cbn.
  1, 3: destruct (ac (length es)) as [[]|r2] eqn:Hac; cbn.
  1, 3: destruct cfg as [| |f]; cbn in *.
  all: try (destruct (mk _ (length es)) as [e0|r3]; [discriminate Herr|]).
  all: injection Herr as <-; cbn.
  all: repeat split; try reflexivity.
  all: first
         [ exists [CreateElement tg];
           split; [reflexivity | repeat constructor]
         | exists [CreateElement tg; AppendChild];
           split; [reflexivity | repeat constructor]
         | exists [CreateElement tg; AppendChild; CKReplace (length es)];
           split; [reflexivity | repeat constructor]
         | exists [CreateElement tg; AppendChild; CKInline (length es)];
           split; [reflexivity | repeat constructor] ].
Qed.

(** A tag name the document refuses. *)
Lemma creation_error_is_reported_witness :
  let w := mkWorld OnAbsent "not a tag" CLASSIC None None false None None None []
             (fun _ => Throw "InvalidCharacterError") (fun _ => Ret tt)
             (fun _ _ => Ret plain_editor) 1 in
  snd (run [NamespaceResolved] w)
  = [OutsideEnter; CreateElement "not a tag"; OutsideLeave;
     ConsoleError "InvalidCharacterError"] /\
  editors (fst (run [NamespaceResolved] w)) = [].
Proof.
  intros w.
  destruct (creation_error_is_reported w 0 "InvalidCharacterError"
              eq_refl eq_refl eq_refl) as (_ & _ & _ & He & _).
  split; [reflexivity|].
  rewrite run_single. exact He.
Defined.

